(** * The bonding-curve pricing engine

    A shallow embedding of the bonding-curve module of the application
    (the TypeScript functions [calculateBuyPrice], [calculateSellPrice],
    [calculatePriceAtSupply], [calculateMarketCap], [calculatePriceImpact],
    [calculateSlippage], [validateTrade] and [calculateOptimalTradeSize])
    and of the message list of its chat room, with the properties checked
    against them.

    Conventions of the embedding.

    - A call either returns a value or throws: every function of the curve
      module has a result of type [outcome], and the errors of the calls it
      makes are passed on in the order in which the code makes them.
    - A [BN] (bn.js arbitrary-precision integer) is a [Z].  [add], [sub],
      [mul], [abs], [lte], [lt], [gt], [eq] and [BN.max] are the operations
      of [Z] and never fail.  Three operations of bn.js fail, and so do
      their embeddings: [new BN(number)] asserts [number < 0x20000000000000],
      [toNumber()] asserts that the value has at most 53 bits, and [div]
      asserts that the divisor is not zero; a division that succeeds
      truncates toward zero and is [Z.quot].
    - A JavaScript [number] that holds a percentage or a display value is a
      rational [Q].
    - The only floating-point expression that reaches the integer
      arithmetic is [Math.floor(Math.pow(PRICE_MULTIPLIER, n) * 1000)].
      Its value is what the platform's [Math.pow] makes of it, so the
      engine is stated over an arbitrary table [n |-> that number], kept
      in the constants record in the place of [PRICE_MULTIPLIER].
    - [throw new Error(msg)] is the outcome [Thrown msg]. *)

From Stdlib Require Import ZArith List String QArith Qround Lia Bool.
From Equations Require Import Equations.
Import ListNotations.

Local Open Scope Z_scope.

(** ** Outcomes of a call *)

Inductive outcome (A : Type) : Type :=
| Returned (value : A)
| Thrown (message : string).

Arguments Returned {A} value.
Arguments Thrown {A} message.

(** A call followed by the rest of the function body: an error of the call
    ends the body. *)
Definition bind {A B : Type} (call : outcome A) (rest : A -> outcome B)
    : outcome B :=
  match call with
  | Returned value => rest value
  | Thrown message => Thrown message
  end.

Notation "'let*' x ':=' call 'in' rest" := (bind call (fun x => rest))
  (at level 10, x name, call at level 100, rest at level 200).

Definition number := Q.

(** [Math.min] on numbers. *)
Definition Math_min (a b : number) : number :=
  if Qle_bool a b then a else b.

(** ** The conversions of bn.js *)

(** [0x20000000000000], that is 2^53. *)
Definition SAFE_LIMIT : Z := 9007199254740992.

(** [new BN(number)] for a [number] that is an integer or an infinity:
    [_initNumber] takes the absolute value and ends in
    [assert(number < 0x20000000000000)], after which the words hold the
    number exactly.  An infinity fails the assertion like every integer from
    2^53 on, and is represented by any of them. *)
Definition new_BN (number : Z) : outcome Z :=
  if Z.abs number <? SAFE_LIMIT then Returned number
  else Thrown "Assertion failed".

(** [value.toNumber()]: a value of up to 53 bits is returned, any other
    ends in [assert(false, 'Number can only safely store up to 53 bits')]. *)
Definition toNumber (value : Z) : outcome Z :=
  if Z.abs value <? SAFE_LIMIT then Returned value
  else Thrown "Number can only safely store up to 53 bits".

(** [a.div(b)]: [divmod] starts with [assert(!num.isZero())]. *)
Definition BN_div (a b : Z) : outcome Z :=
  if b =? 0 then Thrown "Assertion failed" else Returned (Z.quot a b).

(** ** CURVE_CONSTANTS *)

(** The constants object.  The two floating-point entries are kept through
    the integers the engine derives from them:
    [PRICE_MULTIPLIER_pow_x1000 n] is the number
    [Math.floor(Math.pow(PRICE_MULTIPLIER, n) * 1000)], which the engine
    hands to [new BN], and [FEE_PERCENTAGE_x10000] is the value
    [new BN(FEE_PERCENTAGE * 10000)]. *)
Record CurveConstants : Type := {
  BASE_PRICE : Z;
  PRICE_MULTIPLIER_pow_x1000 : Z -> Z;
  MAX_SUPPLY : Z;
  TOKEN_DECIMALS : Z;
  FEE_PERCENTAGE_x10000 : Z;
  MIN_PRICE : Z
}.

(** [1.1 ^ n * 1000] rounded down, computed exactly. *)
Definition floor_pow_1_1_x1000 (n : Z) : Z := (1000 * 11 ^ n) / 10 ^ n.

(** The supplies at which [Math.floor(Math.pow(1.1, n) * 1000)], computed
    in double precision with a correctly rounded power, is not the exact
    value rounded down, each with the number the doubles give: the double
    [1.1] lies above 11/10, and from 225 units on the difference reaches
    the integer part. *)
Definition pow_1_1_x1000_roundings : list (Z * Z) :=
  [(225, 2057567827547); (231, 3645106918137); (239, 7813610400972);
   (246, 15226516201112); (249, 20266493063680); (250, 22293142370048);
   (251, 24522456607053); (253, 29672172494534); (255, 35903328718386);
   (256, 39493661590225); (257, 43443027749247); (258, 47787330524172);
   (259, 52566063576589); (260, 57822669934248); (261, 63604936927673);
   (262, 69965430620441); (263, 76961973682485); (264, 84658171050733);
   (265, 93123988155807); (266, 102436386971387); (267, 112680025668526);
   (268, 123948028235379); (269, 136342831058917); (270, 149977114164809);
   (271, 164974825581290); (272, 181472308139419); (273, 199619538953361);
   (274, 219581492848697); (275, 241539642133566); (276, 265693606346923);
   (277, 292262966981616); (278, 321489263679777); (279, 353638190047755);
   (280, 389002009052531); (281, 427902209957784); (282, 470692430953562);
   (283, 517761674048918); (284, 569537841453810); (285, 626491625599192);
   (286, 689140788159111); (287, 758054866975022); (288, 833860353672524);
   (289, 917246389039777); (290, 1008971027943755); (291, 1109868130738130);
   (292, 1220854943811943); (293, 1342940438193138); (294, 1477234482012452);
   (295, 1624957930213697); (296, 1787453723235067); (297, 1966199095558574);
   (298, 2162819005114432); (299, 2379100905625875); (300, 2617010996188463);
   (301, 2878712095807310); (302, 3166583305388041); (303, 3483241635926845);
   (304, 3831565799519530); (305, 4214722379471484); (306, 4636194617418633);
   (307, 5099814079160496); (308, 5609795487076546); (309, 6170775035784201);
   (310, 6787852539362622); (311, 7466637793298885); (312, 8213301572628774)].

(** [Math.floor(Math.pow(1.1, n) * 1000)] in double precision: the exact
    value rounded down up to 224 units, the number listed above where the
    rounding shows, up to 312 units.  From 313 units on the number is 2^53
    or more, as the exact value is, which stands for it there.  The general
    statements hold for every table and do not depend on this one. *)
Definition pow_1_1_x1000 (n : Z) : Z :=
  match find (fun entry => fst entry =? n) pow_1_1_x1000_roundings with
  | Some entry => snd entry
  | None => floor_pow_1_1_x1000 n
  end.

(** The constants of the source: base price 1_000_000 lamports, multiplier
    1.1, at most 1_000_000 tokens, 6 decimals, fee 2.5% (the double
    [0.025 * 10000] is 250), floor 100_000 lamports. *)
Definition CURVE_CONSTANTS : CurveConstants := {|
  BASE_PRICE := 1000000;
  PRICE_MULTIPLIER_pow_x1000 := pow_1_1_x1000;
  MAX_SUPPLY := 1000000;
  TOKEN_DECIMALS := 6;
  FEE_PERCENTAGE_x10000 := 250;
  MIN_PRICE := 100000
|}.

(** The fee rate as a fraction. *)
Definition feeRate (K : CurveConstants) : Q :=
  FEE_PERCENTAGE_x10000 K # 10000.

(** The invariant of the curve parameters: a fee rate in [0, 1), a positive
    price floor and a positive supply cap. *)
Record validParameters (K : CurveConstants) : Prop := {
  fee_in_range : 0 <= FEE_PERCENTAGE_x10000 K < 10000;
  min_price_positive : 0 < MIN_PRICE K;
  max_supply_positive : 0 < MAX_SUPPLY K
}.

(** A multiplier above 1: the scaled powers start at 1000 or more and never
    decrease. *)
Record increasingMultiplier (K : CurveConstants) : Prop := {
  first_power : 1000 <= PRICE_MULTIPLIER_pow_x1000 K 1;
  next_power : forall n, 1 <= n ->
    PRICE_MULTIPLIER_pow_x1000 K n <= PRICE_MULTIPLIER_pow_x1000 K (n + 1)
}.

(** ** Results *)

Record PriceCalculation : Type := {
  price : Z;
  totalCost : Z;
  fee : Z;
  netCost : Z;
  pricePerToken : number;
  marketCap : Z
}.

(** The [error] text of a validation result: a string literal, or the
    template
    [`Price impact (${priceImpact.toFixed(2)}%) exceeds maximum slippage (${maxSlippage}%)`]
    kept with the two numbers it prints. *)
Inductive errorText : Type :=
| Literal (text : string)
| PriceImpactExceeds (priceImpact maxSlippage : number).

Record TradeValidation : Type := {
  isValid : bool;
  error : option errorText
}.

(** ** The engine *)

(** [for (let i = 0; i < count; i++) body]: the loop state is threaded
    through [count] iterations, [i] counting up from its start value; an
    error in the body ends the loop. *)
Fixpoint forLoop {S : Type} (body : Z -> S -> outcome S) (count : nat)
    (i : Z) (state : S) : outcome S :=
  match count with
  | O => Returned state
  | Datatypes.S count' =>
      let* state' := body i state in
      forLoop body count' (i + 1) state'
  end.

Section Engine.

Variable K : CurveConstants.

(** Price at a specific supply level.  The division by [new BN(1000)]
    cannot fail. *)
Definition calculatePriceAtSupply (supply basePrice : Z) : outcome Z :=
  if supply <=? 0 then Returned basePrice
  else
    let* supplyNumber := toNumber supply in
    let multiplier_x1000 := PRICE_MULTIPLIER_pow_x1000 K supplyNumber in
    let* factor := new_BN multiplier_x1000 in
    let price := Z.quot (basePrice * factor) 1000 in
    Returned (Z.max price (MIN_PRICE K)).

(** Current market cap. *)
Definition calculateMarketCap (currentSupply basePrice : Z) : outcome Z :=
  if currentSupply <=? 0 then Returned 0
  else
    let* currentPrice := calculatePriceAtSupply currentSupply basePrice in
    Returned (currentPrice * currentSupply).

(** Body of the buy loop; the state is [(totalCost, currentPrice)].  The
    index [i] is below [amount.toNumber()], so [new BN(i)] is built. *)
Definition buyStep (currentSupply basePrice : Z) (i : Z) (state : Z * Z)
    : outcome (Z * Z) :=
  let tokenIndex := currentSupply + i in
  let* price := calculatePriceAtSupply tokenIndex basePrice in
  Returned (fst state + price, price).

(** Price for buying [amount] tokens.  The loop condition reads
    [amount.toNumber()] before the first iteration, and the same number
    before every other; the division of the fee by [new BN(10000)] cannot
    fail. *)
Definition calculateBuyPrice (currentSupply amount basePrice : Z)
    : outcome PriceCalculation :=
  let* count := toNumber amount in
  let* state :=
    forLoop (buyStep currentSupply basePrice) (Z.to_nat count) 0 (0, 0) in
  let totalCost := fst state in
  let currentPrice := snd state in
  let fee := Z.quot (totalCost * FEE_PERCENTAGE_x10000 K) 10000 in
  let netCost := totalCost + fee in
  let* priceNumber := toNumber currentPrice in
  let pricePerToken := priceNumber # 1000000000 in
  let* marketCap := calculateMarketCap (currentSupply + amount) basePrice in
  Returned
    {| price := currentPrice; totalCost := totalCost; fee := fee;
       netCost := netCost; pricePerToken := pricePerToken;
       marketCap := marketCap |}.

(** Body of the sell loop; the state is [(totalRevenue, currentPrice)]. *)
Definition sellStep (currentSupply basePrice : Z) (i : Z) (state : Z * Z)
    : outcome (Z * Z) :=
  let tokenIndex := currentSupply - (i + 1) in
  let* price := calculatePriceAtSupply tokenIndex basePrice in
  Returned (fst state + price, price).

(** Price for selling [amount] tokens. *)
Definition calculateSellPrice (currentSupply amount basePrice : Z)
    : outcome PriceCalculation :=
  if currentSupply <? amount then
    Thrown "Cannot sell more tokens than current supply"
  else
    let* count := toNumber amount in
    let* state :=
      forLoop (sellStep currentSupply basePrice) (Z.to_nat count) 0 (0, 0) in
    let totalRevenue := fst state in
    let currentPrice := snd state in
    let fee := Z.quot (totalRevenue * FEE_PERCENTAGE_x10000 K) 10000 in
    let netRevenue := totalRevenue - fee in
    let* priceNumber := toNumber currentPrice in
    let pricePerToken := priceNumber # 1000000000 in
    let* marketCap := calculateMarketCap (currentSupply - amount) basePrice in
    Returned
      {| price := currentPrice; totalCost := totalRevenue; fee := fee;
         netCost := netRevenue; pricePerToken := pricePerToken;
         marketCap := marketCap |}.

(** Price impact of a trade, in percent. *)
Definition calculatePriceImpact (currentSupply tradeAmount : Z)
    (isBuy : bool) (basePrice : Z) : outcome number :=
  let* currentPrice := calculatePriceAtSupply currentSupply basePrice in
  let* newPrice :=
    if isBuy
    then calculatePriceAtSupply (currentSupply + tradeAmount) basePrice
    else calculatePriceAtSupply (currentSupply - tradeAmount) basePrice in
  let priceDiff := Z.abs (newPrice - currentPrice) in
  let* quotient := BN_div (priceDiff * 10000) currentPrice in
  let* hundredths := toNumber quotient in
  let impact := hundredths # 100 in
  Returned (Math_min impact (100 # 1)).

(** The last check of [validateTrade], the code after the supply checks,
    reached from both branches; the price impact is computed with the
    default base price. *)
Definition checkPriceImpact (currentSupply amount : Z) (isBuy : bool)
    (maxSlippage : number) : outcome TradeValidation :=
  let* priceImpact :=
    calculatePriceImpact currentSupply amount isBuy (BASE_PRICE K) in
  if negb (Qle_bool priceImpact maxSlippage) then
    Returned
      {| isValid := false;
         error := Some (PriceImpactExceeds priceImpact maxSlippage) |}
  else Returned {| isValid := true; error := None |}.

(** Validation of the trade parameters. *)
Definition validateTrade (currentSupply amount : Z) (isBuy : bool)
    (maxSlippage : number) : outcome TradeValidation :=
  if amount <=? 0 then
    Returned
      {| isValid := false;
         error := Some (Literal "Amount must be greater than 0") |}
  else if isBuy then
    let newSupply := currentSupply + amount in
    if newSupply >? MAX_SUPPLY K then
      Returned
        {| isValid := false;
           error := Some (Literal "Exceeds maximum supply") |}
    else checkPriceImpact currentSupply amount isBuy maxSlippage
  else
    if amount >? currentSupply then
      Returned
        {| isValid := false;
           error := Some (Literal "Cannot sell more than current supply") |}
    else checkPriceImpact currentSupply amount isBuy maxSlippage.

End Engine.

(** ** Optimal trade size *)

(** The [while (low.lte(high))] loop of [calculateOptimalTradeSize], as a
    function of the loop state [(low, high, optimal)].  The midpoint of a
    non-empty interval lies inside it, so every iteration shrinks the
    interval and the loop ends: with the amount found so far, or with the
    error of the first price impact that cannot be computed. *)
Equations? searchLoop (K : CurveConstants) (currentSupply : Z)
    (maxPriceImpact : number) (isBuy : bool) (basePrice : Z)
    (low high optimal : Z) : outcome Z
    by wf (Z.to_nat (high + 1 - low)) lt :=
  searchLoop K currentSupply maxPriceImpact isBuy basePrice low high optimal
    with Z_le_gt_dec low high := {
    | right _ := Returned optimal
    | left _
        with calculatePriceImpact K currentSupply (Z.quot (low + high) 2)
               isBuy basePrice := {
        | Thrown message := Thrown message
        | Returned impact with Qle_bool impact maxPriceImpact := {
            | true :=
                searchLoop K currentSupply maxPriceImpact isBuy basePrice
                  (Z.quot (low + high) 2 + 1) high (Z.quot (low + high) 2)
            | false :=
                searchLoop K currentSupply maxPriceImpact isBuy basePrice
                  low (Z.quot (low + high) 2 - 1) optimal } } }.
Proof.
  all: Z.to_euclidean_division_equations; lia.
Qed.

(** Optimal trade size for a bound on the price impact. *)
Definition calculateOptimalTradeSize (K : CurveConstants) (currentSupply : Z)
    (maxPriceImpact : number) (isBuy : bool) (basePrice : Z) : outcome Z :=
  let low := 1 in
  let high := if isBuy then MAX_SUPPLY K - currentSupply else currentSupply in
  let optimal := 1 in
  searchLoop K currentSupply maxPriceImpact isBuy basePrice low high optimal.

(** ** The rest of the curve module *)

(** Slippage between an expected and an actual price, in percent.  The
    divisor is not zero where the division is reached. *)
Definition calculateSlippage (expectedPrice actualPrice : Z)
    : outcome number :=
  if expectedPrice =? 0 then Returned (0 # 1)
  else
    let* quotient :=
      BN_div (Z.abs (actualPrice - expectedPrice) * 10000) expectedPrice in
    let* hundredths := toNumber quotient in
    let slippage := hundredths # 100 in
    Returned (Math_min slippage (100 # 1)).

(** ** Vocabulary of the statements *)

(** A value that [new BN] and [toNumber] accept. *)
Definition safe (value : Z) : Prop := Z.abs value < SAFE_LIMIT.

(** The supplies at which [calculatePriceAtSupply] returns: up to 0 no
    conversion is made; above, the supply and the scaled power of the
    multiplier have to be safe. *)
Definition priceComputable (K : CurveConstants) (supply : Z) : Prop :=
  supply <= 0
  \/ (safe supply /\ safe (PRICE_MULTIPLIER_pow_x1000 K supply)).

(** The value [calculatePriceAtSupply] returns where it returns. *)
Definition priceAt (K : CurveConstants) (supply basePrice : Z) : Z :=
  if supply <=? 0 then basePrice
  else
    Z.max (Z.quot (basePrice * PRICE_MULTIPLIER_pow_x1000 K supply) 1000)
      (MIN_PRICE K).

(** The supply after a trade. *)
Definition supplyAfter (currentSupply tradeAmount : Z) (isBuy : bool) : Z :=
  if isBuy then currentSupply + tradeAmount else currentSupply - tradeAmount.

(** The quotient [priceDiff * 10000 / currentPrice] of a price move, in
    hundredths of a percent, and the percentage made of it. *)
Definition hundredthsOf (currentPrice newPrice : Z) : Z :=
  Z.quot (Z.abs (newPrice - currentPrice) * 10000) currentPrice.

Definition percentageOf (currentPrice newPrice : Z) : number :=
  Math_min (hundredthsOf currentPrice newPrice # 100) (100 # 1).

(** The upper end of the interval [1, bound] the search starts from. *)
Definition searchBound (K : CurveConstants) (currentSupply : Z) (isBuy : bool)
    : Z :=
  if isBuy then MAX_SUPPLY K - currentSupply else currentSupply.

(** The two answers of the test [impact <= maxPriceImpact] of the search:
    the price impact of the amount is computed and is within the bound, or
    is computed and exceeds it. *)
Definition withinImpact (K : CurveConstants) (currentSupply : Z)
    (maxPriceImpact : number) (isBuy : bool) (basePrice : Z) (amount : Z)
    : Prop :=
  exists impact,
    calculatePriceImpact K currentSupply amount isBuy basePrice
    = Returned impact
    /\ (impact <= maxPriceImpact)%Q.

Definition exceedsImpact (K : CurveConstants) (currentSupply : Z)
    (maxPriceImpact : number) (isBuy : bool) (basePrice : Z) (amount : Z)
    : Prop :=
  exists impact,
    calculatePriceImpact K currentSupply amount isBuy basePrice
    = Returned impact
    /\ (maxPriceImpact < impact)%Q.

(** The errors bn.js raises. *)
Definition libraryError (message : string) : Prop :=
  message = "Assertion failed"%string
  \/ message = "Number can only safely store up to 53 bits"%string.

(** The indices [first, first + 1, ..., first + count - 1]. *)
Definition range (first count : nat) : list Z :=
  map Z.of_nat (seq first count).

(** The sum of [f i] over the indices [i] of a list. *)
Definition sumOver (f : Z -> Z) (indices : list Z) : Z :=
  fold_right (fun i acc => f i + acc) 0 indices.

(** A validation result that carries a literal error text. *)
Definition invalid (text : string) : TradeValidation :=
  {| isValid := false; error := Some (Literal text) |}.

(** The constants with another supply cap, and with another fee. *)
Definition withMaxSupply (K : CurveConstants) (maxSupply : Z)
    : CurveConstants :=
  {| BASE_PRICE := BASE_PRICE K;
     PRICE_MULTIPLIER_pow_x1000 := PRICE_MULTIPLIER_pow_x1000 K;
     MAX_SUPPLY := maxSupply;
     TOKEN_DECIMALS := TOKEN_DECIMALS K;
     FEE_PERCENTAGE_x10000 := FEE_PERCENTAGE_x10000 K;
     MIN_PRICE := MIN_PRICE K |}.

Definition withFee (K : CurveConstants) (fee_x10000 : Z) : CurveConstants :=
  {| BASE_PRICE := BASE_PRICE K;
     PRICE_MULTIPLIER_pow_x1000 := PRICE_MULTIPLIER_pow_x1000 K;
     MAX_SUPPLY := MAX_SUPPLY K;
     TOKEN_DECIMALS := TOKEN_DECIMALS K;
     FEE_PERCENTAGE_x10000 := fee_x10000;
     MIN_PRICE := MIN_PRICE K |}.

(** ** The chat room's message list *)

(** The [Message] objects of the chat room and the two state updates that
    [handleLike] and [handleTip] pass to [setMessages]: each is a function
    from the previous list to the next.  The counters [likes] and [tips]
    are integers, [timestamp] is the date in milliseconds, and [connected]
    is the wallet flag the component reads. *)
Module ChatRoom.

Record Sender : Type := {
  publicKey : string;
  username : string;
  avatar : option string;
  tokenPrice : number;
  priceChange : number;
  isCreator : bool
}.

Record Message : Type := {
  id : string;
  sender : Sender;
  content : string;
  timestamp : Z;
  tips : Z;
  likes : Z;
  isLiked : bool;
  isTipped : bool
}.

Definition handleLike (messageId : string) (prev : list Message)
    : list Message :=
  map (fun msg =>
         if String.eqb (id msg) messageId then
           {| id := id msg; sender := sender msg; content := content msg;
              timestamp := timestamp msg; tips := tips msg;
              likes := if isLiked msg then likes msg - 1 else likes msg + 1;
              isLiked := negb (isLiked msg);
              isTipped := isTipped msg |}
         else msg)
    prev.

Definition handleTip (connected : bool) (messageId : string)
    (prev : list Message) : list Message :=
  if negb connected then prev
  else
    map (fun msg =>
           if String.eqb (id msg) messageId then
             {| id := id msg; sender := sender msg; content := content msg;
                timestamp := timestamp msg;
                tips := if isTipped msg then tips msg - 1 else tips msg + 1;
                likes := likes msg; isLiked := isLiked msg;
                isTipped := negb (isTipped msg) |}
           else msg)
      prev.

End ChatRoom.

(** * Properties *)

(** ** The engine on the constants of the source *)

Example prices_of_the_first_units :
  map (fun supply =>
         calculatePriceAtSupply CURVE_CONSTANTS supply
           (BASE_PRICE CURVE_CONSTANTS))
    [0; 1; 2; 3; 4]
  = map Returned [1000000; 1100000; 1210000; 1331000; 1464000].
Proof. vm_compute. reflexivity. Qed.

Example buy_three_at_supply_two :
  calculateBuyPrice CURVE_CONSTANTS 2 3 (BASE_PRICE CURVE_CONSTANTS)
  = Returned
      {| price := 1464000; totalCost := 4005000; fee := 100125;
         netCost := 4105125; pricePerToken := 1464000 # 1000000000;
         marketCap := 8050000 |}.
Proof. vm_compute. reflexivity. Qed.

Example sell_three_at_supply_five :
  calculateSellPrice CURVE_CONSTANTS 5 3 (BASE_PRICE CURVE_CONSTANTS)
  = Returned
      {| price := 1210000; totalCost := 4005000; fee := 100125;
         netCost := 3904875; pricePerToken := 1210000 # 1000000000;
         marketCap := 2420000 |}.
Proof. vm_compute. reflexivity. Qed.

Example impact_of_buying_at_supply_three :
  map (fun amount =>
         calculatePriceImpact CURVE_CONSTANTS 3 amount true
           (BASE_PRICE CURVE_CONSTANTS))
    [1; 2; 8]
  = map Returned [999 # 100; 2096 # 100; 100 # 1].
Proof. vm_compute. reflexivity. Qed.

Example validate_buy_within_ten_percent :
  validateTrade CURVE_CONSTANTS 3 1 true (10 # 1)
  = Returned {| isValid := true; error := None |}
  /\ validateTrade CURVE_CONSTANTS 3 1 true (5 # 1)
     = Returned
         {| isValid := false;
            error := Some (PriceImpactExceeds (999 # 100) (5 # 1)) |}.
Proof. split; vm_compute; reflexivity. Qed.

Example optimal_sale_at_supply_twenty :
  calculateOptimalTradeSize CURVE_CONSTANTS 20 (50 # 1) false
    (BASE_PRICE CURVE_CONSTANTS) = Returned 7
  /\ calculatePriceImpact CURVE_CONSTANTS 20 7 false (BASE_PRICE CURVE_CONSTANTS)
     = Returned (4868 # 100)
  /\ calculatePriceImpact CURVE_CONSTANTS 20 8 false (BASE_PRICE CURVE_CONSTANTS)
     = Returned (5335 # 100).
Proof. repeat split; vm_compute; reflexivity. Qed.

(** Where the conversions of bn.js end the engine.  The price of the unit
    at supply 241 no longer fits [toNumber], so a quote that ends on it is
    not returned, while the sale of the two units above supply 240 is. *)
Example quotes_past_the_safe_prices :
  calculateBuyPrice CURVE_CONSTANTS 241 1 (BASE_PRICE CURVE_CONSTANTS)
  = Thrown "Number can only safely store up to 53 bits"
  /\ calculateSellPrice CURVE_CONSTANTS 242 1 (BASE_PRICE CURVE_CONSTANTS)
     = Thrown "Number can only safely store up to 53 bits"
  /\ calculateBuyPrice CURVE_CONSTANTS 240 2 (BASE_PRICE CURVE_CONSTANTS)
     = Thrown "Number can only safely store up to 53 bits"
  /\ (exists q,
        calculateSellPrice CURVE_CONSTANTS 242 2 (BASE_PRICE CURVE_CONSTANTS)
        = Returned q)
  /\ validateTrade CURVE_CONSTANTS 242 1 false (100 # 1)
     = Returned {| isValid := true; error := None |}.
Proof.
  split; [vm_compute; reflexivity |].
  split; [vm_compute; reflexivity |].
  split; [vm_compute; reflexivity |].
  split; [eexists; vm_compute; reflexivity |].
  vm_compute; reflexivity.
Qed.

(** The quotient of the price impact can leave the range of [toNumber]
    before the cap at 100 is applied. *)
Example impact_past_the_safe_quotients :
  calculatePriceImpact CURVE_CONSTANTS 0 289 true (BASE_PRICE CURVE_CONSTANTS)
  = Thrown "Number can only safely store up to 53 bits"
  /\ calculateSlippage 1 900719925476
     = Thrown "Number can only safely store up to 53 bits".
Proof. split; vm_compute; reflexivity. Qed.

(** ** Calls and their errors *)

Lemma bind_returned {A B : Type} (call : outcome A) (rest : A -> outcome B)
    (result : B) :
  bind call rest = Returned result
  <-> exists value, call = Returned value /\ rest value = Returned result.
Proof.
  destruct call as [value | message]; cbn [bind]; split.
  - intros Hrest. exists value. split; [reflexivity | exact Hrest].
  - intros [value' [Hvalue Hrest]]. injection Hvalue as ->. exact Hrest.
  - discriminate.
  - intros [value' [Hvalue _]]. discriminate.
Qed.

Lemma bind_thrown {A B : Type} (call : outcome A) (rest : A -> outcome B)
    (message : string) :
  bind call rest = Thrown message ->
  call = Thrown message
  \/ exists value, call = Returned value /\ rest value = Thrown message.
Proof.
  destruct call as [value | message']; cbn [bind]; intros Hthrown.
  - right. exists value. split; [reflexivity | exact Hthrown].
  - left. injection Hthrown as ->. reflexivity.
Qed.

Lemma toNumber_returned (value result : Z) :
  toNumber value = Returned result <-> safe value /\ result = value.
Proof.
  unfold toNumber, safe.
  destruct (Z.ltb_spec (Z.abs value) SAFE_LIMIT) as [Hlt | Hge]; split.
  - intros Hresult. injection Hresult as <-. split; [exact Hlt | reflexivity].
  - intros [_ ->]. reflexivity.
  - discriminate.
  - intros [Hlt _]. lia.
Qed.

Lemma toNumber_safe (value : Z) :
  safe value -> toNumber value = Returned value.
Proof. intros Hsafe. apply toNumber_returned. split; [exact Hsafe | reflexivity]. Qed.

Lemma toNumber_thrown (value : Z) (message : string) :
  toNumber value = Thrown message ->
  ~ safe value
  /\ message = "Number can only safely store up to 53 bits"%string.
Proof.
  unfold toNumber, safe.
  destruct (Z.ltb_spec (Z.abs value) SAFE_LIMIT) as [Hlt | Hge];
    [discriminate |].
  intros Hthrown. injection Hthrown as <-. split; [lia | reflexivity].
Qed.

Lemma toNumber_unsafe (value : Z) :
  ~ safe value ->
  toNumber value = Thrown "Number can only safely store up to 53 bits".
Proof.
  unfold toNumber, safe.
  destruct (Z.ltb_spec (Z.abs value) SAFE_LIMIT) as [Hlt | Hge];
    [intros Hnot; contradiction | reflexivity].
Qed.

Lemma new_BN_returned (value result : Z) :
  new_BN value = Returned result <-> safe value /\ result = value.
Proof.
  unfold new_BN, safe.
  destruct (Z.ltb_spec (Z.abs value) SAFE_LIMIT) as [Hlt | Hge]; split.
  - intros Hresult. injection Hresult as <-. split; [exact Hlt | reflexivity].
  - intros [_ ->]. reflexivity.
  - discriminate.
  - intros [Hlt _]. lia.
Qed.

Lemma new_BN_safe (value : Z) : safe value -> new_BN value = Returned value.
Proof. intros Hsafe. apply new_BN_returned. split; [exact Hsafe | reflexivity]. Qed.

Lemma new_BN_thrown (value : Z) (message : string) :
  new_BN value = Thrown message ->
  ~ safe value /\ message = "Assertion failed"%string.
Proof.
  unfold new_BN, safe.
  destruct (Z.ltb_spec (Z.abs value) SAFE_LIMIT) as [Hlt | Hge];
    [discriminate |].
  intros Hthrown. injection Hthrown as <-. split; [lia | reflexivity].
Qed.

Lemma new_BN_unsafe (value : Z) :
  ~ safe value -> new_BN value = Thrown "Assertion failed".
Proof.
  unfold new_BN, safe.
  destruct (Z.ltb_spec (Z.abs value) SAFE_LIMIT) as [Hlt | Hge];
    [intros Hnot; contradiction | reflexivity].
Qed.

Lemma BN_div_returned (a b result : Z) :
  BN_div a b = Returned result <-> b <> 0 /\ result = Z.quot a b.
Proof.
  unfold BN_div. destruct (Z.eqb_spec b 0) as [Hzero | Hne]; split.
  - discriminate.
  - intros [Hne _]. contradiction.
  - intros Hresult. injection Hresult as <-. split; [exact Hne | reflexivity].
  - intros [_ ->]. reflexivity.
Qed.

Lemma BN_div_thrown (a b : Z) (message : string) :
  BN_div a b = Thrown message -> b = 0 /\ message = "Assertion failed"%string.
Proof.
  unfold BN_div. destruct (Z.eqb_spec b 0) as [Hzero | Hne];
    [| discriminate].
  intros Hthrown. injection Hthrown as <-. split; [exact Hzero | reflexivity].
Qed.

Lemma safe_between (value bound : Z) :
  0 <= value <= bound -> safe bound -> safe value.
Proof. unfold safe. lia. Qed.

(** ** Sums of per-unit prices *)

Lemma sumOver_ext (f g : Z -> Z) (indices : list Z) :
  (forall i, In i indices -> f i = g i) ->
  sumOver f indices = sumOver g indices.
Proof.
  induction indices as [| i rest IH]; intros Hfg; simpl.
  - reflexivity.
  - rewrite (Hfg i) by (left; reflexivity).
    rewrite IH by (intros j Hj; apply Hfg; right; exact Hj).
    reflexivity.
Qed.

Lemma sumOver_app (f : Z -> Z) (xs ys : list Z) :
  sumOver f (xs ++ ys) = sumOver f xs + sumOver f ys.
Proof.
  induction xs as [| x xs IH]; simpl; [reflexivity | rewrite IH; ring].
Qed.

Lemma sumOver_nonneg (f : Z -> Z) (indices : list Z) :
  (forall i, In i indices -> 0 <= f i) -> 0 <= sumOver f indices.
Proof.
  induction indices as [| i rest IH]; intros Hf; simpl.
  - lia.
  - assert (0 <= f i) by (apply Hf; left; reflexivity).
    assert (0 <= sumOver f rest)
      by (apply IH; intros j Hj; apply Hf; right; exact Hj).
    lia.
Qed.

(** Moving the first index up by one shifts the summand. *)
Lemma sumOver_range_shift (f : Z -> Z) (first count : nat) :
  sumOver f (range (S first) count)
  = sumOver (fun i => f (i + 1)) (range first count).
Proof.
  unfold range, sumOver. rewrite <- seq_shift, map_map.
  induction (seq first count) as [| j rest IH]; cbn [map fold_right].
  - reflexivity.
  - rewrite IH. f_equal. f_equal. lia.
Qed.

Lemma range_last (first count : nat) :
  range first (S count) = range first count ++ [Z.of_nat (first + count)].
Proof.
  unfold range. rewrite seq_S, map_app. reflexivity.
Qed.

Lemma in_range (first count : nat) (i : Z) :
  In i (range first count) ->
  Z.of_nat first <= i < Z.of_nat first + Z.of_nat count.
Proof.
  unfold range. rewrite in_map_iff. intros [j [Hj Hin]].
  apply in_seq in Hin. lia.
Qed.

Lemma range_length (first count : nat) :
  List.length (range first count) = count.
Proof. unfold range. rewrite length_map, length_seq. reflexivity. Qed.

(** Summing downwards from [count - 1] visits the same indices as summing
    upwards from 0. *)
Lemma sumOver_reversed (g : Z -> Z) (count : nat) :
  sumOver (fun i => g (Z.of_nat count - i)) (range 1 count)
  = sumOver g (range 0 count).
Proof.
  induction count as [| count IH].
  - reflexivity.
  - rewrite (range_last 0 count), sumOver_app, <- IH.
    change (range 1 (S count)) with (1 :: range 2 count).
    cbn [sumOver fold_right].
    fold (sumOver (fun i => g (Z.of_nat (S count) - i)) (range 2 count)).
    rewrite sumOver_range_shift.
    rewrite (sumOver_ext (fun i => g (Z.of_nat (S count) - (i + 1)))
               (fun i => g (Z.of_nat count - i)))
      by (intros i _; f_equal; lia).
    replace (Z.of_nat (S count) - 1) with (Z.of_nat (0 + count)) by lia.
    ring.
Qed.

(** A sum lies between the number of its terms times a lower bound and
    times an upper bound of the terms. *)
Lemma sumOver_between (f : Z -> Z) (low high : Z) (indices : list Z) :
  (forall i, In i indices -> low <= f i <= high) ->
  Z.of_nat (List.length indices) * low <= sumOver f indices
  <= Z.of_nat (List.length indices) * high.
Proof.
  induction indices as [| i rest IH]; intros Hf.
  - cbn. lia.
  - assert (Hi : low <= f i <= high) by (apply Hf; left; reflexivity).
    assert (Hrest :
      Z.of_nat (List.length rest) * low <= sumOver f rest
      <= Z.of_nat (List.length rest) * high)
      by (apply IH; intros j Hj; apply Hf; right; exact Hj).
    cbn [List.length sumOver fold_right]. fold (sumOver f rest). lia.
Qed.

(** Sums over adjacent ranges add up. *)
Lemma sumOver_range_offset (f : Z -> Z) (first count : nat) :
  sumOver f (range first count)
  = sumOver (fun i => f (i + Z.of_nat first)) (range 0 count).
Proof.
  revert f. induction first as [| first IH]; intros f.
  - apply sumOver_ext. intros i _. f_equal. lia.
  - rewrite sumOver_range_shift, IH.
    apply sumOver_ext. intros i _. f_equal. lia.
Qed.

Lemma sumOver_range_split (f : Z -> Z) (count count' : nat) :
  sumOver f (range 0 (count + count'))
  = sumOver f (range 0 count)
    + sumOver (fun i => f (Z.of_nat count + i)) (range 0 count').
Proof.
  unfold range at 1. rewrite seq_app, map_app, sumOver_app.
  change (map Z.of_nat (seq 0 count)) with (range 0 count).
  change (map Z.of_nat (seq (0 + count) count')) with (range count count').
  rewrite (sumOver_range_offset f count count'). f_equal.
  apply sumOver_ext. intros i _. f_equal. lia.
Qed.

(** ** The accumulating loops *)

(** A loop that asks for the price of unit [i], adds it to the first
    component of its state and records it in the second.  When the loop
    returns, every unit it visited was priced, the first component grew by
    the sum of the prices and the second holds the last one. *)
Lemma forLoop_accumulates (unit : Z -> outcome Z) (value : Z -> Z) :
  (forall i p, unit i = Returned p -> p = value i) ->
  forall (count : nat) (i : Z) (state state' : Z * Z),
    forLoop
      (fun i state =>
         let* price := unit i in Returned (fst state + price, price))
      count i state
    = Returned state' ->
    (forall j, 0 <= j < Z.of_nat count ->
       unit (i + j) = Returned (value (i + j)))
    /\ fst state'
       = fst state + sumOver (fun j => value (i + j)) (range 0 count)
    /\ snd state'
       = match count with
         | O => snd state
         | S count' => value (i + Z.of_nat count')
         end.
Proof.
  intros Hunit. induction count as [| count IH]; intros i state state' Hloop.
  - cbn [forLoop] in Hloop. injection Hloop as <-.
    split; [intros j Hj; lia |]. split; [cbn; lia | reflexivity].
  - cbn [forLoop] in Hloop.
    apply bind_returned in Hloop as [state1 [Hbody Hloop]].
    apply bind_returned in Hbody as [p [Hp Hstate1]].
    injection Hstate1 as <-.
    pose proof (Hunit _ _ Hp) as Hvalue. subst p.
    apply IH in Hloop as [Hall [Hfst Hsnd]]. cbn [fst snd] in Hfst, Hsnd.
    split; [| split].
    + intros j Hj. destruct (Z.eq_dec j 0) as [-> | Hne].
      * rewrite Z.add_0_r. exact Hp.
      * replace (i + j) with (i + 1 + (j - 1)) by lia. apply Hall. lia.
    + rewrite Hfst.
      change (range 0 (S count)) with (0 :: range 1 count).
      cbn [sumOver fold_right].
      fold (sumOver (fun j => value (i + j)) (range 1 count)).
      rewrite sumOver_range_shift.
      rewrite (sumOver_ext (fun j => value (i + 1 + j))
                 (fun j => value (i + (j + 1))))
        by (intros j _; f_equal; lia).
      rewrite Z.add_0_r. lia.
    + destruct count as [| count'].
      * rewrite Hsnd. f_equal. lia.
      * rewrite Hsnd. f_equal. lia.
Qed.

(** The loop returns when every unit it visits is priced. *)
Lemma forLoop_returns (unit : Z -> outcome Z) (value : Z -> Z) :
  forall (count : nat) (i : Z) (state : Z * Z),
    (forall j, 0 <= j < Z.of_nat count ->
       unit (i + j) = Returned (value (i + j))) ->
    exists state',
      forLoop
        (fun i state =>
           let* price := unit i in Returned (fst state + price, price))
        count i state
      = Returned state'.
Proof.
  induction count as [| count IH]; intros i state Hall.
  - exists state. reflexivity.
  - cbn [forLoop].
    pose proof (Hall 0 ltac:(lia)) as Hfirst. rewrite Z.add_0_r in Hfirst.
    rewrite Hfirst. cbn [bind]. apply IH.
    intros j Hj. replace (i + 1 + j) with (i + (j + 1)) by lia.
    apply Hall. lia.
Qed.

(** An error of the loop is an error of one of the prices. *)
Lemma forLoop_thrown (unit : Z -> outcome Z) (message : string) :
  forall (count : nat) (i : Z) (state : Z * Z),
    forLoop
      (fun i state =>
         let* price := unit i in Returned (fst state + price, price))
      count i state
    = Thrown message ->
    exists j, unit j = Thrown message.
Proof.
  induction count as [| count IH]; intros i state Hloop.
  - discriminate.
  - cbn [forLoop] in Hloop.
    apply bind_thrown in Hloop as [Hbody | [state1 [_ Hloop]]].
    + apply bind_thrown in Hbody as [Hunit | [p [_ Hreturned]]].
      * exists i. exact Hunit.
      * discriminate.
    + exact (IH _ _ Hloop).
Qed.

(** ** The price curve *)

Section Curve.

Variable K : CurveConstants.

(** [calculatePriceAtSupply] returns exactly at the computable supplies,
    and then the value [priceAt]. *)
Lemma price_returned (supply basePrice p : Z) :
  calculatePriceAtSupply K supply basePrice = Returned p
  <-> priceComputable K supply /\ p = priceAt K supply basePrice.
Proof.
  unfold calculatePriceAtSupply, priceComputable, priceAt.
  destruct (Z.leb_spec supply 0) as [Hle | Hgt]; split.
  - intros Hp. injection Hp as <-. split; [left; exact Hle | reflexivity].
  - intros [_ ->]. reflexivity.
  - intros Hp.
    apply bind_returned in Hp as [supplyNumber [Hsupply Hp]].
    apply toNumber_returned in Hsupply as [Hsafe ->]. cbv zeta in Hp.
    apply bind_returned in Hp as [factor [Hfactor Hp]].
    apply new_BN_returned in Hfactor as [Hsafe' ->].
    injection Hp as <-. split; [right; split; assumption | reflexivity].
  - intros [[Hle | [Hsafe Hsafe']] ->]; [lia |].
    rewrite (toNumber_safe _ Hsafe). cbn [bind]. cbv zeta.
    rewrite (new_BN_safe _ Hsafe'). reflexivity.
Qed.

Lemma price_computable (supply basePrice : Z) :
  priceComputable K supply ->
  calculatePriceAtSupply K supply basePrice
  = Returned (priceAt K supply basePrice).
Proof. intros Hc. apply price_returned. split; [exact Hc | reflexivity]. Qed.

Lemma price_value (supply basePrice p : Z) :
  calculatePriceAtSupply K supply basePrice = Returned p ->
  p = priceAt K supply basePrice.
Proof. intros Hp. apply price_returned in Hp. apply Hp. Qed.

(** An error of [calculatePriceAtSupply] comes from bn.js: the supply or
    the scaled power of the multiplier is not safe. *)
Lemma price_thrown (supply basePrice : Z) (message : string) :
  calculatePriceAtSupply K supply basePrice = Thrown message ->
  libraryError message /\ ~ priceComputable K supply.
Proof.
  unfold calculatePriceAtSupply, priceComputable, libraryError.
  destruct (Z.leb_spec supply 0) as [Hle | Hgt]; [discriminate |].
  intros Hthrown.
  apply bind_thrown in Hthrown as [Hsupply | [supplyNumber [Hsupply Hthrown]]].
  - apply toNumber_thrown in Hsupply as [Hnot ->].
    split; [right; reflexivity |]. intros [Hle | [Hsafe _]]; [lia | auto].
  - apply toNumber_returned in Hsupply as [Hsafe ->]. cbv zeta in Hthrown.
    apply bind_thrown in Hthrown as [Hfactor | [factor [_ Hreturned]]];
      [| discriminate].
    apply new_BN_thrown in Hfactor as [Hnot ->].
    split; [left; reflexivity |]. intros [Hle | [_ Hsafe']]; [lia | auto].
Qed.

(** A scaled power that is not safe ends the price in the assertion of
    [new BN]. *)
Lemma price_unsafe_power (supply basePrice : Z) :
  0 < supply -> safe supply ->
  ~ safe (PRICE_MULTIPLIER_pow_x1000 K supply) ->
  calculatePriceAtSupply K supply basePrice = Thrown "Assertion failed".
Proof.
  intros Hpos Hsafe Hnot. unfold calculatePriceAtSupply.
  destruct (Z.leb_spec supply 0) as [Hle | _]; [lia |].
  rewrite (toNumber_safe _ Hsafe). cbn [bind]. cbv zeta.
  rewrite (new_BN_unsafe _ Hnot). reflexivity.
Qed.

Lemma priceAt_zero_or_below (supply basePrice : Z) :
  supply <= 0 -> priceAt K supply basePrice = basePrice.
Proof.
  intros Hle. unfold priceAt.
  destruct (Z.leb_spec supply 0); [reflexivity | lia].
Qed.

Lemma priceAt_above_zero (supply basePrice : Z) :
  0 < supply ->
  priceAt K supply basePrice
  = Z.max (Z.quot (basePrice * PRICE_MULTIPLIER_pow_x1000 K supply) 1000)
      (MIN_PRICE K).
Proof.
  intros Hpos. unfold priceAt.
  destruct (Z.leb_spec supply 0); [lia | reflexivity].
Qed.

(** From one unit of supply on, the price is at least the floor. *)
Lemma priceAt_floor (supply basePrice : Z) :
  0 < supply -> MIN_PRICE K <= priceAt K supply basePrice.
Proof.
  intros Hpos. rewrite priceAt_above_zero by exact Hpos. apply Z.le_max_r.
Qed.

Lemma priceAt_nonneg (supply basePrice : Z) :
  0 < MIN_PRICE K -> 0 <= basePrice -> 0 <= priceAt K supply basePrice.
Proof.
  intros Hmin Hbase.
  destruct (Z_le_gt_dec supply 0) as [Hle | Hgt].
  - rewrite priceAt_zero_or_below by exact Hle. exact Hbase.
  - pose proof (priceAt_floor supply basePrice ltac:(lia)). lia.
Qed.

(** With a multiplier above 1 every scaled power is at least 1000, and the
    powers never decrease. *)
Lemma powers_at_least_1000 :
  increasingMultiplier K ->
  forall n, 1 <= n -> 1000 <= PRICE_MULTIPLIER_pow_x1000 K n.
Proof.
  intros [Hfirst Hnext] n Hn.
  replace n with (1 + Z.of_nat (Z.to_nat (n - 1))) by lia.
  induction (Z.to_nat (n - 1)) as [| k IH].
  - exact Hfirst.
  - replace (1 + Z.of_nat (S k)) with (1 + Z.of_nat k + 1) by lia.
    specialize (Hnext (1 + Z.of_nat k) ltac:(lia)). lia.
Qed.

Lemma powers_monotone :
  increasingMultiplier K ->
  forall n n', 1 <= n -> n <= n' ->
    PRICE_MULTIPLIER_pow_x1000 K n <= PRICE_MULTIPLIER_pow_x1000 K n'.
Proof.
  intros [_ Hnext] n n' Hn Hle.
  replace n' with (n + Z.of_nat (Z.to_nat (n' - n))) by lia.
  induction (Z.to_nat (n' - n)) as [| k IH].
  - rewrite Z.add_0_r. lia.
  - replace (n + Z.of_nat (S k)) with (n + Z.of_nat k + 1) by lia.
    specialize (Hnext (n + Z.of_nat k) ltac:(lia)). lia.
Qed.

(** With a multiplier above 1, the supplies below a computable supply are
    computable. *)
Lemma computable_below (supply supply' : Z) :
  increasingMultiplier K -> supply' <= supply ->
  priceComputable K supply -> priceComputable K supply'.
Proof.
  intros Hincreasing Hle Hc. unfold priceComputable in *.
  destruct (Z_le_gt_dec supply' 0) as [Hzero | Hpos]; [left; exact Hzero |].
  right. destruct Hc as [Hneg | [Hsafe Hsafe']]; [lia |].
  pose proof (powers_at_least_1000 Hincreasing supply' ltac:(lia)).
  pose proof (powers_monotone Hincreasing supply' supply ltac:(lia) Hle).
  unfold safe in *. split; lia.
Qed.

(** With a multiplier above 1 the price never decreases with the supply. *)
Lemma priceAt_monotone_step (supply basePrice : Z) :
  0 < MIN_PRICE K -> increasingMultiplier K -> 0 <= supply ->
  priceAt K supply basePrice <= priceAt K (supply + 1) basePrice.
Proof.
  intros Hmin Hincr Hsupply.
  pose proof (powers_at_least_1000 Hincr) as Hpow.
  rewrite (priceAt_above_zero (supply + 1)) by lia.
  destruct (Z.eq_dec supply 0) as [-> | Hne].
  - rewrite priceAt_zero_or_below by lia. cbn [Z.add].
    specialize (Hpow 1 ltac:(lia)).
    destruct (Z_le_gt_dec 0 basePrice) as [Hbase | Hbase]; [| lia].
    assert (Z.quot (basePrice * 1000) 1000
            <= Z.quot (basePrice * PRICE_MULTIPLIER_pow_x1000 K 1) 1000)
      by (apply Z.quot_le_mono; nia).
    rewrite Z.quot_mul in * by lia. lia.
  - rewrite priceAt_above_zero by lia.
    pose proof (Hpow supply ltac:(lia)) as Hs.
    pose proof (next_power K Hincr supply ltac:(lia)) as Hstep.
    destruct (Z_le_gt_dec 0 basePrice) as [Hbase | Hbase].
    + assert (Z.quot (basePrice * PRICE_MULTIPLIER_pow_x1000 K supply) 1000
              <= Z.quot (basePrice * PRICE_MULTIPLIER_pow_x1000 K (supply + 1))
                   1000)
        by (apply Z.quot_le_mono; nia).
      lia.
    + assert (Z.quot (basePrice * PRICE_MULTIPLIER_pow_x1000 K supply) 1000
              <= Z.quot 0 1000)
        by (apply Z.quot_le_mono; nia).
      rewrite Z.quot_0_l in * by lia. lia.
Qed.

(** A gross amount that is not negative is charged the fee rounded down. *)
Lemma fee_is_floor (total : Z) :
  0 <= FEE_PERCENTAGE_x10000 K -> 0 <= total ->
  Z.quot (total * FEE_PERCENTAGE_x10000 K) 10000
  = Qfloor (inject_Z total * feeRate K).
Proof.
  intros Hfee Htotal.
  rewrite Z.quot_div_nonneg by nia.
  unfold feeRate, Qfloor, Qmult, inject_Z. cbn [Qnum Qden].
  reflexivity.
Qed.

(** The fee charged on a gross amount that is not negative is between 0 and
    the gross amount. *)
Lemma fee_between (total : Z) :
  validParameters K -> 0 <= total ->
  0 <= Z.quot (total * FEE_PERCENTAGE_x10000 K) 10000 <= total.
Proof.
  intros [Hfee _ _] Htotal. split.
  - apply Z.quot_pos; nia.
  - assert (Z.quot (total * FEE_PERCENTAGE_x10000 K) 10000
            <= Z.quot (total * 10000) 10000)
      by (apply Z.quot_le_mono; nia).
    rewrite Z.quot_mul in * by lia. lia.
Qed.

(** [calculateMarketCap] returns exactly at the computable supplies. *)
Lemma market_cap_returned (supply basePrice cap : Z) :
  calculateMarketCap K supply basePrice = Returned cap
  <-> priceComputable K supply
      /\ cap = (if supply <=? 0 then 0 else priceAt K supply basePrice * supply).
Proof.
  unfold calculateMarketCap.
  destruct (Z.leb_spec supply 0) as [Hle | Hgt]; split.
  - intros Hcap. injection Hcap as <-. split; [left; exact Hle | reflexivity].
  - intros [_ ->]. reflexivity.
  - intros Hcap. apply bind_returned in Hcap as [p [Hp Hcap]].
    apply price_returned in Hp as [Hc ->]. injection Hcap as <-.
    split; [exact Hc | reflexivity].
  - intros [Hc ->]. rewrite (price_computable _ _ Hc). reflexivity.
Qed.

Lemma market_cap_thrown (supply basePrice : Z) (message : string) :
  calculateMarketCap K supply basePrice = Thrown message ->
  libraryError message.
Proof.
  unfold calculateMarketCap.
  destruct (Z.leb_spec supply 0) as [Hle | Hgt]; [discriminate |].
  intros Hthrown.
  apply bind_thrown in Hthrown as [Hprice | [p [_ Hreturned]]];
    [| discriminate].
  apply price_thrown in Hprice. apply Hprice.
Qed.

End Curve.

(** The exact powers of 1.1 never decrease. *)
Lemma floor_pow_1_1_x1000_increasing (n : Z) :
  0 <= n -> floor_pow_1_1_x1000 n <= floor_pow_1_1_x1000 (n + 1).
Proof.
  intros Hn. unfold floor_pow_1_1_x1000.
  rewrite !Z.pow_add_r, !Z.pow_1_r by lia.
  assert (Hten : 0 < 10 ^ n) by (apply Z.pow_pos_nonneg; lia).
  assert (Heleven : 0 < 11 ^ n) by (apply Z.pow_pos_nonneg; lia).
  rewrite <- (Z.div_mul_cancel_l (1000 * 11 ^ n) (10 ^ n) 10) by lia.
  replace (10 ^ n * 10) with (10 * 10 ^ n) by ring.
  apply Z.div_le_mono; nia.
Qed.

(** Outside the supplies 225 to 312 the table of the doubles is the exact
    one. *)
Lemma pow_1_1_x1000_exact (n : Z) :
  n < 225 \/ 312 < n -> pow_1_1_x1000 n = floor_pow_1_1_x1000 n.
Proof.
  intros Hn. unfold pow_1_1_x1000.
  destruct (find (fun entry => fst entry =? n) pow_1_1_x1000_roundings)
    as [entry |] eqn:Hfind; [| reflexivity].
  apply find_some in Hfind as [Hin Hkey]. apply Z.eqb_eq in Hkey.
  assert (Hrange :
    forallb (fun entry => (225 <=? fst entry) && (fst entry <=? 312))
      pow_1_1_x1000_roundings = true) by (vm_compute; reflexivity).
  rewrite forallb_forall in Hrange. specialize (Hrange entry Hin).
  apply andb_true_iff in Hrange as [Hlow Hhigh].
  apply Z.leb_le in Hlow, Hhigh. lia.
Qed.

(** Between 224 and 312 units the doubles never decrease either. *)
Lemma pow_1_1_x1000_rounded_increasing (n : Z) :
  224 <= n <= 312 -> pow_1_1_x1000 n <= pow_1_1_x1000 (n + 1).
Proof.
  intros Hn.
  assert (Hall :
    forallb
      (fun k => pow_1_1_x1000 (Z.of_nat k) <=? pow_1_1_x1000 (Z.of_nat k + 1))
      (seq 224 89) = true) by (vm_compute; reflexivity).
  rewrite forallb_forall in Hall.
  specialize (Hall (Z.to_nat n)).
  rewrite Z2Nat.id in Hall by lia.
  apply Z.leb_le, Hall, in_seq. lia.
Qed.

Lemma CURVE_CONSTANTS_valid : validParameters CURVE_CONSTANTS.
Proof. split; cbn; lia. Qed.

Lemma CURVE_CONSTANTS_increasing : increasingMultiplier CURVE_CONSTANTS.
Proof.
  split.
  - cbn [PRICE_MULTIPLIER_pow_x1000 CURVE_CONSTANTS].
    assert (Hfirst : pow_1_1_x1000 1 = 1100) by (vm_compute; reflexivity).
    lia.
  - intros n Hn. cbn [PRICE_MULTIPLIER_pow_x1000 CURVE_CONSTANTS].
    destruct (Z_lt_ge_dec n 224) as [Hlow | Hmid].
    + rewrite !pow_1_1_x1000_exact by lia.
      apply floor_pow_1_1_x1000_increasing. lia.
    + destruct (Z_le_gt_dec n 312) as [Hin | Hhigh].
      * apply pow_1_1_x1000_rounded_increasing. lia.
      * rewrite !pow_1_1_x1000_exact by lia.
        apply floor_pow_1_1_x1000_increasing. lia.
Qed.

(** From 313 units on the scaled power of 1.1 is no longer safe. *)
Lemma pow_1_1_x1000_unsafe (n : Z) :
  313 <= n -> ~ safe (pow_1_1_x1000 n).
Proof.
  intros Hn.
  assert (Hfirst : SAFE_LIMIT <= pow_1_1_x1000 313)
    by (vm_compute; discriminate).
  pose proof (powers_monotone CURVE_CONSTANTS CURVE_CONSTANTS_increasing
                313 n ltac:(lia) Hn) as Hmono.
  cbn [PRICE_MULTIPLIER_pow_x1000 CURVE_CONSTANTS] in Hmono.
  unfold safe. lia.
Qed.

(** ** Quotes *)

Section Quotes.

Variable K : CurveConstants.

(** What a returned buy quote says about the call: the amount was safe,
    every unit of the range and the supply after the buy were priced, and
    the fields are those the code computes from the loop's state. *)
Lemma buy_returned (currentSupply amount basePrice : Z)
    (q : PriceCalculation) :
  calculateBuyPrice K currentSupply amount basePrice = Returned q ->
  safe amount
  /\ (forall j, 0 <= j < amount -> priceComputable K (currentSupply + j))
  /\ priceComputable K (currentSupply + amount)
  /\ totalCost q
     = sumOver (fun j => priceAt K (currentSupply + j) basePrice)
         (range 0 (Z.to_nat amount))
  /\ price q
     = (if amount <=? 0 then 0
        else priceAt K (currentSupply + amount - 1) basePrice)
  /\ safe (price q)
  /\ fee q = Z.quot (totalCost q * FEE_PERCENTAGE_x10000 K) 10000
  /\ netCost q = totalCost q + fee q
  /\ pricePerToken q = price q # 1000000000
  /\ calculateMarketCap K (currentSupply + amount) basePrice
     = Returned (marketCap q).
Proof.
  unfold calculateBuyPrice. intros Hq.
  apply bind_returned in Hq as [count [Hcount Hq]].
  apply toNumber_returned in Hcount as [Hsafe ->].
  apply bind_returned in Hq as [state [Hloop Hq]]. cbv zeta in Hq.
  apply bind_returned in Hq as [priceNumber [Hnumber Hq]].
  apply toNumber_returned in Hnumber as [Hlast ->].
  apply bind_returned in Hq as [cap [Hcap Hq]].
  injection Hq as <-.
  cbn [price totalCost fee netCost pricePerToken marketCap].
  destruct (forLoop_accumulates
              (fun i => calculatePriceAtSupply K (currentSupply + i) basePrice)
              (fun i => priceAt K (currentSupply + i) basePrice)
              (fun i p Hp => price_value K _ _ _ Hp)
              (Z.to_nat amount) 0 (0, 0) state Hloop)
    as [Hall [Hfst Hsnd]].
  cbn [fst snd] in Hfst, Hsnd.
  split; [exact Hsafe |].
  split.
  { intros j Hj. specialize (Hall j ltac:(lia)).
    rewrite Z.add_0_l in Hall. apply price_returned in Hall. apply Hall. }
  split.
  { apply market_cap_returned in Hcap. apply Hcap. }
  split.
  { rewrite Hfst, Z.add_0_l. apply sumOver_ext. intros j _. f_equal. }
  split.
  { rewrite Hsnd. destruct (Z.leb_spec amount 0) as [Hle | Hgt].
    - replace (Z.to_nat amount) with O by lia. reflexivity.
    - replace (Z.to_nat amount) with (S (Z.to_nat (amount - 1))) by lia.
      f_equal. lia. }
  split; [exact Hlast |].
  split; [reflexivity |]. split; [reflexivity |]. split; [reflexivity |].
  exact Hcap.
Qed.

(** A buy quote is returned when the amount is safe, the units of the
    range and the supply after the buy are computable and the price of the
    last unit is safe. *)
Lemma buy_returns (currentSupply amount basePrice : Z) :
  safe amount ->
  (forall j, 0 <= j < amount -> priceComputable K (currentSupply + j)) ->
  priceComputable K (currentSupply + amount) ->
  (0 < amount -> safe (priceAt K (currentSupply + amount - 1) basePrice)) ->
  exists q, calculateBuyPrice K currentSupply amount basePrice = Returned q.
Proof.
  intros Hsafe Hall Hafter Hlast. unfold calculateBuyPrice.
  rewrite (toNumber_safe _ Hsafe). cbn [bind].
  destruct (forLoop_returns
              (fun i => calculatePriceAtSupply K (currentSupply + i) basePrice)
              (fun i => priceAt K (currentSupply + i) basePrice)
              (Z.to_nat amount) 0 (0, 0)) as [state Hloop].
  { intros j Hj. apply price_computable. apply Hall. lia. }
  destruct (forLoop_accumulates
              (fun i => calculatePriceAtSupply K (currentSupply + i) basePrice)
              (fun i => priceAt K (currentSupply + i) basePrice)
              (fun i p Hp => price_value K _ _ _ Hp)
              (Z.to_nat amount) 0 (0, 0) state Hloop)
    as [_ [_ Hsnd]].
  cbn [snd] in Hsnd.
  assert (Hstate : safe (snd state)).
  { rewrite Hsnd. destruct (Z.to_nat amount) as [| count'] eqn:Hcount.
    - unfold safe. cbn. reflexivity.
    - replace (currentSupply + (0 + Z.of_nat count'))
        with (currentSupply + amount - 1) by lia.
      apply Hlast. lia. }
  change (forLoop (buyStep K currentSupply basePrice) (Z.to_nat amount) 0 (0, 0))
    with (forLoop
            (fun i state =>
               let* price :=
                 calculatePriceAtSupply K (currentSupply + i) basePrice in
               Returned (fst state + price, price))
            (Z.to_nat amount) 0 (0, 0)).
  rewrite Hloop. cbn [bind]. cbv zeta.
  rewrite (toNumber_safe _ Hstate). cbn [bind].
  rewrite (proj2 (market_cap_returned K (currentSupply + amount) basePrice _)
             (conj Hafter eq_refl)).
  cbn [bind]. eexists. reflexivity.
Qed.

(** A sale of more than the current supply throws. *)
Lemma sell_throws (currentSupply amount basePrice : Z) :
  currentSupply < amount ->
  calculateSellPrice K currentSupply amount basePrice
  = Thrown "Cannot sell more tokens than current supply".
Proof.
  intros Hlt. unfold calculateSellPrice.
  destruct (Z.ltb_spec currentSupply amount) as [_ | Hge]; [reflexivity | lia].
Qed.

(** What a returned sell quote says about the call. *)
Lemma sell_returned (currentSupply amount basePrice : Z)
    (q : PriceCalculation) :
  calculateSellPrice K currentSupply amount basePrice = Returned q ->
  amount <= currentSupply
  /\ safe amount
  /\ (forall j, 1 <= j <= amount -> priceComputable K (currentSupply - j))
  /\ priceComputable K (currentSupply - amount)
  /\ totalCost q
     = sumOver (fun j => priceAt K (currentSupply - j) basePrice)
         (range 1 (Z.to_nat amount))
  /\ price q
     = (if amount <=? 0 then 0
        else priceAt K (currentSupply - amount) basePrice)
  /\ safe (price q)
  /\ fee q = Z.quot (totalCost q * FEE_PERCENTAGE_x10000 K) 10000
  /\ netCost q = totalCost q - fee q
  /\ pricePerToken q = price q # 1000000000
  /\ calculateMarketCap K (currentSupply - amount) basePrice
     = Returned (marketCap q).
Proof.
  unfold calculateSellPrice.
  destruct (Z.ltb_spec currentSupply amount) as [Hlt | Hge]; [discriminate |].
  intros Hq.
  apply bind_returned in Hq as [count [Hcount Hq]].
  apply toNumber_returned in Hcount as [Hsafe ->].
  apply bind_returned in Hq as [state [Hloop Hq]]. cbv zeta in Hq.
  apply bind_returned in Hq as [priceNumber [Hnumber Hq]].
  apply toNumber_returned in Hnumber as [Hlast ->].
  apply bind_returned in Hq as [cap [Hcap Hq]].
  injection Hq as <-.
  cbn [price totalCost fee netCost pricePerToken marketCap].
  destruct (forLoop_accumulates
              (fun i =>
                 calculatePriceAtSupply K (currentSupply - (i + 1)) basePrice)
              (fun i => priceAt K (currentSupply - (i + 1)) basePrice)
              (fun i p Hp => price_value K _ _ _ Hp)
              (Z.to_nat amount) 0 (0, 0) state Hloop)
    as [Hall [Hfst Hsnd]].
  cbn [fst snd] in Hfst, Hsnd.
  split; [lia |]. split; [exact Hsafe |].
  split.
  { intros j Hj. specialize (Hall (j - 1) ltac:(lia)).
    apply price_returned in Hall.
    replace (currentSupply - (0 + (j - 1) + 1)) with (currentSupply - j)
      in Hall by lia.
    apply Hall. }
  split.
  { apply market_cap_returned in Hcap. apply Hcap. }
  split.
  { rewrite Hfst, Z.add_0_l, sumOver_range_shift.
    apply sumOver_ext. intros j _. f_equal. }
  split.
  { rewrite Hsnd. destruct (Z.leb_spec amount 0) as [Hle | Hgt].
    - replace (Z.to_nat amount) with O by lia. reflexivity.
    - replace (Z.to_nat amount) with (S (Z.to_nat (amount - 1))) by lia.
      f_equal. lia. }
  split; [exact Hlast |].
  split; [reflexivity |]. split; [reflexivity |]. split; [reflexivity |].
  exact Hcap.
Qed.

(** A sell quote is returned when the amount is at most the current
    supply and safe, the units sold and the supply after the sale are
    computable and the price of the last unit is safe. *)
Lemma sell_returns (currentSupply amount basePrice : Z) :
  amount <= currentSupply ->
  safe amount ->
  (forall j, 1 <= j <= amount -> priceComputable K (currentSupply - j)) ->
  priceComputable K (currentSupply - amount) ->
  (0 < amount -> safe (priceAt K (currentSupply - amount) basePrice)) ->
  exists q, calculateSellPrice K currentSupply amount basePrice = Returned q.
Proof.
  intros Hle Hsafe Hall Hafter Hlast. unfold calculateSellPrice.
  destruct (Z.ltb_spec currentSupply amount) as [Hlt | _]; [lia |].
  rewrite (toNumber_safe _ Hsafe). cbn [bind].
  destruct (forLoop_returns
              (fun i =>
                 calculatePriceAtSupply K (currentSupply - (i + 1)) basePrice)
              (fun i => priceAt K (currentSupply - (i + 1)) basePrice)
              (Z.to_nat amount) 0 (0, 0)) as [state Hloop].
  { intros j Hj. apply price_computable. apply Hall. lia. }
  destruct (forLoop_accumulates
              (fun i =>
                 calculatePriceAtSupply K (currentSupply - (i + 1)) basePrice)
              (fun i => priceAt K (currentSupply - (i + 1)) basePrice)
              (fun i p Hp => price_value K _ _ _ Hp)
              (Z.to_nat amount) 0 (0, 0) state Hloop)
    as [_ [_ Hsnd]].
  cbn [snd] in Hsnd.
  assert (Hstate : safe (snd state)).
  { rewrite Hsnd. destruct (Z.to_nat amount) as [| count'] eqn:Hcount.
    - unfold safe. cbn. reflexivity.
    - replace (currentSupply - (0 + Z.of_nat count' + 1))
        with (currentSupply - amount) by lia.
      apply Hlast. lia. }
  change (forLoop (sellStep K currentSupply basePrice) (Z.to_nat amount) 0 (0, 0))
    with (forLoop
            (fun i state =>
               let* price :=
                 calculatePriceAtSupply K (currentSupply - (i + 1)) basePrice in
               Returned (fst state + price, price))
            (Z.to_nat amount) 0 (0, 0)).
  rewrite Hloop. cbn [bind]. cbv zeta.
  rewrite (toNumber_safe _ Hstate). cbn [bind].
  rewrite (proj2 (market_cap_returned K (currentSupply - amount) basePrice _)
             (conj Hafter eq_refl)).
  cbn [bind]. eexists. reflexivity.
Qed.

(** The errors of a sale: the engine's own when the amount exceeds the
    current supply, and otherwise one of bn.js. *)
Lemma sell_thrown (currentSupply amount basePrice : Z) (message : string) :
  calculateSellPrice K currentSupply amount basePrice = Thrown message ->
  (currentSupply < amount
   /\ message = "Cannot sell more tokens than current supply"%string)
  \/ (amount <= currentSupply /\ libraryError message).
Proof.
  unfold calculateSellPrice.
  destruct (Z.ltb_spec currentSupply amount) as [Hlt | Hge]; intros Hthrown.
  - left. injection Hthrown as <-. split; [exact Hlt | reflexivity].
  - right. split; [exact Hge |].
    apply bind_thrown in Hthrown as [Hcount | [count [_ Hthrown]]].
    { apply toNumber_thrown in Hcount as [_ ->]. right. reflexivity. }
    apply bind_thrown in Hthrown as [Hloop | [state [_ Hthrown]]].
    { apply (forLoop_thrown
               (fun i =>
                  calculatePriceAtSupply K (currentSupply - (i + 1)) basePrice))
        in Hloop as [j Hprice].
      apply price_thrown in Hprice. apply Hprice. }
    cbv zeta in Hthrown.
    apply bind_thrown in Hthrown as [Hnumber | [priceNumber [_ Hthrown]]].
    { apply toNumber_thrown in Hnumber as [_ ->]. right. reflexivity. }
    apply bind_thrown in Hthrown as [Hcap | [cap [_ Hreturned]]];
      [| discriminate].
    exact (market_cap_thrown K _ _ _ Hcap).
Qed.

End Quotes.

(** ** Percentages *)

Lemma Math_min_le_left (a b : number) : (Math_min a b <= a)%Q.
Proof.
  unfold Math_min. destruct (Qle_bool a b) eqn:Hab.
  - apply Qle_refl.
  - apply Qlt_le_weak, Qnot_le_lt. intros Hle.
    apply Qle_bool_iff in Hle. congruence.
Qed.

Lemma Math_min_le_right (a b : number) : (Math_min a b <= b)%Q.
Proof.
  unfold Math_min. destruct (Qle_bool a b) eqn:Hab.
  - apply Qle_bool_iff. exact Hab.
  - apply Qle_refl.
Qed.

Lemma Math_min_glb (a b c : number) :
  (c <= a)%Q -> (c <= b)%Q -> (c <= Math_min a b)%Q.
Proof.
  intros Ha Hb. unfold Math_min. destruct (Qle_bool a b); assumption.
Qed.

Lemma Math_min_monotone (a a' b : number) :
  (a <= a')%Q -> (Math_min a b <= Math_min a' b)%Q.
Proof.
  intros Hle. apply Math_min_glb.
  - apply Qle_trans with a; [apply Math_min_le_left | exact Hle].
  - apply Math_min_le_right.
Qed.

Lemma hundredths_le (k k' : Z) : k <= k' -> (k # 100 <= k' # 100)%Q.
Proof. intros Hle. unfold Qle. cbn [Qnum Qden]. lia. Qed.

Lemma hundredthsOf_nonneg (currentPrice newPrice : Z) :
  0 < currentPrice -> 0 <= hundredthsOf currentPrice newPrice.
Proof. intros Hpos. unfold hundredthsOf. apply Z.quot_pos; lia. Qed.

Lemma hundredthsOf_monotone (currentPrice newPrice newPrice' : Z) :
  0 < currentPrice ->
  Z.abs (newPrice - currentPrice) <= Z.abs (newPrice' - currentPrice) ->
  hundredthsOf currentPrice newPrice <= hundredthsOf currentPrice newPrice'.
Proof.
  intros Hpos Hle. unfold hundredthsOf. apply Z.quot_le_mono; lia.
Qed.

(** The percentage the engine makes of a price move: it lies between 0 and
    100 and grows with the move. *)
Lemma percentageOf_in_range (currentPrice newPrice : Z) :
  0 < currentPrice ->
  (0 # 1 <= percentageOf currentPrice newPrice <= 100 # 1)%Q.
Proof.
  intros Hpos. unfold percentageOf. split.
  - apply Math_min_glb.
    + pose proof (hundredthsOf_nonneg currentPrice newPrice Hpos).
      unfold Qle. cbn [Qnum Qden]. lia.
    + unfold Qle. cbn. lia.
  - apply Math_min_le_right.
Qed.

Lemma percentageOf_monotone (currentPrice newPrice newPrice' : Z) :
  0 < currentPrice ->
  Z.abs (newPrice - currentPrice) <= Z.abs (newPrice' - currentPrice) ->
  (percentageOf currentPrice newPrice
   <= percentageOf currentPrice newPrice')%Q.
Proof.
  intros Hpos Hle. unfold percentageOf.
  apply Math_min_monotone, hundredths_le, hundredthsOf_monotone; assumption.
Qed.

(** ** Prices over the whole supply axis *)

Section PriceOrder.

Variable K : CurveConstants.
Hypothesis Hvalid : validParameters K.
Hypothesis Hincreasing : increasingMultiplier K.

Lemma priceAt_monotone (supply supply' basePrice : Z) :
  supply <= supply' ->
  priceAt K supply basePrice <= priceAt K supply' basePrice.
Proof.
  intros Hle.
  replace supply' with (supply + Z.of_nat (Z.to_nat (supply' - supply)))
    by lia.
  induction (Z.to_nat (supply' - supply)) as [| steps IH].
  - rewrite Z.add_0_r. lia.
  - replace (supply + Z.of_nat (S steps))
      with (supply + Z.of_nat steps + 1) by lia.
    destruct (Z_le_gt_dec 0 (supply + Z.of_nat steps)) as [Hpos | Hneg].
    + pose proof (priceAt_monotone_step K (supply + Z.of_nat steps) basePrice
                    (min_price_positive K Hvalid) Hincreasing Hpos).
      lia.
    + rewrite (priceAt_zero_or_below K (supply + Z.of_nat steps + 1))
        by lia.
      rewrite (priceAt_zero_or_below K (supply + Z.of_nat steps)) in IH
        by lia.
      exact IH.
Qed.

Lemma priceAt_positive (supply basePrice : Z) :
  0 < basePrice -> 0 < priceAt K supply basePrice.
Proof.
  intros Hbase.
  destruct (Z_le_gt_dec supply 0) as [Hle | Hgt].
  - rewrite priceAt_zero_or_below by exact Hle. exact Hbase.
  - pose proof (priceAt_floor K supply basePrice ltac:(lia)).
    pose proof (min_price_positive K Hvalid). lia.
Qed.

(** A larger trade moves the price at least as far. *)
Lemma price_move_monotone (currentSupply amount amount' : Z) (isBuy : bool)
    (basePrice : Z) :
  0 <= amount <= amount' ->
  Z.abs (priceAt K (supplyAfter currentSupply amount isBuy) basePrice
         - priceAt K currentSupply basePrice)
  <= Z.abs (priceAt K (supplyAfter currentSupply amount' isBuy) basePrice
            - priceAt K currentSupply basePrice).
Proof.
  intros Hamount. unfold supplyAfter. destruct isBuy.
  - pose proof (priceAt_monotone currentSupply (currentSupply + amount)
                  basePrice ltac:(lia)).
    pose proof (priceAt_monotone (currentSupply + amount)
                  (currentSupply + amount') basePrice ltac:(lia)).
    lia.
  - pose proof (priceAt_monotone (currentSupply - amount) currentSupply
                  basePrice ltac:(lia)).
    pose proof (priceAt_monotone (currentSupply - amount')
                  (currentSupply - amount) basePrice ltac:(lia)).
    lia.
Qed.

End PriceOrder.

(** ** The price impact *)

(** [calculatePriceImpact] returns exactly when the two prices are
    computable, the current price is not 0 and the quotient is safe; its
    value is then the percentage of the price move. *)
Lemma impact_returned (K : CurveConstants) (currentSupply tradeAmount : Z)
    (isBuy : bool) (basePrice : Z) (impact : number) :
  calculatePriceImpact K currentSupply tradeAmount isBuy basePrice
  = Returned impact
  <-> priceComputable K currentSupply
      /\ priceComputable K (supplyAfter currentSupply tradeAmount isBuy)
      /\ priceAt K currentSupply basePrice <> 0
      /\ safe (hundredthsOf (priceAt K currentSupply basePrice)
                 (priceAt K (supplyAfter currentSupply tradeAmount isBuy)
                    basePrice))
      /\ impact
         = percentageOf (priceAt K currentSupply basePrice)
             (priceAt K (supplyAfter currentSupply tradeAmount isBuy)
                basePrice).
Proof.
  unfold calculatePriceImpact.
  replace (if isBuy
           then calculatePriceAtSupply K (currentSupply + tradeAmount) basePrice
           else calculatePriceAtSupply K (currentSupply - tradeAmount) basePrice)
    with (calculatePriceAtSupply K (supplyAfter currentSupply tradeAmount isBuy)
            basePrice)
    by (destruct isBuy; reflexivity).
  split.
  - intros Himpact.
    apply bind_returned in Himpact as [currentPrice [Hcurrent Himpact]].
    apply price_returned in Hcurrent as [Hc ->].
    apply bind_returned in Himpact as [newPrice [Hnew Himpact]].
    apply price_returned in Hnew as [Hc' ->]. cbv zeta in Himpact.
    apply bind_returned in Himpact as [quotient [Hquotient Himpact]].
    apply BN_div_returned in Hquotient as [Hne ->].
    apply bind_returned in Himpact as [hundredths [Hnumber Himpact]].
    apply toNumber_returned in Hnumber as [Hsafe ->].
    injection Himpact as <-.
    repeat split; assumption.
  - intros [Hc [Hc' [Hne [Hsafe ->]]]].
    rewrite (price_computable K _ _ Hc). cbn [bind].
    rewrite (price_computable K _ _ Hc'). cbn [bind]. cbv zeta.
    rewrite (proj2 (BN_div_returned _ _ _) (conj Hne eq_refl)).
    cbn [bind]. unfold hundredthsOf in Hsafe.
    rewrite (toNumber_safe _ Hsafe). reflexivity.
Qed.

(** The price impact of a smaller trade is computed whenever that of a
    larger one is, and is at most as large. *)
Lemma impact_of_a_smaller_trade (K : CurveConstants)
    (currentSupply amount amount' : Z) (isBuy : bool) (basePrice : Z)
    (impact' : number) :
  validParameters K -> increasingMultiplier K -> 0 < basePrice ->
  0 <= amount <= amount' ->
  calculatePriceImpact K currentSupply amount' isBuy basePrice
  = Returned impact' ->
  exists impact,
    calculatePriceImpact K currentSupply amount isBuy basePrice
    = Returned impact
    /\ (impact <= impact')%Q.
Proof.
  intros Hvalid Hincreasing Hbase Hamount Himpact'.
  apply impact_returned in Himpact' as [Hc [Hc' [Hne [Hsafe ->]]]].
  pose proof (priceAt_positive K Hvalid currentSupply basePrice Hbase) as Hpos.
  pose proof (price_move_monotone K Hvalid Hincreasing currentSupply amount
                amount' isBuy basePrice Hamount) as Hmove.
  eexists. split.
  - apply impact_returned. split; [exact Hc |]. split; [| split; [exact Hne |]].
    + destruct isBuy; cbn [supplyAfter] in *.
      * apply (computable_below K (currentSupply + amount') _ Hincreasing);
          [lia | exact Hc'].
      * apply (computable_below K currentSupply _ Hincreasing);
          [lia | exact Hc].
    + split; [| reflexivity].
      apply safe_between with (2 := Hsafe). split.
      * apply hundredthsOf_nonneg. exact Hpos.
      * apply hundredthsOf_monotone; assumption.
  - apply percentageOf_monotone; assumption.
Qed.

(** ** Cases of [validateTrade] *)

Section Validation.

Variable K : CurveConstants.

Lemma validate_amount (currentSupply amount : Z) (isBuy : bool)
    (maxSlippage : number) :
  amount <= 0 ->
  validateTrade K currentSupply amount isBuy maxSlippage
  = Returned (invalid "Amount must be greater than 0").
Proof.
  intros Hle. unfold validateTrade.
  destruct (Z.leb_spec amount 0); [reflexivity | lia].
Qed.

Lemma validate_capacity (currentSupply amount : Z) (maxSlippage : number) :
  0 < amount -> MAX_SUPPLY K < currentSupply + amount ->
  validateTrade K currentSupply amount true maxSlippage
  = Returned (invalid "Exceeds maximum supply").
Proof.
  intros Hpos Hcap. unfold validateTrade.
  destruct (Z.leb_spec amount 0); [lia |]. cbv zeta.
  destruct (Z.gtb_spec (currentSupply + amount) (MAX_SUPPLY K));
    [reflexivity | lia].
Qed.

Lemma validate_supply (currentSupply amount : Z) (maxSlippage : number) :
  0 < amount -> currentSupply < amount ->
  validateTrade K currentSupply amount false maxSlippage
  = Returned (invalid "Cannot sell more than current supply").
Proof.
  intros Hpos Hsupply. unfold validateTrade.
  destruct (Z.leb_spec amount 0); [lia |].
  destruct (Z.gtb_spec amount currentSupply); [reflexivity | lia].
Qed.

(** A trade that passes the amount and supply checks is decided by its
    price impact. *)
Lemma validate_in_bounds (currentSupply amount : Z) (isBuy : bool)
    (maxSlippage : number) :
  0 < amount ->
  (if isBuy then currentSupply + amount <= MAX_SUPPLY K
   else amount <= currentSupply) ->
  validateTrade K currentSupply amount isBuy maxSlippage
  = checkPriceImpact K currentSupply amount isBuy maxSlippage.
Proof.
  intros Hpos Hbounds. unfold validateTrade.
  destruct (Z.leb_spec amount 0); [lia |].
  destruct isBuy; cbv zeta.
  - destruct (Z.gtb_spec (currentSupply + amount) (MAX_SUPPLY K));
      [lia | reflexivity].
  - destruct (Z.gtb_spec amount currentSupply); [lia | reflexivity].
Qed.

(** The four ways a trade can stand to the bounds. *)
Lemma trade_cases (currentSupply amount : Z) (isBuy : bool) :
  amount <= 0
  \/ (0 < amount
      /\ (if isBuy then MAX_SUPPLY K < currentSupply + amount
          else currentSupply < amount))
  \/ (0 < amount
      /\ (if isBuy then currentSupply + amount <= MAX_SUPPLY K
          else amount <= currentSupply)).
Proof. destruct isBuy; lia. Qed.

Lemma check_price_impact_exceeded (currentSupply amount : Z) (isBuy : bool)
    (maxSlippage impact : number) :
  calculatePriceImpact K currentSupply amount isBuy (BASE_PRICE K)
  = Returned impact ->
  (maxSlippage < impact)%Q ->
  checkPriceImpact K currentSupply amount isBuy maxSlippage
  = Returned
      {| isValid := false;
         error := Some (PriceImpactExceeds impact maxSlippage) |}.
Proof.
  intros Himpact Hlt. unfold checkPriceImpact. rewrite Himpact. cbn [bind].
  destruct (Qle_bool impact maxSlippage) eqn:Hle; [| reflexivity].
  apply Qle_bool_iff in Hle. exfalso. exact (Qlt_not_le _ _ Hlt Hle).
Qed.

Lemma check_price_impact_within (currentSupply amount : Z) (isBuy : bool)
    (maxSlippage impact : number) :
  calculatePriceImpact K currentSupply amount isBuy (BASE_PRICE K)
  = Returned impact ->
  (impact <= maxSlippage)%Q ->
  checkPriceImpact K currentSupply amount isBuy maxSlippage
  = Returned {| isValid := true; error := None |}.
Proof.
  intros Himpact Hle. unfold checkPriceImpact. rewrite Himpact. cbn [bind].
  apply Qle_bool_iff in Hle. rewrite Hle. reflexivity.
Qed.

Lemma check_price_impact_thrown (currentSupply amount : Z) (isBuy : bool)
    (maxSlippage : number) (message : string) :
  calculatePriceImpact K currentSupply amount isBuy (BASE_PRICE K)
  = Thrown message ->
  checkPriceImpact K currentSupply amount isBuy maxSlippage = Thrown message.
Proof.
  intros Himpact. unfold checkPriceImpact. rewrite Himpact. reflexivity.
Qed.

(** What the last check returns, read backwards. *)
Lemma check_price_impact_returned (currentSupply amount : Z) (isBuy : bool)
    (maxSlippage : number) (result : TradeValidation) :
  checkPriceImpact K currentSupply amount isBuy maxSlippage = Returned result ->
  exists impact,
    calculatePriceImpact K currentSupply amount isBuy (BASE_PRICE K)
    = Returned impact
    /\ ((impact <= maxSlippage)%Q
        /\ result = {| isValid := true; error := None |}
        \/ (maxSlippage < impact)%Q
           /\ result
              = {| isValid := false;
                   error := Some (PriceImpactExceeds impact maxSlippage) |}).
Proof.
  unfold checkPriceImpact. intros Hresult.
  apply bind_returned in Hresult as [impact [Himpact Hresult]].
  exists impact. split; [exact Himpact |].
  destruct (Qle_bool impact maxSlippage) eqn:Hle; cbn [negb] in Hresult;
    injection Hresult as <-.
  - left. split; [apply Qle_bool_iff; exact Hle | reflexivity].
  - right. split; [| reflexivity].
    apply Qnot_le_lt. intros Hwithin. apply Qle_bool_iff in Hwithin.
    congruence.
Qed.

(** A trade is accepted exactly when it is within all bounds and its price
    impact is computed and within the tolerance. *)
Lemma validate_accepted (currentSupply amount : Z) (isBuy : bool)
    (maxSlippage : number) (result : TradeValidation) :
  validateTrade K currentSupply amount isBuy maxSlippage = Returned result ->
  isValid result = true ->
  result = {| isValid := true; error := None |}
  /\ 0 < amount
  /\ (if isBuy then currentSupply + amount <= MAX_SUPPLY K
      else amount <= currentSupply)
  /\ exists impact,
       calculatePriceImpact K currentSupply amount isBuy (BASE_PRICE K)
       = Returned impact
       /\ (impact <= maxSlippage)%Q.
Proof.
  intros Hresult Hvalid.
  destruct (trade_cases currentSupply amount isBuy)
    as [Hzero | [[Hpos Hout] | [Hpos Hin]]].
  - rewrite validate_amount in Hresult by exact Hzero.
    injection Hresult as <-. discriminate.
  - destruct isBuy.
    + rewrite validate_capacity in Hresult by assumption.
      injection Hresult as <-. discriminate.
    + rewrite validate_supply in Hresult by assumption.
      injection Hresult as <-. discriminate.
  - rewrite validate_in_bounds in Hresult by assumption.
    apply check_price_impact_returned in Hresult
      as [impact [Himpact [[Hle ->] | [_ ->]]]]; [| discriminate].
    split; [reflexivity |]. split; [exact Hpos |]. split; [exact Hin |].
    exists impact. split; assumption.
Qed.

End Validation.

(** ** The search for the optimal trade size *)

Lemma midpoint_between (low high : Z) :
  low <= high -> low <= Z.quot (low + high) 2 <= high.
Proof.
  intros Hle. Z.to_euclidean_division_equations. lia.
Qed.

Lemma within_not_exceeds K currentSupply maxPriceImpact isBuy basePrice amount :
  withinImpact K currentSupply maxPriceImpact isBuy basePrice amount ->
  exceedsImpact K currentSupply maxPriceImpact isBuy basePrice amount ->
  False.
Proof.
  intros [impact [Himpact Hle]] [impact' [Himpact' Hlt]].
  rewrite Himpact in Himpact'. injection Himpact' as <-.
  exact (Qlt_not_le _ _ Hlt Hle).
Qed.

(** The candidate never drops below 1. *)
Lemma searchLoop_at_least_1 K currentSupply maxPriceImpact isBuy basePrice
    low high optimal :
  1 <= low -> 1 <= optimal ->
  forall r,
    searchLoop K currentSupply maxPriceImpact isBuy basePrice low high optimal
    = Returned r ->
    1 <= r.
Proof.
  funelim (searchLoop K currentSupply maxPriceImpact isBuy basePrice
             low high optimal);
    intros Hlow Hopt r Hr.
  - injection Hr as <-. exact Hopt.
  - discriminate.
  - pose proof (midpoint_between low high l) as Hmid.
    apply (H ltac:(lia) ltac:(lia) r Hr).
  - apply (H Hlow Hopt r Hr).
Qed.

(** When every amount of the interval exceeds the bound, the candidate is
    returned as it was; so it is when the interval is empty. *)
Lemma searchLoop_nothing_found K currentSupply maxPriceImpact isBuy basePrice
    low high optimal :
  (forall amount, low <= amount <= high ->
     exceedsImpact K currentSupply maxPriceImpact isBuy basePrice amount) ->
  searchLoop K currentSupply maxPriceImpact isBuy basePrice low high optimal
  = Returned optimal.
Proof.
  funelim (searchLoop K currentSupply maxPriceImpact isBuy basePrice
             low high optimal);
    intros Hnone.
  - reflexivity.
  - pose proof (midpoint_between low high l) as Hmid.
    destruct (Hnone _ Hmid) as [impact' [Himpact' _]]. congruence.
  - pose proof (midpoint_between low high l) as Hmid.
    destruct (Hnone _ Hmid) as [impact' [Himpact' Hlt]].
    rewrite Heq0 in Himpact'. injection Himpact' as <-.
    apply Qle_bool_iff in Heq. exfalso. exact (Qlt_not_le _ _ Hlt Heq).
  - pose proof (midpoint_between low high l) as Hmid.
    apply H. intros amount Hamount. apply Hnone. lia.
Qed.

(** The search returns when the price impact of every amount of the
    interval is computed. *)
Lemma searchLoop_returns K currentSupply maxPriceImpact isBuy basePrice
    low high optimal :
  (forall amount, low <= amount <= high ->
     exists impact,
       calculatePriceImpact K currentSupply amount isBuy basePrice
       = Returned impact) ->
  exists r,
    searchLoop K currentSupply maxPriceImpact isBuy basePrice low high optimal
    = Returned r.
Proof.
  funelim (searchLoop K currentSupply maxPriceImpact isBuy basePrice
             low high optimal);
    intros Hall.
  - eexists. reflexivity.
  - pose proof (midpoint_between low high l) as Hmid.
    destruct (Hall _ Hmid) as [impact' Himpact']. congruence.
  - pose proof (midpoint_between low high l) as Hmid.
    apply H. intros amount Hamount. apply Hall. lia.
  - pose proof (midpoint_between low high l) as Hmid.
    apply H. intros amount Hamount. apply Hall. lia.
Qed.

(** The search ends in the error of its first probe when that probe
    throws. *)
Lemma searchLoop_first_probe_throws K currentSupply maxPriceImpact isBuy
    basePrice low high optimal message :
  low <= high ->
  calculatePriceImpact K currentSupply (Z.quot (low + high) 2) isBuy basePrice
  = Thrown message ->
  searchLoop K currentSupply maxPriceImpact isBuy basePrice low high optimal
  = Thrown message.
Proof.
  funelim (searchLoop K currentSupply maxPriceImpact isBuy basePrice
             low high optimal);
    intros Hle Hprobe; try lia; congruence.
Qed.

(** The invariant of the search, for the interval [1, bound] it started
    from: above [high] the next amount exceeds the bound on the impact, and
    the candidate is either the initial 1 (nothing found yet, [low] still 1)
    or the admissible amount just below [low].  At the exit the candidate is
    therefore either an admissible amount whose successor is not, or the
    initial 1 with the amount 1 itself found not admissible. *)
Lemma searchLoop_invariant K currentSupply maxPriceImpact isBuy basePrice
    low high optimal bound :
  1 <= low -> low <= high + 1 ->
  (high = bound
   \/ (high < bound
       /\ exceedsImpact K currentSupply maxPriceImpact isBuy basePrice
            (high + 1))) ->
  ((low = 1 /\ optimal = 1)
   \/ (optimal = low - 1 /\ 1 <= optimal
       /\ withinImpact K currentSupply maxPriceImpact isBuy basePrice
            optimal)) ->
  forall r,
    searchLoop K currentSupply maxPriceImpact isBuy basePrice low high optimal
    = Returned r ->
    (1 <= r <= bound
     /\ withinImpact K currentSupply maxPriceImpact isBuy basePrice r
     /\ (r + 1 <= bound ->
         exceedsImpact K currentSupply maxPriceImpact isBuy basePrice (r + 1)))
    \/ (r = 1
        /\ (1 <= bound ->
            exceedsImpact K currentSupply maxPriceImpact isBuy basePrice 1)).
Proof.
  funelim (searchLoop K currentSupply maxPriceImpact isBuy basePrice
             low high optimal);
    intros Hlow Hgap Habove Hcandidate r Hr.
  - (* the loop is left: low = high + 1 *)
    injection Hr as <-.
    assert (low = high + 1) by lia. subst low.
    destruct Hcandidate as [[Hone ->] | [-> [Hpos Hok]]].
    + right. split; [reflexivity |]. intros Hbound.
      destruct Habove as [-> | [_ Hnot]]; [lia |].
      replace 1 with (high + 1) by lia. exact Hnot.
    + left. replace (high + 1 - 1) with high in * by lia.
      split; [destruct Habove; lia |]. split; [exact Hok |].
      intros Hnext. destruct Habove as [-> | [_ Hnot]]; [lia | exact Hnot].
  - (* the probe throws *)
    discriminate.
  - (* the midpoint is admissible *)
    pose proof (midpoint_between low high l) as Hmid.
    apply (H bound); try lia; try exact Hr.
    + exact Habove.
    + right. split; [lia |]. split; [lia |].
      exists impact. split; [exact Heq0 |]. apply Qle_bool_iff. exact Heq.
  - (* the midpoint is not admissible *)
    pose proof (midpoint_between low high l) as Hmid.
    apply (H bound); try lia; try exact Hr.
    + right. split; [destruct Habove; lia |].
      replace ((low + high) ÷ 2 - 1 + 1) with ((low + high) ÷ 2) by lia.
      exists impact. split; [exact Heq0 |].
      apply Qnot_le_lt. intros Hle. apply Qle_bool_iff in Hle. congruence.
    + exact Hcandidate.
Qed.

(** The result of the whole search, from the invariant at its start. *)
Lemma optimal_size_characterised K currentSupply maxPriceImpact isBuy
    basePrice r :
  calculateOptimalTradeSize K currentSupply maxPriceImpact isBuy basePrice
  = Returned r ->
  (1 <= r <= searchBound K currentSupply isBuy
   /\ withinImpact K currentSupply maxPriceImpact isBuy basePrice r
   /\ (r + 1 <= searchBound K currentSupply isBuy ->
       exceedsImpact K currentSupply maxPriceImpact isBuy basePrice (r + 1)))
  \/ (r = 1
      /\ (1 <= searchBound K currentSupply isBuy ->
          exceedsImpact K currentSupply maxPriceImpact isBuy basePrice 1)).
Proof.
  unfold calculateOptimalTradeSize. cbv zeta.
  fold (searchBound K currentSupply isBuy). intros Hr.
  destruct (Z_le_gt_dec 0 (searchBound K currentSupply isBuy)) as [Hbound | Hbound].
  - apply (searchLoop_invariant K currentSupply maxPriceImpact isBuy basePrice
             1 (searchBound K currentSupply isBuy) 1
             (searchBound K currentSupply isBuy)); try lia.
    exact Hr.
  - right.
    rewrite searchLoop_nothing_found in Hr by (intros amount Hamount; lia).
    injection Hr as <-. split; [reflexivity | lia].
Qed.

Lemma optimal_size_of_an_empty_bound K currentSupply maxPriceImpact isBuy
    basePrice :
  searchBound K currentSupply isBuy < 1 ->
  calculateOptimalTradeSize K currentSupply maxPriceImpact isBuy basePrice
  = Returned 1.
Proof.
  intros Hempty. unfold calculateOptimalTradeSize. cbv zeta.
  fold (searchBound K currentSupply isBuy).
  apply searchLoop_nothing_found. intros amount Hamount. lia.
Qed.

(** ** Errors of the quotes, the price impact and the validation *)

(** [calculateBuyPrice] has no error of its own: what it throws comes from
    bn.js. *)
Lemma buy_thrown (K : CurveConstants) (currentSupply amount basePrice : Z)
    (message : string) :
  calculateBuyPrice K currentSupply amount basePrice = Thrown message ->
  libraryError message.
Proof.
  unfold calculateBuyPrice. intros Hthrown.
  apply bind_thrown in Hthrown as [Hcount | [count [_ Hthrown]]].
  { apply toNumber_thrown in Hcount as [_ ->]. right. reflexivity. }
  apply bind_thrown in Hthrown as [Hloop | [state [_ Hthrown]]].
  { apply (forLoop_thrown
             (fun i => calculatePriceAtSupply K (currentSupply + i) basePrice))
      in Hloop as [j Hprice].
    apply price_thrown in Hprice. apply Hprice. }
  cbv zeta in Hthrown.
  apply bind_thrown in Hthrown as [Hnumber | [priceNumber [_ Hthrown]]].
  { apply toNumber_thrown in Hnumber as [_ ->]. right. reflexivity. }
  apply bind_thrown in Hthrown as [Hcap | [cap [_ Hreturned]]];
    [| discriminate].
  exact (market_cap_thrown K _ _ _ Hcap).
Qed.

Lemma impact_thrown (K : CurveConstants) (currentSupply tradeAmount : Z)
    (isBuy : bool) (basePrice : Z) (message : string) :
  calculatePriceImpact K currentSupply tradeAmount isBuy basePrice
  = Thrown message ->
  libraryError message.
Proof.
  unfold calculatePriceImpact. intros Hthrown.
  apply bind_thrown in Hthrown as [Hprice | [currentPrice [_ Hthrown]]].
  { apply price_thrown in Hprice. apply Hprice. }
  apply bind_thrown in Hthrown as [Hprice | [newPrice [_ Hthrown]]].
  { destruct isBuy; apply price_thrown in Hprice; apply Hprice. }
  cbv zeta in Hthrown.
  apply bind_thrown in Hthrown as [Hdiv | [quotient [_ Hthrown]]].
  { apply BN_div_thrown in Hdiv as [_ ->]. left. reflexivity. }
  apply bind_thrown in Hthrown as [Hnumber | [hundredths [_ Hreturned]]];
    [| discriminate].
  apply toNumber_thrown in Hnumber as [_ ->]. right. reflexivity.
Qed.

(** A trade that moves the supply to where the scaled power of the
    multiplier is not safe has no price impact: the price after the trade
    ends in the assertion of [new BN]. *)
Lemma impact_unsafe_power (K : CurveConstants) (currentSupply tradeAmount : Z)
    (isBuy : bool) (basePrice : Z) :
  priceComputable K currentSupply ->
  0 < supplyAfter currentSupply tradeAmount isBuy ->
  safe (supplyAfter currentSupply tradeAmount isBuy) ->
  ~ safe (PRICE_MULTIPLIER_pow_x1000 K
            (supplyAfter currentSupply tradeAmount isBuy)) ->
  calculatePriceImpact K currentSupply tradeAmount isBuy basePrice
  = Thrown "Assertion failed".
Proof.
  intros Hc Hpos Hsafe Hnot. unfold calculatePriceImpact.
  rewrite (price_computable K _ _ Hc). cbn [bind].
  replace (if isBuy
           then calculatePriceAtSupply K (currentSupply + tradeAmount) basePrice
           else calculatePriceAtSupply K (currentSupply - tradeAmount) basePrice)
    with (calculatePriceAtSupply K (supplyAfter currentSupply tradeAmount isBuy)
            basePrice)
    by (destruct isBuy; reflexivity).
  rewrite (price_unsafe_power K _ _ Hpos Hsafe Hnot). reflexivity.
Qed.

(** [validateTrade] throws only where it asks for the price impact of a
    trade within the bounds, and then the error of that computation. *)
Lemma validate_thrown (K : CurveConstants) (currentSupply amount : Z)
    (isBuy : bool) (maxSlippage : number) (message : string) :
  validateTrade K currentSupply amount isBuy maxSlippage = Thrown message ->
  0 < amount
  /\ (if isBuy then currentSupply + amount <= MAX_SUPPLY K
      else amount <= currentSupply)
  /\ calculatePriceImpact K currentSupply amount isBuy (BASE_PRICE K)
     = Thrown message.
Proof.
  intros Hthrown.
  destruct (trade_cases K currentSupply amount isBuy)
    as [Hzero | [[Hpos Hout] | [Hpos Hin]]].
  - rewrite validate_amount in Hthrown by exact Hzero. discriminate.
  - destruct isBuy.
    + rewrite validate_capacity in Hthrown by assumption. discriminate.
    + rewrite validate_supply in Hthrown by assumption. discriminate.
  - split; [exact Hpos |]. split; [exact Hin |].
    rewrite validate_in_bounds in Hthrown by assumption.
    unfold checkPriceImpact in Hthrown.
    apply bind_thrown in Hthrown as [Himpact | [impact [_ Hreturned]]];
      [exact Himpact |].
    destruct (negb (Qle_bool impact maxSlippage)); discriminate.
Qed.

(** [calculateSlippage] with an expected price other than 0 returns exactly
    when the quotient is safe. *)
Lemma slippage_returned (expectedPrice actualPrice : Z) (slippage : number) :
  expectedPrice <> 0 ->
  (calculateSlippage expectedPrice actualPrice = Returned slippage
   <-> safe (hundredthsOf expectedPrice actualPrice)
       /\ slippage = percentageOf expectedPrice actualPrice).
Proof.
  intros Hne. unfold calculateSlippage.
  destruct (Z.eqb_spec expectedPrice 0) as [Hzero | _]; [contradiction |].
  rewrite (proj2 (BN_div_returned _ _ _) (conj Hne eq_refl)). cbn [bind].
  fold (hundredthsOf expectedPrice actualPrice). split.
  - intros Hslippage.
    apply bind_returned in Hslippage as [hundredths [Hnumber Hslippage]].
    apply toNumber_returned in Hnumber as [Hsafe ->].
    injection Hslippage as <-. split; [exact Hsafe | reflexivity].
  - intros [Hsafe ->]. rewrite (toNumber_safe _ Hsafe). reflexivity.
Qed.

(** * The claims *)

(** ** Buy and sell quotes *)

(** C1.  For valid curve parameters and a base price that is not negative,
    every quote that [calculateBuyPrice] returns for [amount] units at
    [currentSupply] has a gross amount [totalCost] equal to the sum of
    [price(currentSupply + i)] for [i = 0 .. amount - 1], each of them
    returned by [calculatePriceAtSupply], a fee equal to
    [floor(totalCost * feeRate)] and a net amount [netCost] equal to
    [totalCost + fee].  A quote is returned exactly when bn.js accepts the
    conversions the code makes: the amount is safe, the scaled power of the
    multiplier is safe at every supply from [currentSupply] to
    [currentSupply + amount], and the price of the last unit is safe.  With
    the constants of the source (base price 1_000_000, fee rate 0.025),
    [calculateBuyPrice(0, 1)] returns gross amount 1_000_000, fee 25_000
    and net amount 1_025_000. *)
Theorem buy_quote_gross_fee_net (K : CurveConstants)
    (currentSupply amount basePrice : Z) :
  validParameters K -> 0 <= basePrice ->
  (forall q,
     calculateBuyPrice K currentSupply amount basePrice = Returned q ->
     (forall i, 0 <= i < amount ->
        calculatePriceAtSupply K (currentSupply + i) basePrice
        = Returned (priceAt K (currentSupply + i) basePrice))
     /\ totalCost q
        = sumOver (fun i => priceAt K (currentSupply + i) basePrice)
            (range 0 (Z.to_nat amount))
     /\ fee q = Qfloor (inject_Z (totalCost q) * feeRate K)
     /\ netCost q = totalCost q + fee q)
  /\ ((exists q,
         calculateBuyPrice K currentSupply amount basePrice = Returned q)
      <-> safe amount
          /\ (forall i, 0 <= i < amount ->
                priceComputable K (currentSupply + i))
          /\ priceComputable K (currentSupply + amount)
          /\ (0 < amount ->
              safe (priceAt K (currentSupply + amount - 1) basePrice)))
  /\ (BASE_PRICE CURVE_CONSTANTS = 1000000
      /\ (feeRate CURVE_CONSTANTS == 25 # 1000)%Q
      /\ exists q1,
           calculateBuyPrice CURVE_CONSTANTS 0 1 (BASE_PRICE CURVE_CONSTANTS)
           = Returned q1
           /\ totalCost q1 = 1000000 /\ fee q1 = 25000
           /\ netCost q1 = 1025000).
Proof.
  intros Hvalid Hbase.
  destruct Hvalid as [[Hfee _] Hmin _].
  split; [| split].
  - intros q Hq.
    destruct (buy_returned K _ _ _ _ Hq)
      as [_ [Hall [_ [Htotal [_ [_ [Hquot [Hnet _]]]]]]]].
    split.
    { intros i Hi. apply price_computable. apply Hall. exact Hi. }
    split; [exact Htotal |]. split; [| exact Hnet].
    rewrite Hquot. apply fee_is_floor; [exact Hfee |].
    rewrite Htotal. apply sumOver_nonneg. intros i _.
    apply priceAt_nonneg; assumption.
  - split.
    + intros [q Hq].
      destruct (buy_returned K _ _ _ _ Hq)
        as [Hsafe [Hall [Hafter [_ [Hprice [Hlast _]]]]]].
      split; [exact Hsafe |]. split; [exact Hall |]. split; [exact Hafter |].
      intros Hpos. rewrite Hprice in Hlast.
      destruct (Z.leb_spec amount 0) as [Hle | _]; [lia | exact Hlast].
    + intros [Hsafe [Hall [Hafter Hlast]]].
      apply buy_returns; assumption.
  - split; [reflexivity |]. split; [reflexivity |].
    eexists. split; [vm_compute; reflexivity |]. repeat split.
Qed.

Lemma buy_quote_gross_fee_net_witness :
  validParameters CURVE_CONSTANTS /\ 0 <= 1000000
  /\ exists q,
       calculateBuyPrice CURVE_CONSTANTS 2 3 1000000 = Returned q
       /\ totalCost q
          = sumOver (fun i => priceAt CURVE_CONSTANTS (2 + i) 1000000)
              (range 0 (Z.to_nat 3))
       /\ fee q = Qfloor (inject_Z (totalCost q) * feeRate CURVE_CONSTANTS)
       /\ netCost q = totalCost q + fee q.
Proof.
  pose proof (buy_quote_gross_fee_net CURVE_CONSTANTS 2 3 1000000
                CURVE_CONSTANTS_valid ltac:(lia)) as [Hgeneral _].
  split; [exact CURVE_CONSTANTS_valid |]. split; [lia |].
  eexists. split; [vm_compute; reflexivity |].
  apply (Hgeneral _ eq_refl).
Defined.

(** C2.  For valid curve parameters, a base price that is not negative and
    [0 < amount <= currentSupply], every quote that [calculateSellPrice]
    returns has a gross amount [totalCost] equal to the sum of
    [price(currentSupply - i)] for [i = 1 .. amount], each of them returned
    by [calculatePriceAtSupply], a fee equal to [floor(totalCost * feeRate)]
    and a net amount [netCost] equal to [totalCost - fee].  A quote is
    returned exactly when bn.js accepts the conversions the code makes: the
    amount is safe, the scaled power of the multiplier is safe at every
    supply from [currentSupply - amount] to [currentSupply - 1], and the
    price of the last unit is safe.  With the constants of the source,
    [calculateSellPrice(1, 1)] returns gross amount 1_000_000, fee 25_000
    and net amount 975_000. *)
Theorem sell_quote_gross_fee_net (K : CurveConstants)
    (currentSupply amount basePrice : Z) :
  validParameters K -> 0 <= basePrice ->
  0 < amount -> amount <= currentSupply ->
  (forall q,
     calculateSellPrice K currentSupply amount basePrice = Returned q ->
     (forall i, 1 <= i <= amount ->
        calculatePriceAtSupply K (currentSupply - i) basePrice
        = Returned (priceAt K (currentSupply - i) basePrice))
     /\ totalCost q
        = sumOver (fun i => priceAt K (currentSupply - i) basePrice)
            (range 1 (Z.to_nat amount))
     /\ fee q = Qfloor (inject_Z (totalCost q) * feeRate K)
     /\ netCost q = totalCost q - fee q)
  /\ ((exists q,
         calculateSellPrice K currentSupply amount basePrice = Returned q)
      <-> safe amount
          /\ (forall i, 1 <= i <= amount ->
                priceComputable K (currentSupply - i))
          /\ safe (priceAt K (currentSupply - amount) basePrice))
  /\ (exists q1,
        calculateSellPrice CURVE_CONSTANTS 1 1 (BASE_PRICE CURVE_CONSTANTS)
        = Returned q1
        /\ totalCost q1 = 1000000 /\ fee q1 = 25000 /\ netCost q1 = 975000).
Proof.
  intros Hvalid Hbase Hpos Hsupply.
  destruct Hvalid as [[Hfee _] Hmin _].
  split; [| split].
  - intros q Hq.
    destruct (sell_returned K _ _ _ _ Hq)
      as [_ [_ [Hall [_ [Htotal [_ [_ [Hquot [Hnet _]]]]]]]]].
    split.
    { intros i Hi. apply price_computable. apply Hall. exact Hi. }
    split; [exact Htotal |]. split; [| exact Hnet].
    rewrite Hquot. apply fee_is_floor; [exact Hfee |].
    rewrite Htotal. apply sumOver_nonneg. intros i _.
    apply priceAt_nonneg; assumption.
  - split.
    + intros [q Hq].
      destruct (sell_returned K _ _ _ _ Hq)
        as [_ [Hsafe [Hall [_ [_ [Hprice [Hlast _]]]]]]].
      split; [exact Hsafe |]. split; [exact Hall |].
      rewrite Hprice in Hlast.
      destruct (Z.leb_spec amount 0) as [Hle | _]; [lia | exact Hlast].
    + intros [Hsafe [Hall Hlast]].
      apply sell_returns; try assumption.
      * apply Hall. lia.
      * intros _. exact Hlast.
  - eexists. split; [vm_compute; reflexivity |]. repeat split.
Qed.

Lemma sell_quote_gross_fee_net_witness :
  validParameters CURVE_CONSTANTS /\ 0 <= 1000000 /\ 0 < 3 /\ 3 <= 5
  /\ exists q,
       calculateSellPrice CURVE_CONSTANTS 5 3 1000000 = Returned q
       /\ totalCost q
          = sumOver (fun i => priceAt CURVE_CONSTANTS (5 - i) 1000000)
              (range 1 (Z.to_nat 3))
       /\ fee q = Qfloor (inject_Z (totalCost q) * feeRate CURVE_CONSTANTS)
       /\ netCost q = totalCost q - fee q.
Proof.
  pose proof (sell_quote_gross_fee_net CURVE_CONSTANTS 5 3 1000000
                CURVE_CONSTANTS_valid ltac:(lia) ltac:(lia) ltac:(lia))
    as [Hgeneral _].
  split; [exact CURVE_CONSTANTS_valid |].
  split; [lia |]. split; [lia |]. split; [lia |].
  eexists. split; [vm_compute; reflexivity |].
  apply (Hgeneral _ eq_refl).
Defined.

(** The gross amounts of a buy and of the sale that undoes it are sums over
    the same units. *)
Lemma buy_and_sell_totals (K : CurveConstants)
    (currentSupply amount basePrice : Z) :
  sumOver (fun j => priceAt K (currentSupply + amount - j) basePrice)
    (range 1 (Z.to_nat amount))
  = sumOver (fun j => priceAt K (currentSupply + j) basePrice)
      (range 0 (Z.to_nat amount)).
Proof.
  destruct (Z_le_gt_dec amount 0) as [Hle | Hgt].
  - replace (Z.to_nat amount) with O by lia. reflexivity.
  - rewrite <- (sumOver_reversed
                  (fun j => priceAt K (currentSupply + j) basePrice)
                  (Z.to_nat amount)).
    apply sumOver_ext. intros i _. f_equal. lia.
Qed.

(** With prices that never decrease, the sale that undoes a returned buy of
    at least one unit returns too: it visits the same units, and its last
    price is the lowest of them. *)
Lemma sale_returns_after_buy (K : CurveConstants)
    (currentSupply amount basePrice : Z) (qb : PriceCalculation) :
  validParameters K -> increasingMultiplier K -> 0 <= basePrice ->
  0 <= currentSupply -> 1 <= amount ->
  calculateBuyPrice K currentSupply amount basePrice = Returned qb ->
  exists qs,
    calculateSellPrice K (currentSupply + amount) amount basePrice
    = Returned qs.
Proof.
  intros Hvalid Hincreasing Hbase Hsupply Hamount Hqb.
  destruct (buy_returned K _ _ _ _ Hqb)
    as [Hsafe [Hall [_ [_ [Hprice [Hlast _]]]]]].
  apply sell_returns.
  - lia.
  - exact Hsafe.
  - intros j Hj.
    replace (currentSupply + amount - j)
      with (currentSupply + (amount - j)) by lia.
    apply Hall. lia.
  - replace (currentSupply + amount - amount) with (currentSupply + 0) by lia.
    apply Hall. lia.
  - intros _.
    replace (currentSupply + amount - amount) with currentSupply by lia.
    destruct (Z.leb_spec amount 0) as [Hle | _]; [lia |].
    rewrite Hprice in Hlast.
    apply safe_between with (2 := Hlast). split.
    + apply priceAt_nonneg; [exact (min_price_positive K Hvalid) | exact Hbase].
    + apply priceAt_monotone; [assumption | assumption | lia].
Qed.

(** C8.  Whenever [calculateBuyPrice] returns a quote for [amount] units at
    [currentSupply], every quote that [calculateSellPrice] returns for
    [amount] units at [currentSupply + amount] has the same gross amount:
    both sum the prices of the units
    [currentSupply, ..., currentSupply + amount - 1].  The gross amount is
    accumulated before the fee is charged, so this holds for every fee
    rate, zero included.  For valid curve parameters, a multiplier above 1,
    a base price and a supply that are not negative and at least one unit,
    the sale returns such a quote whenever the buy does. *)
Theorem buy_sell_gross_symmetry (K : CurveConstants)
    (currentSupply amount basePrice : Z) (qb : PriceCalculation) :
  calculateBuyPrice K currentSupply amount basePrice = Returned qb ->
  (forall qs,
     calculateSellPrice K (currentSupply + amount) amount basePrice
     = Returned qs ->
     totalCost qb = totalCost qs)
  /\ (validParameters K -> increasingMultiplier K -> 0 <= basePrice ->
      0 <= currentSupply -> 1 <= amount ->
      exists qs,
        calculateSellPrice K (currentSupply + amount) amount basePrice
        = Returned qs
        /\ totalCost qb = totalCost qs).
Proof.
  intros Hqb.
  destruct (buy_returned K _ _ _ _ Hqb) as [_ [_ [_ [Htotal _]]]].
  assert (Hsame :
    forall qs,
      calculateSellPrice K (currentSupply + amount) amount basePrice
      = Returned qs ->
      totalCost qb = totalCost qs).
  { intros qs Hqs.
    destruct (sell_returned K _ _ _ _ Hqs) as [_ [_ [_ [_ [Htotal' _]]]]].
    rewrite Htotal, Htotal'. symmetry. apply buy_and_sell_totals. }
  split; [exact Hsame |].
  intros Hvalid Hincreasing Hbase Hsupply Hamount.
  destruct (sale_returns_after_buy K currentSupply amount basePrice qb
              Hvalid Hincreasing Hbase Hsupply Hamount Hqb) as [qs Hqs].
  exists qs. split; [exact Hqs | exact (Hsame qs Hqs)].
Qed.

Lemma buy_sell_gross_symmetry_witness :
  FEE_PERCENTAGE_x10000 (withFee CURVE_CONSTANTS 0) = 0
  /\ exists qb qs,
       calculateBuyPrice (withFee CURVE_CONSTANTS 0) 2 3 1000000 = Returned qb
       /\ calculateSellPrice (withFee CURVE_CONSTANTS 0) (2 + 3) 3 1000000
          = Returned qs
       /\ totalCost qb = totalCost qs.
Proof.
  split; [reflexivity |].
  eexists. eexists.
  split; [vm_compute; reflexivity |].
  split; [vm_compute; reflexivity |].
  exact (proj1
           (buy_sell_gross_symmetry (withFee CURVE_CONSTANTS 0) 2 3 1000000 _
              eq_refl)
           _ eq_refl).
Defined.

(** ** Preconditions and failures *)

(** C3, as stated, fails: [calculateBuyPrice] with the amount 0 returns a
    quote, all of whose amounts are 0, and no error. *)
Lemma buy_price_zero_amount_returns_quote :
  calculateBuyPrice CURVE_CONSTANTS 0 0 (BASE_PRICE CURVE_CONSTANTS)
  = Returned
      {| price := 0; totalCost := 0; fee := 0; netCost := 0;
         pricePerToken := 0 # 1000000000; marketCap := 0 |}.
Proof. vm_compute. reflexivity. Qed.

(** C3, amended.  [calculateBuyPrice] checks neither the amount nor the
    capacity: its outcome does not depend on the supply cap, it has no
    error of its own (what it throws is an error of bn.js), and for an
    amount of 0 or less every quote it returns has price, gross amount, fee
    and net amount 0; it returns one whenever the amount is safe and the
    price at [currentSupply + amount] is computable.  The two conditions
    are reported by [validateTrade], as the results
    ['Amount must be greater than 0'] and, for a buy,
    ['Exceeds maximum supply']. *)
Theorem buy_price_makes_no_check (K : CurveConstants)
    (currentSupply amount basePrice maxSupply : Z) (maxSlippage : number) :
  calculateBuyPrice (withMaxSupply K maxSupply) currentSupply amount basePrice
  = calculateBuyPrice K currentSupply amount basePrice
  /\ (forall message,
        calculateBuyPrice K currentSupply amount basePrice = Thrown message ->
        libraryError message)
  /\ (amount <= 0 ->
      forall q,
        calculateBuyPrice K currentSupply amount basePrice = Returned q ->
        price q = 0 /\ totalCost q = 0 /\ fee q = 0 /\ netCost q = 0)
  /\ (amount <= 0 -> safe amount ->
      priceComputable K (currentSupply + amount) ->
      exists q,
        calculateBuyPrice K currentSupply amount basePrice = Returned q)
  /\ (amount <= 0 ->
      validateTrade K currentSupply amount true maxSlippage
      = Returned (invalid "Amount must be greater than 0"))
  /\ (0 < amount -> MAX_SUPPLY K < currentSupply + amount ->
      validateTrade K currentSupply amount true maxSlippage
      = Returned (invalid "Exceeds maximum supply")).
Proof.
  split; [reflexivity |].
  split; [intros message; apply buy_thrown |].
  split; [| split; [| split]].
  - intros Hle q Hq.
    destruct (buy_returned K _ _ _ _ Hq)
      as [_ [_ [_ [Htotal [Hprice [_ [Hfee [Hnet _]]]]]]]].
    replace (Z.to_nat amount) with O in Htotal by lia.
    cbn [range seq map sumOver fold_right] in Htotal.
    destruct (Z.leb_spec amount 0) as [_ | Hgt]; [| lia].
    rewrite Htotal in Hfee. rewrite Z.mul_0_l, Z.quot_0_l in Hfee by lia.
    lia.
  - intros Hle Hsafe Hafter.
    apply buy_returns; try assumption; intros; lia.
  - apply validate_amount.
  - apply validate_capacity.
Qed.

Lemma buy_price_makes_no_check_witness :
  0 < 2 /\ MAX_SUPPLY (withMaxSupply CURVE_CONSTANTS 10) < 9 + 2
  /\ validateTrade (withMaxSupply CURVE_CONSTANTS 10) 9 2 true (5 # 1)
     = Returned (invalid "Exceeds maximum supply")
  /\ calculateBuyPrice (withMaxSupply CURVE_CONSTANTS 10) 9 2 1000000
     = calculateBuyPrice CURVE_CONSTANTS 9 2 1000000
  /\ exists q, calculateBuyPrice CURVE_CONSTANTS 9 2 1000000 = Returned q.
Proof.
  assert (Hpos : 0 < 2) by lia.
  assert (Hcap : MAX_SUPPLY (withMaxSupply CURVE_CONSTANTS 10) < 9 + 2)
    by (cbn; lia).
  split; [exact Hpos |]. split; [exact Hcap |].
  split.
  - exact (proj2 (proj2 (proj2 (proj2 (proj2
             (buy_price_makes_no_check (withMaxSupply CURVE_CONSTANTS 10)
                9 2 1000000 10 (5 # 1))))))
             Hpos Hcap).
  - split.
    + exact (proj1 (buy_price_makes_no_check CURVE_CONSTANTS 9 2 1000000 10
                      (5 # 1))).
    + eexists. vm_compute. reflexivity.
Defined.

(** C4.  The price floor is not applied at supply 0: with a base price of
    50_000, below the floor of 100_000, [calculatePriceAtSupply(0)] returns
    50_000.  From one unit of supply on, every price the function returns
    is at least the floor, for every base price, and it returns one at
    every computable supply. *)
Theorem price_floor_skipped_at_zero_supply :
  calculatePriceAtSupply CURVE_CONSTANTS 0 50000 = Returned 50000
  /\ 50000 < MIN_PRICE CURVE_CONSTANTS
  /\ (forall K supply basePrice p,
        0 < supply ->
        calculatePriceAtSupply K supply basePrice = Returned p ->
        MIN_PRICE K <= p)
  /\ (forall K supply basePrice,
        0 < supply -> priceComputable K supply ->
        exists p,
          calculatePriceAtSupply K supply basePrice = Returned p
          /\ MIN_PRICE K <= p).
Proof.
  split; [reflexivity |].
  split; [cbn; lia |].
  split.
  - intros K supply basePrice p Hpos Hp.
    apply price_value in Hp. subst p. apply priceAt_floor. exact Hpos.
  - intros K supply basePrice Hpos Hc.
    exists (priceAt K supply basePrice).
    split; [apply price_computable; exact Hc | apply priceAt_floor; exact Hpos].
Qed.

(** C5.  For valid curve parameters, a multiplier above 1 and every supply
    [s >= 0], the price does not decrease from [s] to [s + 1]: whenever
    [calculatePriceAtSupply] returns a price at [s + 1], it returns one at
    [s], and that price is not larger. *)
Theorem price_never_decreases (K : CurveConstants)
    (supply basePrice next : Z) :
  validParameters K -> increasingMultiplier K -> 0 <= supply ->
  calculatePriceAtSupply K (supply + 1) basePrice = Returned next ->
  exists current,
    calculatePriceAtSupply K supply basePrice = Returned current
    /\ current <= next.
Proof.
  intros Hvalid Hincreasing Hsupply Hnext.
  apply price_returned in Hnext as [Hc ->].
  exists (priceAt K supply basePrice). split.
  - apply price_computable.
    apply (computable_below K (supply + 1) supply Hincreasing); [lia | exact Hc].
  - apply priceAt_monotone_step; try assumption.
    exact (min_price_positive K Hvalid).
Qed.

Lemma price_never_decreases_witness :
  validParameters CURVE_CONSTANTS /\ increasingMultiplier CURVE_CONSTANTS
  /\ 0 <= 3
  /\ calculatePriceAtSupply CURVE_CONSTANTS (3 + 1) 1000000 = Returned 1464000
  /\ exists current,
       calculatePriceAtSupply CURVE_CONSTANTS 3 1000000 = Returned current
       /\ current <= 1464000.
Proof.
  assert (Hnext :
    calculatePriceAtSupply CURVE_CONSTANTS (3 + 1) 1000000 = Returned 1464000)
    by (vm_compute; reflexivity).
  split; [exact CURVE_CONSTANTS_valid |].
  split; [exact CURVE_CONSTANTS_increasing |].
  split; [lia |]. split; [exact Hnext |].
  exact (price_never_decreases CURVE_CONSTANTS 3 1000000 1464000
           CURVE_CONSTANTS_valid CURVE_CONSTANTS_increasing ltac:(lia) Hnext).
Defined.

(** C6, as stated, fails: selling one token at supply 0 is not answered by
    a result value, [calculateSellPrice] throws. *)
Lemma sell_beyond_supply_is_thrown :
  calculateSellPrice CURVE_CONSTANTS 0 1 (BASE_PRICE CURVE_CONSTANTS)
  = Thrown "Cannot sell more tokens than current supply".
Proof. apply sell_throws. lia. Qed.

(** C6, amended.  [validateTrade] returns the expected failures as result
    values: a non-positive amount, a buy beyond the supply cap and a sale
    beyond the current supply each give [isValid = false] with their own
    error before any price is computed; for a trade within these bounds, a
    price impact above the tolerated slippage gives [isValid = false] with
    its error and a price impact within it gives [isValid = true], whenever
    [calculatePriceImpact] returns, and an error of [calculatePriceImpact],
    which comes from bn.js, is thrown on.  [calculateSellPrice] instead
    throws its own error when the amount exceeds the current supply;
    whatever it throws otherwise is an error of bn.js. *)
Theorem failures_are_values_in_validation_only (K : CurveConstants)
    (currentSupply amount basePrice : Z) (isBuy : bool)
    (maxSlippage : number) :
  let inBounds :=
    if isBuy then currentSupply + amount <= MAX_SUPPLY K
    else amount <= currentSupply in
  (currentSupply < amount ->
   calculateSellPrice K currentSupply amount basePrice
   = Thrown "Cannot sell more tokens than current supply")
  /\ (amount <= currentSupply ->
      forall message,
        calculateSellPrice K currentSupply amount basePrice = Thrown message ->
        libraryError message)
  /\ (amount <= 0 ->
      validateTrade K currentSupply amount isBuy maxSlippage
      = Returned (invalid "Amount must be greater than 0"))
  /\ (0 < amount -> MAX_SUPPLY K < currentSupply + amount ->
      validateTrade K currentSupply amount true maxSlippage
      = Returned (invalid "Exceeds maximum supply"))
  /\ (0 < amount -> currentSupply < amount ->
      validateTrade K currentSupply amount false maxSlippage
      = Returned (invalid "Cannot sell more than current supply"))
  /\ (0 < amount -> inBounds ->
      forall impact,
        calculatePriceImpact K currentSupply amount isBuy (BASE_PRICE K)
        = Returned impact ->
        ((maxSlippage < impact)%Q ->
         validateTrade K currentSupply amount isBuy maxSlippage
         = Returned
             {| isValid := false;
                error := Some (PriceImpactExceeds impact maxSlippage) |})
        /\ ((impact <= maxSlippage)%Q ->
            validateTrade K currentSupply amount isBuy maxSlippage
            = Returned {| isValid := true; error := None |}))
  /\ (0 < amount -> inBounds ->
      forall message,
        calculatePriceImpact K currentSupply amount isBuy (BASE_PRICE K)
        = Thrown message ->
        validateTrade K currentSupply amount isBuy maxSlippage
        = Thrown message)
  /\ (forall message,
        validateTrade K currentSupply amount isBuy maxSlippage
        = Thrown message ->
        libraryError message).
Proof.
  intros inBounds.
  split; [apply sell_throws |].
  split.
  { intros Hle message Hthrown.
    apply sell_thrown in Hthrown as [[Hlt _] | [_ Hlibrary]];
      [lia | exact Hlibrary]. }
  split; [apply validate_amount |].
  split; [apply validate_capacity |].
  split; [apply validate_supply |].
  split; [| split].
  - intros Hpos Hbounds impact Himpact. split; intros Hcompare.
    + rewrite validate_in_bounds by assumption.
      apply check_price_impact_exceeded; assumption.
    + rewrite validate_in_bounds by assumption.
      apply check_price_impact_within with (1 := Himpact). exact Hcompare.
  - intros Hpos Hbounds message Himpact.
    rewrite validate_in_bounds by assumption.
    apply check_price_impact_thrown. exact Himpact.
  - intros message Hthrown.
    apply validate_thrown in Hthrown as [_ [_ Himpact]].
    exact (impact_thrown K _ _ _ _ _ Himpact).
Qed.

Lemma failures_are_values_in_validation_only_witness :
  1 < 2
  /\ calculateSellPrice CURVE_CONSTANTS 1 2 1000000
     = Thrown "Cannot sell more tokens than current supply"
  /\ validateTrade CURVE_CONSTANTS 1 2 false (5 # 1)
     = Returned (invalid "Cannot sell more than current supply").
Proof.
  pose proof (failures_are_values_in_validation_only CURVE_CONSTANTS 1 2
                1000000 false (5 # 1))
    as [Hthrown [_ [_ [_ [Hsupply _]]]]].
  split; [lia |].
  split; [exact (Hthrown ltac:(lia)) | exact (Hsupply ltac:(lia) ltac:(lia))].
Defined.

(** C7.  Whatever the tolerated slippage, [validateTrade] answers a buy of
    one token at the supply cap with ['Exceeds maximum supply'] and a sale
    of one token at supply 0 with ['Cannot sell more than current supply'];
    a buy of 2 at supply 999_999 exceeds the cap of 1_000_000.  The checks
    come in the order amount, capacity or supply, and their answers are
    returned without any price being computed: they do not depend on the
    price impact or on the slippage. *)
Theorem validation_boundaries (K : CurveConstants) (maxSlippage : number) :
  validateTrade K (MAX_SUPPLY K) 1 true maxSlippage
  = Returned (invalid "Exceeds maximum supply")
  /\ validateTrade K 0 1 false maxSlippage
     = Returned (invalid "Cannot sell more than current supply")
  /\ validateTrade CURVE_CONSTANTS 999999 2 true (5 # 1)
     = Returned (invalid "Exceeds maximum supply")
  /\ (forall currentSupply amount isBuy,
        amount <= 0 ->
        validateTrade K currentSupply amount isBuy maxSlippage
        = Returned (invalid "Amount must be greater than 0"))
  /\ (forall currentSupply amount,
        0 < amount -> MAX_SUPPLY K < currentSupply + amount ->
        validateTrade K currentSupply amount true maxSlippage
        = Returned (invalid "Exceeds maximum supply"))
  /\ (forall currentSupply amount,
        0 < amount -> currentSupply < amount ->
        validateTrade K currentSupply amount false maxSlippage
        = Returned (invalid "Cannot sell more than current supply")).
Proof.
  split; [apply validate_capacity; lia |].
  split; [apply validate_supply; lia |].
  split; [apply validate_capacity; cbn; lia |].
  split; [intros; apply validate_amount; assumption |].
  split; [intros; apply validate_capacity; assumption |].
  intros; apply validate_supply; assumption.
Qed.

(** ** Optimal trade size *)

(** C9, as stated, fails: for a sale at supply 1 with a bound of 5% the
    function returns 1, and the price impact of selling 1 token there is
    9.09%, above the bound. *)
Lemma optimal_size_default_exceeds_bound :
  calculateOptimalTradeSize CURVE_CONSTANTS 1 (5 # 1) false
    (BASE_PRICE CURVE_CONSTANTS) = Returned 1
  /\ calculatePriceImpact CURVE_CONSTANTS 1 1 false (BASE_PRICE CURVE_CONSTANTS)
     = Returned (909 # 100)
  /\ (5 # 1 < 909 # 100)%Q.
Proof.
  split; [vm_compute; reflexivity |].
  split; [vm_compute; reflexivity |].
  unfold Qlt. cbn. lia.
Qed.

(** C9, amended.  With [bound = maxSupply - currentSupply] for a buy and
    [currentSupply] for a sale, an amount [r] that
    [calculateOptimalTradeSize] returns is of one of two kinds.  Either the
    search found an admissible amount: [r] lies in [1, bound], its price
    impact is computed and is at most [maxPriceImpact], and if [r + 1] is
    within the bound the price impact of [r + 1] is computed and exceeds
    [maxPriceImpact].  Or it found none: [r] is the initial candidate 1, and
    if the bound is not empty the price impact of 1 is computed and exceeds
    [maxPriceImpact].  So the first property of the claim holds whenever the
    bound is not empty and the amount 1 is admissible; the second holds in
    both cases for valid curve parameters, a multiplier above 1 and a
    positive base price: if [r + 1] is within the bound, every price impact
    computed for [r + 1] exceeds [maxPriceImpact]. *)
Theorem optimal_size_found_or_default (K : CurveConstants)
    (currentSupply : Z) (maxPriceImpact : number) (isBuy : bool)
    (basePrice r : Z) :
  calculateOptimalTradeSize K currentSupply maxPriceImpact isBuy basePrice
  = Returned r ->
  let bound := searchBound K currentSupply isBuy in
  let impactOf := fun amount =>
    calculatePriceImpact K currentSupply amount isBuy basePrice in
  let found :=
    1 <= r <= bound
    /\ (exists impact, impactOf r = Returned impact
                       /\ (impact <= maxPriceImpact)%Q)
    /\ (r + 1 <= bound ->
        exists impact, impactOf (r + 1) = Returned impact
                       /\ (maxPriceImpact < impact)%Q) in
  (found
   \/ (r = 1
       /\ (1 <= bound ->
           exists impact, impactOf 1 = Returned impact
                          /\ (maxPriceImpact < impact)%Q)))
  /\ (1 <= bound ->
      (exists impact, impactOf 1 = Returned impact
                      /\ (impact <= maxPriceImpact)%Q) ->
      found)
  /\ (validParameters K -> increasingMultiplier K -> 0 < basePrice ->
      r + 1 <= bound ->
      forall impact, impactOf (r + 1) = Returned impact ->
                     (maxPriceImpact < impact)%Q).
Proof.
  intros Hr bound impactOf found.
  pose proof (optimal_size_characterised K currentSupply maxPriceImpact isBuy
                basePrice r Hr) as Hchar.
  change (searchBound K currentSupply isBuy) with bound in Hchar.
  split; [exact Hchar |].
  split.
  - intros Hbound Hone.
    destruct Hchar as [Hfound | [_ Hnot]]; [exact Hfound |].
    exfalso.
    exact (within_not_exceeds K currentSupply maxPriceImpact isBuy basePrice 1
             Hone (Hnot Hbound)).
  - intros Hvalid Hincreasing Hbase Hnext impact Himpact.
    destruct Hchar as [[_ [_ Hexceeds]] | [-> Hnot]].
    + destruct (Hexceeds Hnext) as [impact' [Himpact' Hlt]].
      unfold impactOf in Himpact. rewrite Himpact in Himpact'.
      injection Himpact' as <-. exact Hlt.
    + destruct (Hnot ltac:(lia)) as [impact1 [Himpact1 Hlt]].
      destruct (impact_of_a_smaller_trade K currentSupply 1 (1 + 1) isBuy
                  basePrice impact Hvalid Hincreasing Hbase ltac:(lia) Himpact)
        as [impact1' [Himpact1' Hle]].
      rewrite Himpact1 in Himpact1'. injection Himpact1' as <-.
      exact (Qlt_le_trans _ _ _ Hlt Hle).
Qed.

Lemma optimal_size_found_or_default_witness :
  calculateOptimalTradeSize CURVE_CONSTANTS 20 (50 # 1) false 1000000
  = Returned 7
  /\ 1 <= searchBound CURVE_CONSTANTS 20 false
  /\ 1 <= 7 <= searchBound CURVE_CONSTANTS 20 false
  /\ (exists impact,
        calculatePriceImpact CURVE_CONSTANTS 20 7 false 1000000
        = Returned impact
        /\ (impact <= 50 # 1)%Q)
  /\ (7 + 1 <= searchBound CURVE_CONSTANTS 20 false ->
      exists impact,
        calculatePriceImpact CURVE_CONSTANTS 20 (7 + 1) false 1000000
        = Returned impact
        /\ (50 # 1 < impact)%Q).
Proof.
  assert (Hr :
    calculateOptimalTradeSize CURVE_CONSTANTS 20 (50 # 1) false 1000000
    = Returned 7) by (vm_compute; reflexivity).
  assert (Hbound : 1 <= searchBound CURVE_CONSTANTS 20 false) by (cbn; lia).
  assert (Hone :
    exists impact,
      calculatePriceImpact CURVE_CONSTANTS 20 1 false 1000000 = Returned impact
      /\ (impact <= 50 # 1)%Q).
  { eexists. split; [vm_compute; reflexivity |].
    apply Qle_bool_imp_le. vm_compute. reflexivity. }
  split; [exact Hr |]. split; [exact Hbound |].
  exact (proj1 (proj2
           (optimal_size_found_or_default CURVE_CONSTANTS 20 (50 # 1) false
              1000000 7 Hr))
           Hbound Hone).
Defined.

(** C10, as stated, fails: for a buy at supply 0 the first amount the
    search probes is 500_000, whose price needs a factor that [new BN]
    refuses, and [calculateOptimalTradeSize] throws instead of returning an
    amount. *)
Lemma optimal_size_throws_on_a_buy_from_zero :
  calculateOptimalTradeSize CURVE_CONSTANTS 0 (5 # 1) true
    (BASE_PRICE CURVE_CONSTANTS)
  = Thrown "Assertion failed".
Proof.
  unfold calculateOptimalTradeSize. cbv zeta.
  apply searchLoop_first_probe_throws; [cbn; lia |].
  change (Z.quot (1 + (MAX_SUPPLY CURVE_CONSTANTS - 0)) 2) with 500000.
  apply impact_unsafe_power.
  - left. lia.
  - cbn. lia.
  - unfold safe, SAFE_LIMIT. cbn. lia.
  - change (~ safe (pow_1_1_x1000 500000)).
    apply pow_1_1_x1000_unsafe. lia.
Qed.

(** C10, amended.  Every amount that [calculateOptimalTradeSize] returns is
    at least 1.  The candidate starts at 1 and is returned as it is when
    the search bound is empty, as for a buy at the supply cap or a sale at
    supply 0, and when every amount within the bound has a price impact
    above [maxPriceImpact].  The function returns when the price impact of
    every amount within the bound can be computed; it throws the error of
    the first probe whose price impact cannot. *)
Theorem optimal_size_at_least_one (K : CurveConstants) (currentSupply : Z)
    (maxPriceImpact : number) (isBuy : bool) (basePrice : Z) :
  let bound := searchBound K currentSupply isBuy in
  let optimal :=
    calculateOptimalTradeSize K currentSupply maxPriceImpact isBuy basePrice in
  (forall r, optimal = Returned r -> 1 <= r)
  /\ (bound < 1 -> optimal = Returned 1)
  /\ ((forall amount, 1 <= amount <= bound ->
         exists impact,
           calculatePriceImpact K currentSupply amount isBuy basePrice
           = Returned impact
           /\ (maxPriceImpact < impact)%Q) ->
      optimal = Returned 1)
  /\ ((forall amount, 1 <= amount <= bound ->
         exists impact,
           calculatePriceImpact K currentSupply amount isBuy basePrice
           = Returned impact) ->
      exists r, optimal = Returned r /\ 1 <= r)
  /\ (forall message,
        1 <= bound ->
        calculatePriceImpact K currentSupply (Z.quot (1 + bound) 2) isBuy
          basePrice
        = Thrown message ->
        optimal = Thrown message)
  /\ calculateOptimalTradeSize K (MAX_SUPPLY K) maxPriceImpact true basePrice
     = Returned 1
  /\ calculateOptimalTradeSize K 0 maxPriceImpact false basePrice
     = Returned 1.
Proof.
  intros bound optimal.
  assert (Hleast : forall r, optimal = Returned r -> 1 <= r).
  { intros r Hr.
    apply (searchLoop_at_least_1 K currentSupply maxPriceImpact isBuy basePrice
             1 bound 1); try lia.
    exact Hr. }
  split; [exact Hleast |].
  split; [apply optimal_size_of_an_empty_bound |].
  split; [| split; [| split; [| split]]].
  - intros Hnone. apply searchLoop_nothing_found. exact Hnone.
  - intros Hall.
    destruct (searchLoop_returns K currentSupply maxPriceImpact isBuy basePrice
                1 bound 1 Hall) as [r Hr].
    exists r. split; [exact Hr | exact (Hleast r Hr)].
  - intros message Hbound Hprobe.
    apply searchLoop_first_probe_throws; assumption.
  - apply optimal_size_of_an_empty_bound. cbn. lia.
  - apply optimal_size_of_an_empty_bound. cbn. lia.
Qed.

Lemma optimal_size_at_least_one_witness :
  searchBound CURVE_CONSTANTS 1000000 true < 1
  /\ calculateOptimalTradeSize CURVE_CONSTANTS 1000000 (5 # 1) true 1000000
     = Returned 1.
Proof.
  assert (Hempty : searchBound CURVE_CONSTANTS 1000000 true < 1) by (cbn; lia).
  split; [exact Hempty |].
  exact (proj1 (proj2 (optimal_size_at_least_one CURVE_CONSTANTS 1000000
                         (5 # 1) true 1000000))
           Hempty).
Defined.

(** * Further properties of the curve module *)

(** ** Slippage and price impact *)

(** X1.  [calculateSlippage] answers an expected price of 0 with 0.  For a
    positive expected price it returns exactly when the quotient
    [|actual - expected| * 10000 / expected] is safe; every value it returns
    lies between 0 and 100 and is the cap 100 as soon as the actual price
    is at least twice the expected one or is 0 or less; and for equal
    prices it returns 0. *)
Theorem slippage_is_a_capped_percentage (expectedPrice actualPrice : Z) :
  calculateSlippage 0 actualPrice = Returned (0 # 1)
  /\ (0 < expectedPrice ->
      (forall slippage,
         calculateSlippage expectedPrice actualPrice = Returned slippage ->
         (0 # 1 <= slippage <= 100 # 1)%Q
         /\ (2 * expectedPrice <= actualPrice \/ actualPrice <= 0 ->
             (slippage == 100 # 1)%Q))
      /\ ((exists slippage,
             calculateSlippage expectedPrice actualPrice = Returned slippage)
          <-> safe (hundredthsOf expectedPrice actualPrice))
      /\ (exists slippage,
            calculateSlippage expectedPrice expectedPrice = Returned slippage
            /\ (slippage == 0 # 1)%Q)).
Proof.
  split; [reflexivity |].
  intros Hpos. split; [| split].
  - intros slippage Hslippage.
    apply slippage_returned in Hslippage as [_ ->]; [| lia].
    split; [apply percentageOf_in_range; exact Hpos |].
    intros Hfar. apply Qle_antisym.
    + apply Math_min_le_right.
    + apply Math_min_glb; [| apply Qle_refl].
      assert (Hfull : Z.quot (10000 * expectedPrice) expectedPrice = 10000)
        by (apply Z.quot_mul; lia).
      assert (Hquot :
        Z.quot (10000 * expectedPrice) expectedPrice
        <= hundredthsOf expectedPrice actualPrice)
        by (unfold hundredthsOf; apply Z.quot_le_mono; lia).
      rewrite Hfull in Hquot.
      unfold Qle. cbn [Qnum Qden]. lia.
  - split.
    + intros [slippage Hslippage].
      apply slippage_returned in Hslippage; [apply Hslippage | lia].
    + intros Hsafe. eexists.
      apply slippage_returned; [lia |]. split; [exact Hsafe | reflexivity].
  - eexists. split.
    + apply slippage_returned; [lia |]. split; [| reflexivity].
      unfold hundredthsOf. rewrite Z.sub_diag. cbn [Z.abs Z.mul].
      rewrite Z.quot_0_l by lia. unfold safe, SAFE_LIMIT. cbn. lia.
    + unfold percentageOf, hundredthsOf.
      rewrite Z.sub_diag. cbn [Z.abs Z.mul]. rewrite Z.quot_0_l by lia.
      reflexivity.
Qed.

Lemma slippage_is_a_capped_percentage_witness :
  0 < 1000000
  /\ calculateSlippage 1000000 2500000 = Returned (100 # 1)
  /\ (0 # 1 <= 100 # 1 <= 100 # 1)%Q
  /\ (2 * 1000000 <= 2500000 \/ 2500000 <= 0 -> (100 # 1 == 100 # 1)%Q).
Proof.
  assert (Hslippage : calculateSlippage 1000000 2500000 = Returned (100 # 1))
    by (vm_compute; reflexivity).
  split; [lia |]. split; [exact Hslippage |].
  exact (proj1 (proj2 (slippage_is_a_capped_percentage 1000000 2500000)
                  ltac:(lia))
           (100 # 1) Hslippage).
Defined.

(** X2.  The price impact of a trade is the slippage between the price at
    the current supply and the price at the supply after the trade,
    provided the two prices are returned and the current price is not 0:
    the two calls then return the same value or throw the same error. *)
Theorem price_impact_is_slippage_between_prices (K : CurveConstants)
    (currentSupply tradeAmount : Z) (isBuy : bool)
    (basePrice currentPrice newPrice : Z) :
  calculatePriceAtSupply K currentSupply basePrice = Returned currentPrice ->
  calculatePriceAtSupply K
    (if isBuy then currentSupply + tradeAmount
     else currentSupply - tradeAmount)
    basePrice
  = Returned newPrice ->
  currentPrice <> 0 ->
  calculatePriceImpact K currentSupply tradeAmount isBuy basePrice
  = calculateSlippage currentPrice newPrice.
Proof.
  intros Hcurrent Hnew Hne. unfold calculatePriceImpact, calculateSlippage.
  rewrite Hcurrent. cbn [bind].
  destruct (Z.eqb_spec currentPrice 0) as [Hzero | _]; [contradiction |].
  destruct isBuy; rewrite Hnew; reflexivity.
Qed.

Lemma price_impact_is_slippage_between_prices_witness :
  calculatePriceAtSupply CURVE_CONSTANTS 3 1000000 = Returned 1331000
  /\ calculatePriceAtSupply CURVE_CONSTANTS (3 + 2) 1000000 = Returned 1610000
  /\ 1331000 <> 0
  /\ calculatePriceImpact CURVE_CONSTANTS 3 2 true 1000000
     = calculateSlippage 1331000 1610000.
Proof.
  assert (Hcurrent :
    calculatePriceAtSupply CURVE_CONSTANTS 3 1000000 = Returned 1331000)
    by (vm_compute; reflexivity).
  assert (Hnew :
    calculatePriceAtSupply CURVE_CONSTANTS (3 + 2) 1000000 = Returned 1610000)
    by (vm_compute; reflexivity).
  assert (Hne : 1331000 <> 0) by lia.
  split; [exact Hcurrent |]. split; [exact Hnew |]. split; [exact Hne |].
  exact (price_impact_is_slippage_between_prices CURVE_CONSTANTS 3 2 true
           1000000 1331000 1610000 Hcurrent Hnew Hne).
Defined.

(** X3.  For valid curve parameters and a positive base price, every price
    impact that [calculatePriceImpact] returns lies between 0 and 100. *)
Theorem price_impact_is_a_percentage (K : CurveConstants)
    (currentSupply tradeAmount : Z) (isBuy : bool) (basePrice : Z)
    (impact : number) :
  validParameters K -> 0 < basePrice ->
  calculatePriceImpact K currentSupply tradeAmount isBuy basePrice
  = Returned impact ->
  (0 # 1 <= impact <= 100 # 1)%Q.
Proof.
  intros Hvalid Hbase Himpact.
  apply impact_returned in Himpact as [_ [_ [_ [_ ->]]]].
  apply percentageOf_in_range. apply priceAt_positive; assumption.
Qed.

Lemma price_impact_is_a_percentage_witness :
  validParameters CURVE_CONSTANTS /\ 0 < 1000000
  /\ calculatePriceImpact CURVE_CONSTANTS 3 8 true 1000000 = Returned (100 # 1)
  /\ (0 # 1 <= 100 # 1 <= 100 # 1)%Q.
Proof.
  assert (Himpact :
    calculatePriceImpact CURVE_CONSTANTS 3 8 true 1000000 = Returned (100 # 1))
    by (vm_compute; reflexivity).
  split; [exact CURVE_CONSTANTS_valid |]. split; [lia |].
  split; [exact Himpact |].
  exact (price_impact_is_a_percentage CURVE_CONSTANTS 3 8 true 1000000
           (100 # 1) CURVE_CONSTANTS_valid ltac:(lia) Himpact).
Defined.

(** X4.  For valid curve parameters, a multiplier above 1 and a positive
    base price, a smaller trade never has a larger price impact: whenever
    the impact of [amount'] is returned and [0 <= amount <= amount'], the
    impact of [amount] is returned too and is at most as large, for buys
    and for sales. *)
Theorem larger_trades_move_the_price_more (K : CurveConstants)
    (currentSupply amount amount' : Z) (isBuy : bool) (basePrice : Z)
    (impact' : number) :
  validParameters K -> increasingMultiplier K -> 0 < basePrice ->
  0 <= amount -> amount <= amount' ->
  calculatePriceImpact K currentSupply amount' isBuy basePrice
  = Returned impact' ->
  exists impact,
    calculatePriceImpact K currentSupply amount isBuy basePrice
    = Returned impact
    /\ (impact <= impact')%Q.
Proof.
  intros Hvalid Hincreasing Hbase Hlow Hle Himpact'.
  apply impact_of_a_smaller_trade with (amount' := amount'); try assumption.
  split; assumption.
Qed.

Lemma larger_trades_move_the_price_more_witness :
  validParameters CURVE_CONSTANTS /\ increasingMultiplier CURVE_CONSTANTS
  /\ 0 < 1000000 /\ 0 <= 2 /\ 2 <= 5
  /\ calculatePriceImpact CURVE_CONSTANTS 20 5 false 1000000
     = Returned (3790 # 100)
  /\ exists impact,
       calculatePriceImpact CURVE_CONSTANTS 20 2 false 1000000
       = Returned impact
       /\ (impact <= 3790 # 100)%Q.
Proof.
  assert (Himpact :
    calculatePriceImpact CURVE_CONSTANTS 20 5 false 1000000
    = Returned (3790 # 100)) by (vm_compute; reflexivity).
  split; [exact CURVE_CONSTANTS_valid |].
  split; [exact CURVE_CONSTANTS_increasing |].
  split; [lia |]. split; [lia |]. split; [lia |]. split; [exact Himpact |].
  exact (larger_trades_move_the_price_more CURVE_CONSTANTS 20 2 5 false
           1000000 (3790 # 100) CURVE_CONSTANTS_valid
           CURVE_CONSTANTS_increasing ltac:(lia) ltac:(lia) ltac:(lia)
           Himpact).
Defined.

(** ** The optimal trade size and the validation *)

(** With a price impact that grows with the amount, a result of the search
    is at least every admissible amount within the bound. *)
Lemma optimal_size_dominates (K : CurveConstants) (currentSupply : Z)
    (maxPriceImpact : number) (isBuy : bool) (basePrice amount r : Z) :
  validParameters K -> increasingMultiplier K -> 0 < basePrice ->
  1 <= amount <= searchBound K currentSupply isBuy ->
  withinImpact K currentSupply maxPriceImpact isBuy basePrice amount ->
  calculateOptimalTradeSize K currentSupply maxPriceImpact isBuy basePrice
  = Returned r ->
  amount <= r.
Proof.
  intros Hvalid Hincreasing Hbase Hamount [impact [Himpact Hwithin]] Hr.
  destruct (Z_le_gt_dec amount r) as [Hle | Hgt]; [exact Hle |]. exfalso.
  assert (Hbelow :
    forall smaller, 1 <= smaller <= amount ->
      withinImpact K currentSupply maxPriceImpact isBuy basePrice smaller).
  { intros smaller Hsmaller.
    destruct (impact_of_a_smaller_trade K currentSupply smaller amount isBuy
                basePrice impact Hvalid Hincreasing Hbase ltac:(lia) Himpact)
      as [impact' [Himpact' Hle]].
    exists impact'. split; [exact Himpact' |].
    exact (Qle_trans _ _ _ Hle Hwithin). }
  destruct (optimal_size_characterised K currentSupply maxPriceImpact isBuy
              basePrice r Hr) as [[Hrange [_ Hnext]] | [-> Hnot]].
  - exact (within_not_exceeds K currentSupply maxPriceImpact isBuy basePrice
             (r + 1) (Hbelow (r + 1) ltac:(lia)) (Hnext ltac:(lia))).
  - exact (within_not_exceeds K currentSupply maxPriceImpact isBuy basePrice
             1 (Hbelow 1 ltac:(lia)) (Hnot ltac:(lia))).
Qed.

(** X5.  For valid curve parameters, a multiplier above 1 and a positive
    base price, an amount that [calculateOptimalTradeSize] returns is the
    largest admissible one: if some amount within [1, bound] has a price
    impact that is computed and is at most [maxPriceImpact], the result is
    such an amount and every price impact computed for a larger amount
    within the bound exceeds [maxPriceImpact]; if there is none, the result
    is 1. *)
Theorem optimal_size_is_the_largest_admissible (K : CurveConstants)
    (currentSupply : Z) (maxPriceImpact : number) (isBuy : bool)
    (basePrice r : Z) :
  validParameters K -> increasingMultiplier K -> 0 < basePrice ->
  calculateOptimalTradeSize K currentSupply maxPriceImpact isBuy basePrice
  = Returned r ->
  let bound := searchBound K currentSupply isBuy in
  let admissible := fun amount =>
    exists impact,
      calculatePriceImpact K currentSupply amount isBuy basePrice
      = Returned impact
      /\ (impact <= maxPriceImpact)%Q in
  ((exists amount, 1 <= amount <= bound /\ admissible amount) ->
   1 <= r <= bound
   /\ admissible r
   /\ (forall amount impact,
         r < amount <= bound ->
         calculatePriceImpact K currentSupply amount isBuy basePrice
         = Returned impact ->
         (maxPriceImpact < impact)%Q))
  /\ ((forall amount, 1 <= amount <= bound -> ~ admissible amount) -> r = 1).
Proof.
  intros Hvalid Hincreasing Hbase Hr bound admissible.
  pose proof (optimal_size_characterised K currentSupply maxPriceImpact isBuy
                basePrice r Hr) as Hchar.
  change (searchBound K currentSupply isBuy) with bound in Hchar.
  split.
  - intros [amount [Hamount Hadmissible]].
    pose proof (optimal_size_dominates K currentSupply maxPriceImpact isBuy
                  basePrice amount r Hvalid Hincreasing Hbase Hamount
                  Hadmissible Hr) as Hdominates.
    destruct Hchar as [[Hrange [Hok Hnext]] | [-> Hnot]].
    + split; [exact Hrange |]. split; [exact Hok |].
      intros larger impact Hlarger Himpact.
      apply Qnot_le_lt. intros Hle.
      assert (Hwithin :
        withinImpact K currentSupply maxPriceImpact isBuy basePrice larger)
        by (exists impact; split; assumption).
      pose proof (optimal_size_dominates K currentSupply maxPriceImpact isBuy
                    basePrice larger r Hvalid Hincreasing Hbase ltac:(lia)
                    Hwithin Hr).
      lia.
    + exfalso. assert (amount = 1) by lia. subst amount.
      exact (within_not_exceeds K currentSupply maxPriceImpact isBuy basePrice
               1 Hadmissible (Hnot ltac:(lia))).
  - intros Hnone.
    destruct Hchar as [[Hrange [Hok _]] | [-> _]]; [| reflexivity].
    exfalso. exact (Hnone r Hrange Hok).
Qed.

Lemma optimal_size_is_the_largest_admissible_witness :
  validParameters CURVE_CONSTANTS /\ increasingMultiplier CURVE_CONSTANTS
  /\ 0 < 1000000
  /\ calculateOptimalTradeSize CURVE_CONSTANTS 20 (50 # 1) false 1000000
     = Returned 7
  /\ 1 <= 7 <= searchBound CURVE_CONSTANTS 20 false
  /\ (exists impact,
        calculatePriceImpact CURVE_CONSTANTS 20 7 false 1000000
        = Returned impact
        /\ (impact <= 50 # 1)%Q)
  /\ (forall amount impact,
        7 < amount <= searchBound CURVE_CONSTANTS 20 false ->
        calculatePriceImpact CURVE_CONSTANTS 20 amount false 1000000
        = Returned impact ->
        (50 # 1 < impact)%Q).
Proof.
  assert (Hr :
    calculateOptimalTradeSize CURVE_CONSTANTS 20 (50 # 1) false 1000000
    = Returned 7) by (vm_compute; reflexivity).
  assert (Hsome :
    exists amount,
      1 <= amount <= searchBound CURVE_CONSTANTS 20 false
      /\ exists impact,
           calculatePriceImpact CURVE_CONSTANTS 20 amount false 1000000
           = Returned impact
           /\ (impact <= 50 # 1)%Q).
  { exists 3. split; [cbn; lia |].
    eexists. split; [vm_compute; reflexivity |].
    apply Qle_bool_imp_le. vm_compute. reflexivity. }
  split; [exact CURVE_CONSTANTS_valid |].
  split; [exact CURVE_CONSTANTS_increasing |].
  split; [lia |]. split; [exact Hr |].
  exact (proj1
           (optimal_size_is_the_largest_admissible CURVE_CONSTANTS 20 (50 # 1)
              false 1000000 7 CURVE_CONSTANTS_valid CURVE_CONSTANTS_increasing
              ltac:(lia) Hr)
           Hsome).
Defined.

(** X6.  When the search bound is not empty and a trade of 1 unit has a
    price impact that is computed and is within the tolerance, an amount
    that [calculateOptimalTradeSize] returns for the default base price is
    a trade [validateTrade] accepts with the same tolerance. *)
Theorem optimal_size_is_a_valid_trade (K : CurveConstants)
    (currentSupply : Z) (maxPriceImpact : number) (isBuy : bool) (r : Z) :
  1 <= searchBound K currentSupply isBuy ->
  (exists impact,
     calculatePriceImpact K currentSupply 1 isBuy (BASE_PRICE K)
     = Returned impact
     /\ (impact <= maxPriceImpact)%Q) ->
  calculateOptimalTradeSize K currentSupply maxPriceImpact isBuy (BASE_PRICE K)
  = Returned r ->
  validateTrade K currentSupply r isBuy maxPriceImpact
  = Returned {| isValid := true; error := None |}.
Proof.
  intros Hbound Hone Hr.
  destruct (optimal_size_characterised K currentSupply maxPriceImpact isBuy
              (BASE_PRICE K) r Hr)
    as [[Hrange [[impact [Himpact Hle]] _]] | [_ Hnot]].
  - rewrite validate_in_bounds.
    + apply check_price_impact_within with (1 := Himpact). exact Hle.
    + lia.
    + unfold searchBound in Hrange. destruct isBuy; lia.
  - exfalso.
    exact (within_not_exceeds K currentSupply maxPriceImpact isBuy
             (BASE_PRICE K) 1 Hone (Hnot Hbound)).
Qed.

Lemma optimal_size_is_a_valid_trade_witness :
  1 <= searchBound CURVE_CONSTANTS 20 false
  /\ (exists impact,
        calculatePriceImpact CURVE_CONSTANTS 20 1 false
          (BASE_PRICE CURVE_CONSTANTS)
        = Returned impact
        /\ (impact <= 50 # 1)%Q)
  /\ calculateOptimalTradeSize CURVE_CONSTANTS 20 (50 # 1) false
       (BASE_PRICE CURVE_CONSTANTS)
     = Returned 7
  /\ validateTrade CURVE_CONSTANTS 20 7 false (50 # 1)
     = Returned {| isValid := true; error := None |}.
Proof.
  assert (Hbound : 1 <= searchBound CURVE_CONSTANTS 20 false) by (cbn; lia).
  assert (Hone :
    exists impact,
      calculatePriceImpact CURVE_CONSTANTS 20 1 false
        (BASE_PRICE CURVE_CONSTANTS)
      = Returned impact
      /\ (impact <= 50 # 1)%Q).
  { eexists. split; [vm_compute; reflexivity |].
    apply Qle_bool_imp_le. vm_compute. reflexivity. }
  assert (Hr :
    calculateOptimalTradeSize CURVE_CONSTANTS 20 (50 # 1) false
      (BASE_PRICE CURVE_CONSTANTS)
    = Returned 7) by (vm_compute; reflexivity).
  split; [exact Hbound |]. split; [exact Hone |]. split; [exact Hr |].
  exact (optimal_size_is_a_valid_trade CURVE_CONSTANTS 20 (50 # 1) false 7
           Hbound Hone Hr).
Defined.

(** X7.  When the search bound is empty, [calculateOptimalTradeSize]
    returns the amount 1, and that amount is not a trade [validateTrade]
    accepts: a buy is answered ['Exceeds maximum supply'] and a sale
    ['Cannot sell more than current supply'], whatever the tolerance. *)
Theorem optimal_size_of_an_empty_bound_is_rejected (K : CurveConstants)
    (currentSupply : Z) (maxPriceImpact maxSlippage : number) (isBuy : bool)
    (basePrice : Z) :
  searchBound K currentSupply isBuy < 1 ->
  calculateOptimalTradeSize K currentSupply maxPriceImpact isBuy basePrice
  = Returned 1
  /\ (let* r :=
        calculateOptimalTradeSize K currentSupply maxPriceImpact isBuy
          basePrice in
      validateTrade K currentSupply r isBuy maxSlippage)
     = Returned
         (invalid (if isBuy then "Exceeds maximum supply"
                   else "Cannot sell more than current supply")).
Proof.
  intros Hempty.
  pose proof (optimal_size_of_an_empty_bound K currentSupply maxPriceImpact
                isBuy basePrice Hempty) as Hone.
  split; [exact Hone |].
  rewrite Hone. cbn [bind]. unfold searchBound in Hempty. destruct isBuy.
  - apply validate_capacity; lia.
  - apply validate_supply; lia.
Qed.

Lemma optimal_size_of_an_empty_bound_is_rejected_witness :
  searchBound CURVE_CONSTANTS 1000000 true < 1
  /\ calculateOptimalTradeSize CURVE_CONSTANTS 1000000 (5 # 1) true 1000000
     = Returned 1
  /\ validateTrade CURVE_CONSTANTS 1000000 1 true (5 # 1)
     = Returned (invalid "Exceeds maximum supply").
Proof.
  assert (Hempty : searchBound CURVE_CONSTANTS 1000000 true < 1)
    by (cbn; lia).
  pose proof (optimal_size_of_an_empty_bound_is_rejected CURVE_CONSTANTS
                1000000 (5 # 1) (5 # 1) true 1000000 Hempty) as [Hone Hboth].
  split; [exact Hempty |]. split; [exact Hone |].
  rewrite Hone in Hboth. exact Hboth.
Defined.

(** X8.  [validateTrade] accepts a trade exactly when the amount is
    positive, the trade stays within the supply (at most [maxSupply] after
    a buy, at most the current supply sold) and its price impact at the
    default base price is computed and is at most the tolerated slippage;
    a result it returns carries an error exactly when it is not valid. *)
Theorem validation_accepts_exactly_the_trades_in_bounds (K : CurveConstants)
    (currentSupply amount : Z) (isBuy : bool) (maxSlippage : number) :
  let accepted :=
    0 < amount
    /\ (if isBuy then currentSupply + amount <= MAX_SUPPLY K
        else amount <= currentSupply)
    /\ exists impact,
         calculatePriceImpact K currentSupply amount isBuy (BASE_PRICE K)
         = Returned impact
         /\ (impact <= maxSlippage)%Q in
  (validateTrade K currentSupply amount isBuy maxSlippage
   = Returned {| isValid := true; error := None |}
   <-> accepted)
  /\ (forall result,
        validateTrade K currentSupply amount isBuy maxSlippage
        = Returned result ->
        (isValid result = true <-> accepted)
        /\ (error result = None <-> isValid result = true)).
Proof.
  intros accepted.
  assert (Hback :
    accepted ->
    validateTrade K currentSupply amount isBuy maxSlippage
    = Returned {| isValid := true; error := None |}).
  { intros [Hpos [Hin [impact [Himpact Hle]]]].
    rewrite validate_in_bounds by assumption.
    apply check_price_impact_within with (1 := Himpact). exact Hle. }
  assert (Hforth :
    forall result,
      validateTrade K currentSupply amount isBuy maxSlippage = Returned result ->
      isValid result = true -> accepted).
  { intros result Hresult Hvalid.
    destruct (validate_accepted K _ _ _ _ _ Hresult Hvalid)
      as [_ [Hpos [Hin Himpact]]].
    split; [exact Hpos |]. split; [exact Hin | exact Himpact]. }
  split.
  - split; [| exact Hback].
    intros Hresult. exact (Hforth _ Hresult eq_refl).
  - intros result Hresult. split.
    + split; [exact (Hforth result Hresult) |].
      intros Haccepted. rewrite (Hback Haccepted) in Hresult.
      injection Hresult as <-. reflexivity.
    + destruct (trade_cases K currentSupply amount isBuy)
        as [Hzero | [[Hpos Hout] | [Hpos Hin]]].
      * rewrite validate_amount in Hresult by exact Hzero.
        injection Hresult as <-. cbn. split; discriminate.
      * destruct isBuy.
        -- rewrite validate_capacity in Hresult by assumption.
           injection Hresult as <-. cbn. split; discriminate.
        -- rewrite validate_supply in Hresult by assumption.
           injection Hresult as <-. cbn. split; discriminate.
      * rewrite validate_in_bounds in Hresult by assumption.
        apply check_price_impact_returned in Hresult
          as [impact [_ [[_ ->] | [_ ->]]]]; cbn.
        -- split; reflexivity.
        -- split; discriminate.
Qed.

(** X9.  For a positive amount, [calculateSellPrice] throws its own error
    exactly when [validateTrade] answers the sale with ['Cannot sell more
    than current supply'].  So a sale that [validateTrade] accepts passes
    the guard of [calculateSellPrice]: if no quote is returned for it, the
    error comes from bn.js. *)
Theorem accepted_sale_passes_the_guard (K : CurveConstants)
    (currentSupply amount basePrice : Z) (maxSlippage : number) :
  0 < amount ->
  (calculateSellPrice K currentSupply amount basePrice
   = Thrown "Cannot sell more tokens than current supply"
   <-> validateTrade K currentSupply amount false maxSlippage
       = Returned (invalid "Cannot sell more than current supply"))
  /\ (validateTrade K currentSupply amount false maxSlippage
      = Returned {| isValid := true; error := None |} ->
      forall message,
        calculateSellPrice K currentSupply amount basePrice = Thrown message ->
        libraryError message).
Proof.
  intros Hpos. split; [split |].
  - intros Hthrown.
    apply sell_thrown in Hthrown as [[Hlt _] | [_ [Hmessage | Hmessage]]];
      [apply validate_supply; assumption | discriminate | discriminate].
  - intros Hresult.
    destruct (Z_le_gt_dec amount currentSupply) as [Hle | Hgt];
      [| apply sell_throws; lia].
    rewrite validate_in_bounds in Hresult by assumption.
    apply check_price_impact_returned in Hresult
      as [impact [_ [[_ Hvalid] | [_ Hexceeds]]]]; discriminate.
  - intros Hresult message Hthrown.
    destruct (validate_accepted K _ _ _ _ _ Hresult eq_refl)
      as [_ [_ [Hin _]]].
    apply sell_thrown in Hthrown as [[Hlt _] | [_ Hlibrary]];
      [lia | exact Hlibrary].
Qed.

Lemma accepted_sale_passes_the_guard_witness :
  0 < 2
  /\ calculateSellPrice CURVE_CONSTANTS 1 2 1000000
     = Thrown "Cannot sell more tokens than current supply"
  /\ validateTrade CURVE_CONSTANTS 1 2 false (5 # 1)
     = Returned (invalid "Cannot sell more than current supply").
Proof.
  assert (Hthrown :
    calculateSellPrice CURVE_CONSTANTS 1 2 1000000
    = Thrown "Cannot sell more tokens than current supply")
    by (vm_compute; reflexivity).
  split; [lia |]. split; [exact Hthrown |].
  exact (proj1
           (proj1 (accepted_sale_passes_the_guard CURVE_CONSTANTS 1 2 1000000
                     (5 # 1) ltac:(lia)))
           Hthrown).
Defined.

(** ** Quotes *)

(** X10.  For valid curve parameters and a base price that is not negative,
    the fee of every buy quote returned is between 0 and the gross amount,
    so the buyer pays at least the gross amount and at most twice it; the
    fee of every sell quote returned is in the same range, so the seller
    receives between 0 and the gross amount. *)
Theorem fee_never_exceeds_the_gross_amount (K : CurveConstants)
    (currentSupply amount basePrice : Z) :
  validParameters K -> 0 <= basePrice ->
  (forall qb,
     calculateBuyPrice K currentSupply amount basePrice = Returned qb ->
     0 <= fee qb <= totalCost qb
     /\ totalCost qb <= netCost qb <= 2 * totalCost qb)
  /\ (forall qs,
        calculateSellPrice K currentSupply amount basePrice = Returned qs ->
        0 <= fee qs <= totalCost qs /\ 0 <= netCost qs <= totalCost qs).
Proof.
  intros Hvalid Hbase.
  pose proof (min_price_positive K Hvalid) as Hmin.
  split.
  - intros qb Hqb.
    destruct (buy_returned K _ _ _ _ Hqb)
      as [_ [_ [_ [Htotal [_ [_ [Hfee [Hnet _]]]]]]]].
    assert (Hpos : 0 <= totalCost qb).
    { rewrite Htotal. apply sumOver_nonneg. intros i _.
      apply priceAt_nonneg; assumption. }
    pose proof (fee_between K (totalCost qb) Hvalid Hpos). lia.
  - intros qs Hqs.
    destruct (sell_returned K _ _ _ _ Hqs)
      as [_ [_ [_ [_ [Htotal [_ [_ [Hfee [Hnet _]]]]]]]]].
    assert (Hpos : 0 <= totalCost qs).
    { rewrite Htotal. apply sumOver_nonneg. intros i _.
      apply priceAt_nonneg; assumption. }
    pose proof (fee_between K (totalCost qs) Hvalid Hpos). lia.
Qed.

Lemma fee_never_exceeds_the_gross_amount_witness :
  validParameters CURVE_CONSTANTS /\ 0 <= 1000000
  /\ exists qb,
       calculateBuyPrice CURVE_CONSTANTS 2 3 1000000 = Returned qb
       /\ 0 <= fee qb <= totalCost qb
       /\ totalCost qb <= netCost qb <= 2 * totalCost qb.
Proof.
  split; [exact CURVE_CONSTANTS_valid |]. split; [lia |].
  eexists. split; [vm_compute; reflexivity |].
  exact (proj1 (fee_never_exceeds_the_gross_amount CURVE_CONSTANTS 2 3 1000000
                  CURVE_CONSTANTS_valid ltac:(lia))
           _ eq_refl).
Defined.

(** X11.  The [price] of a quote returned for at least one unit is the
    price of the last unit traded, as [calculatePriceAtSupply] returns it:
    the unit at supply [currentSupply + amount - 1] for a buy, the unit at
    supply [currentSupply - amount] for a sale. *)
Theorem quote_price_is_the_last_unit_price (K : CurveConstants)
    (currentSupply amount basePrice : Z) :
  1 <= amount ->
  (forall qb,
     calculateBuyPrice K currentSupply amount basePrice = Returned qb ->
     calculatePriceAtSupply K (currentSupply + amount - 1) basePrice
     = Returned (price qb))
  /\ (forall qs,
        calculateSellPrice K currentSupply amount basePrice = Returned qs ->
        calculatePriceAtSupply K (currentSupply - amount) basePrice
        = Returned (price qs)).
Proof.
  intros Hamount. split.
  - intros qb Hqb.
    destruct (buy_returned K _ _ _ _ Hqb) as [_ [Hall [_ [_ [Hprice _]]]]].
    destruct (Z.leb_spec amount 0) as [Hle | _]; [lia |].
    rewrite Hprice. apply price_computable.
    replace (currentSupply + amount - 1)
      with (currentSupply + (amount - 1)) by lia.
    apply Hall. lia.
  - intros qs Hqs.
    destruct (sell_returned K _ _ _ _ Hqs) as [_ [_ [Hall [_ [_ [Hprice _]]]]]].
    destruct (Z.leb_spec amount 0) as [Hle | _]; [lia |].
    rewrite Hprice. apply price_computable. apply Hall. lia.
Qed.

Lemma quote_price_is_the_last_unit_price_witness :
  1 <= 3
  /\ exists qb,
       calculateBuyPrice CURVE_CONSTANTS 2 3 1000000 = Returned qb
       /\ calculatePriceAtSupply CURVE_CONSTANTS (2 + 3 - 1) 1000000
          = Returned (price qb).
Proof.
  split; [lia |].
  eexists. split; [vm_compute; reflexivity |].
  exact (proj1 (quote_price_is_the_last_unit_price CURVE_CONSTANTS 2 3 1000000
                  ltac:(lia))
           _ eq_refl).
Defined.

(** X12.  For valid curve parameters and a multiplier above 1, the gross
    amount of a buy quote returned for [amount >= 1] units lies between
    [amount] times the price at the current supply, which
    [calculatePriceAtSupply] returns, and [amount] times the [price] the
    quote reports. *)
Theorem buy_gross_between_first_and_last_price (K : CurveConstants)
    (currentSupply amount basePrice : Z) (q : PriceCalculation) :
  validParameters K -> increasingMultiplier K -> 1 <= amount ->
  calculateBuyPrice K currentSupply amount basePrice = Returned q ->
  exists first,
    calculatePriceAtSupply K currentSupply basePrice = Returned first
    /\ amount * first <= totalCost q
    /\ totalCost q <= amount * price q.
Proof.
  intros Hvalid Hincreasing Hamount Hq.
  destruct (buy_returned K _ _ _ _ Hq) as [_ [Hall [_ [Htotal [Hprice _]]]]].
  destruct (Z.leb_spec amount 0) as [Hle | _]; [lia |].
  exists (priceAt K currentSupply basePrice). split.
  - apply price_computable.
    replace currentSupply with (currentSupply + 0) by lia. apply Hall. lia.
  - rewrite Htotal, Hprice.
    pose proof (sumOver_between
                  (fun i => priceAt K (currentSupply + i) basePrice)
                  (priceAt K currentSupply basePrice)
                  (priceAt K (currentSupply + amount - 1) basePrice)
                  (range 0 (Z.to_nat amount))) as Hbetween.
    rewrite range_length in Hbetween.
    replace (Z.of_nat (Z.to_nat amount)) with amount in Hbetween by lia.
    apply Hbetween. intros i Hi. apply in_range in Hi.
    split; apply priceAt_monotone; try assumption; lia.
Qed.

Lemma buy_gross_between_first_and_last_price_witness :
  validParameters CURVE_CONSTANTS /\ increasingMultiplier CURVE_CONSTANTS
  /\ 1 <= 3
  /\ exists q,
       calculateBuyPrice CURVE_CONSTANTS 2 3 1000000 = Returned q
       /\ exists first,
            calculatePriceAtSupply CURVE_CONSTANTS 2 1000000 = Returned first
            /\ 3 * first <= totalCost q
            /\ totalCost q <= 3 * price q.
Proof.
  split; [exact CURVE_CONSTANTS_valid |].
  split; [exact CURVE_CONSTANTS_increasing |]. split; [lia |].
  eexists. split; [vm_compute; reflexivity |].
  exact (buy_gross_between_first_and_last_price CURVE_CONSTANTS 2 3 1000000 _
           CURVE_CONSTANTS_valid CURVE_CONSTANTS_increasing ltac:(lia)
           eq_refl).
Defined.

(** A returned buy can be split: with prices that never decrease, the buy
    of the first part and the buy of the rest are returned too. *)
Lemma buy_parts_return (K : CurveConstants)
    (currentSupply amount amount' basePrice : Z) (whole : PriceCalculation) :
  validParameters K -> increasingMultiplier K -> 0 <= basePrice ->
  0 <= amount -> 0 <= amount' ->
  calculateBuyPrice K currentSupply (amount + amount') basePrice
  = Returned whole ->
  (exists first,
     calculateBuyPrice K currentSupply amount basePrice = Returned first)
  /\ (exists second,
        calculateBuyPrice K (currentSupply + amount) amount' basePrice
        = Returned second).
Proof.
  intros Hvalid Hincreasing Hbase Hamount Hamount' Hwhole.
  destruct (buy_returned K _ _ _ _ Hwhole)
    as [Hsafe [Hall [Hafter [_ [Hprice [Hlast _]]]]]].
  rewrite Hprice in Hlast.
  assert (Hunit :
    forall j, 0 <= j <= amount + amount' ->
      priceComputable K (currentSupply + j)).
  { intros j Hj. destruct (Z.eq_dec j (amount + amount')) as [-> | Hne];
      [exact Hafter | apply Hall; lia]. }
  assert (Hprices :
    forall j, 0 <= j < amount + amount' ->
      safe (priceAt K (currentSupply + j) basePrice)).
  { intros j Hj.
    destruct (Z.leb_spec (amount + amount') 0) as [Hle | _]; [lia |].
    apply safe_between with (2 := Hlast). split.
    - apply priceAt_nonneg; [exact (min_price_positive K Hvalid) | exact Hbase].
    - apply priceAt_monotone; [assumption | assumption | lia]. }
  split.
  - apply buy_returns.
    + apply safe_between with (2 := Hsafe). lia.
    + intros j Hj. apply Hunit. lia.
    + apply Hunit. lia.
    + intros Hpos.
      replace (currentSupply + amount - 1)
        with (currentSupply + (amount - 1)) by lia.
      apply Hprices. lia.
  - apply buy_returns.
    + apply safe_between with (2 := Hsafe). lia.
    + intros j Hj.
      replace (currentSupply + amount + j)
        with (currentSupply + (amount + j)) by lia.
      apply Hunit. lia.
    + replace (currentSupply + amount + amount')
        with (currentSupply + (amount + amount')) by lia.
      apply Hunit. lia.
    + intros Hpos.
      replace (currentSupply + amount + amount' - 1)
        with (currentSupply + (amount + amount' - 1)) by lia.
      apply Hprices. lia.
Qed.

(** X13.  Buying in two steps costs the same gross amount as buying at
    once: whenever the quote for [amount + amount'] units at
    [currentSupply] is returned, its gross amount is the gross amount of
    the quote for [amount] units at [currentSupply] plus that of the quote
    for [amount'] units at [currentSupply + amount], for all such quotes
    returned; and for valid curve parameters, a multiplier above 1 and a
    base price that is not negative the two are returned. *)
Theorem buy_gross_is_additive (K : CurveConstants)
    (currentSupply amount amount' basePrice : Z) (whole : PriceCalculation) :
  0 <= amount -> 0 <= amount' ->
  calculateBuyPrice K currentSupply (amount + amount') basePrice
  = Returned whole ->
  (forall first second,
     calculateBuyPrice K currentSupply amount basePrice = Returned first ->
     calculateBuyPrice K (currentSupply + amount) amount' basePrice
     = Returned second ->
     totalCost whole = totalCost first + totalCost second)
  /\ (validParameters K -> increasingMultiplier K -> 0 <= basePrice ->
      exists first second,
        calculateBuyPrice K currentSupply amount basePrice = Returned first
        /\ calculateBuyPrice K (currentSupply + amount) amount' basePrice
           = Returned second
        /\ totalCost whole = totalCost first + totalCost second).
Proof.
  intros Hamount Hamount' Hwhole.
  assert (Hsum :
    forall first second,
      calculateBuyPrice K currentSupply amount basePrice = Returned first ->
      calculateBuyPrice K (currentSupply + amount) amount' basePrice
      = Returned second ->
      totalCost whole = totalCost first + totalCost second).
  { intros first second Hfirst Hsecond.
    destruct (buy_returned K _ _ _ _ Hwhole) as [_ [_ [_ [-> _]]]].
    destruct (buy_returned K _ _ _ _ Hfirst) as [_ [_ [_ [-> _]]]].
    destruct (buy_returned K _ _ _ _ Hsecond) as [_ [_ [_ [-> _]]]].
    replace (Z.to_nat (amount + amount'))
      with (Z.to_nat amount + Z.to_nat amount')%nat by lia.
    rewrite sumOver_range_split. f_equal.
    apply sumOver_ext. intros i _. f_equal. lia. }
  split; [exact Hsum |].
  intros Hvalid Hincreasing Hbase.
  destruct (buy_parts_return K currentSupply amount amount' basePrice whole
              Hvalid Hincreasing Hbase Hamount Hamount' Hwhole)
    as [[first Hfirst] [second Hsecond]].
  exists first, second.
  split; [exact Hfirst |]. split; [exact Hsecond |].
  exact (Hsum first second Hfirst Hsecond).
Qed.

Lemma buy_gross_is_additive_witness :
  0 <= 2 /\ 0 <= 3
  /\ exists whole first second,
       calculateBuyPrice CURVE_CONSTANTS 1 (2 + 3) 1000000 = Returned whole
       /\ calculateBuyPrice CURVE_CONSTANTS 1 2 1000000 = Returned first
       /\ calculateBuyPrice CURVE_CONSTANTS (1 + 2) 3 1000000 = Returned second
       /\ totalCost whole = totalCost first + totalCost second.
Proof.
  split; [lia |]. split; [lia |].
  eexists. eexists. eexists.
  split; [vm_compute; reflexivity |].
  split; [vm_compute; reflexivity |].
  split; [vm_compute; reflexivity |].
  exact (proj1
           (buy_gross_is_additive CURVE_CONSTANTS 1 2 3 1000000 _
              ltac:(lia) ltac:(lia) eq_refl)
           _ _ eq_refl eq_refl).
Defined.

(** X14.  Buying [amount] units and selling them back at once costs exactly
    the two fees: whenever the buy at [currentSupply] returns a quote, every
    quote the sale at [currentSupply + amount] returns has the same gross
    amount and the same fee, so what the buyer paid exceeds what the seller
    receives by twice the fee; and for valid curve parameters, a multiplier
    above 1, a base price and a supply that are not negative and at least
    one unit, the sale returns such a quote. *)
Theorem round_trip_costs_twice_the_fee (K : CurveConstants)
    (currentSupply amount basePrice : Z) (qb : PriceCalculation) :
  calculateBuyPrice K currentSupply amount basePrice = Returned qb ->
  (forall qs,
     calculateSellPrice K (currentSupply + amount) amount basePrice
     = Returned qs ->
     totalCost qs = totalCost qb
     /\ fee qs = fee qb
     /\ netCost qb - netCost qs = 2 * fee qb)
  /\ (validParameters K -> increasingMultiplier K -> 0 <= basePrice ->
      0 <= currentSupply -> 1 <= amount ->
      exists qs,
        calculateSellPrice K (currentSupply + amount) amount basePrice
        = Returned qs
        /\ fee qs = fee qb
        /\ netCost qb - netCost qs = 2 * fee qb).
Proof.
  intros Hqb.
  assert (Htrip :
    forall qs,
      calculateSellPrice K (currentSupply + amount) amount basePrice
      = Returned qs ->
      totalCost qs = totalCost qb
      /\ fee qs = fee qb
      /\ netCost qb - netCost qs = 2 * fee qb).
  { intros qs Hqs.
    destruct (buy_returned K _ _ _ _ Hqb)
      as [_ [_ [_ [Htotal [_ [_ [Hfee [Hnet _]]]]]]]].
    destruct (sell_returned K _ _ _ _ Hqs)
      as [_ [_ [_ [_ [Htotal' [_ [_ [Hfee' [Hnet' _]]]]]]]]].
    assert (Hsame : totalCost qs = totalCost qb)
      by (rewrite Htotal, Htotal'; apply buy_and_sell_totals).
    assert (Hfees : fee qs = fee qb)
      by (rewrite Hfee, Hfee', Hsame; reflexivity).
    split; [exact Hsame |]. split; [exact Hfees | lia]. }
  split; [exact Htrip |].
  intros Hvalid Hincreasing Hbase Hsupply Hamount.
  destruct (sale_returns_after_buy K currentSupply amount basePrice qb
              Hvalid Hincreasing Hbase Hsupply Hamount Hqb) as [qs Hqs].
  exists qs. split; [exact Hqs |]. apply (Htrip qs Hqs).
Qed.

Lemma round_trip_costs_twice_the_fee_witness :
  exists qb qs,
    calculateBuyPrice CURVE_CONSTANTS 2 3 1000000 = Returned qb
    /\ calculateSellPrice CURVE_CONSTANTS (2 + 3) 3 1000000 = Returned qs
    /\ totalCost qs = totalCost qb
    /\ fee qs = fee qb
    /\ netCost qb - netCost qs = 2 * fee qb.
Proof.
  eexists. eexists.
  split; [vm_compute; reflexivity |].
  split; [vm_compute; reflexivity |].
  exact (proj1
           (round_trip_costs_twice_the_fee CURVE_CONSTANTS 2 3 1000000 _
              eq_refl)
           _ eq_refl).
Defined.

(** X15.  For valid curve parameters and a multiplier above 1 the market
    cap never decreases when the supply grows by one unit: whenever
    [calculateMarketCap] returns at [supply + 1] it returns at [supply],
    and not more.  It is 0 up to supply 0, and every value returned from
    supply 1 on is at least [supply] times the price floor. *)
Theorem market_cap_grows_with_supply (K : CurveConstants)
    (supply basePrice : Z) :
  validParameters K -> increasingMultiplier K ->
  (forall next,
     calculateMarketCap K (supply + 1) basePrice = Returned next ->
     exists current,
       calculateMarketCap K supply basePrice = Returned current
       /\ current <= next)
  /\ (supply <= 0 -> calculateMarketCap K supply basePrice = Returned 0)
  /\ (0 < supply ->
      forall cap,
        calculateMarketCap K supply basePrice = Returned cap ->
        supply * MIN_PRICE K <= cap).
Proof.
  intros Hvalid Hincreasing.
  pose proof (min_price_positive K Hvalid) as Hmin.
  split; [| split].
  - intros next Hnext.
    apply market_cap_returned in Hnext as [Hc ->].
    eexists. split.
    + apply market_cap_returned. split; [| reflexivity].
      apply (computable_below K (supply + 1) supply Hincreasing);
        [lia | exact Hc].
    + destruct (Z.leb_spec supply 0) as [Hle | Hgt];
        destruct (Z.leb_spec (supply + 1) 0) as [Hle' | Hgt']; try lia.
      * pose proof (priceAt_floor K (supply + 1) basePrice ltac:(lia)). nia.
      * pose proof (priceAt_floor K supply basePrice ltac:(lia)).
        pose proof (priceAt_monotone K Hvalid Hincreasing supply (supply + 1)
                      basePrice ltac:(lia)).
        nia.
  - intros Hle. apply market_cap_returned. split; [left; exact Hle |].
    destruct (Z.leb_spec supply 0); [reflexivity | lia].
  - intros Hpos cap Hcap.
    apply market_cap_returned in Hcap as [_ ->].
    destruct (Z.leb_spec supply 0) as [Hle | _]; [lia |].
    pose proof (priceAt_floor K supply basePrice Hpos). nia.
Qed.

Lemma market_cap_grows_with_supply_witness :
  validParameters CURVE_CONSTANTS /\ increasingMultiplier CURVE_CONSTANTS
  /\ calculateMarketCap CURVE_CONSTANTS (3 + 1) 1000000 = Returned 5856000
  /\ exists current,
       calculateMarketCap CURVE_CONSTANTS 3 1000000 = Returned current
       /\ current <= 5856000.
Proof.
  assert (Hnext :
    calculateMarketCap CURVE_CONSTANTS (3 + 1) 1000000 = Returned 5856000)
    by (vm_compute; reflexivity).
  split; [exact CURVE_CONSTANTS_valid |].
  split; [exact CURVE_CONSTANTS_increasing |]. split; [exact Hnext |].
  exact (proj1 (market_cap_grows_with_supply CURVE_CONSTANTS 3 1000000
                  CURVE_CONSTANTS_valid CURVE_CONSTANTS_increasing)
           5856000 Hnext).
Defined.

(** ** Tolerance and size *)

(** X21.  A trade that [validateTrade] accepts with some tolerated slippage
    is accepted with every larger tolerance. *)
Theorem accepted_trade_stays_accepted_with_more_tolerance
    (K : CurveConstants) (currentSupply amount : Z) (isBuy : bool)
    (maxSlippage maxSlippage' : number) (result : TradeValidation) :
  validateTrade K currentSupply amount isBuy maxSlippage = Returned result ->
  isValid result = true ->
  (maxSlippage <= maxSlippage')%Q ->
  validateTrade K currentSupply amount isBuy maxSlippage'
  = Returned {| isValid := true; error := None |}.
Proof.
  intros Hresult Hvalid Hmore.
  destruct (validate_accepted K _ _ _ _ _ Hresult Hvalid)
    as [_ [Hpos [Hin [impact [Himpact Hle]]]]].
  rewrite validate_in_bounds by assumption.
  apply check_price_impact_within with (1 := Himpact).
  exact (Qle_trans _ _ _ Hle Hmore).
Qed.

Lemma accepted_trade_stays_accepted_with_more_tolerance_witness :
  validateTrade CURVE_CONSTANTS 3 1 true (10 # 1)
  = Returned {| isValid := true; error := None |}
  /\ (10 # 1 <= 25 # 1)%Q
  /\ validateTrade CURVE_CONSTANTS 3 1 true (25 # 1)
     = Returned {| isValid := true; error := None |}.
Proof.
  assert (Hresult :
    validateTrade CURVE_CONSTANTS 3 1 true (10 # 1)
    = Returned {| isValid := true; error := None |})
    by (vm_compute; reflexivity).
  assert (Hmore : (10 # 1 <= 25 # 1)%Q) by (unfold Qle; cbn; lia).
  split; [exact Hresult |]. split; [exact Hmore |].
  exact (accepted_trade_stays_accepted_with_more_tolerance CURVE_CONSTANTS 3 1
           true (10 # 1) (25 # 1) _ Hresult eq_refl Hmore).
Defined.

(** X22.  For valid curve parameters, a multiplier above 1 and a positive
    default base price, every smaller positive amount than an accepted one
    is accepted too, with the same tolerance and in the same direction:
    its price impact is computed, and is within the tolerance. *)
Theorem smaller_trade_than_an_accepted_one_is_accepted (K : CurveConstants)
    (currentSupply amount amount' : Z) (isBuy : bool)
    (maxSlippage : number) (result : TradeValidation) :
  validParameters K -> increasingMultiplier K -> 0 < BASE_PRICE K ->
  validateTrade K currentSupply amount isBuy maxSlippage = Returned result ->
  isValid result = true ->
  0 < amount' -> amount' <= amount ->
  validateTrade K currentSupply amount' isBuy maxSlippage
  = Returned {| isValid := true; error := None |}.
Proof.
  intros Hparams Hincreasing Hbase Hresult Hvalid Hpos Hle.
  destruct (validate_accepted K _ _ _ _ _ Hresult Hvalid)
    as [_ [_ [Hin [impact [Himpact Hwithin]]]]].
  destruct (impact_of_a_smaller_trade K currentSupply amount' amount isBuy
              (BASE_PRICE K) impact Hparams Hincreasing Hbase ltac:(lia)
              Himpact) as [impact' [Himpact' Hsmaller]].
  rewrite validate_in_bounds by (lia || (destruct isBuy; lia)).
  apply check_price_impact_within with (1 := Himpact').
  exact (Qle_trans _ _ _ Hsmaller Hwithin).
Qed.

Lemma smaller_trade_than_an_accepted_one_is_accepted_witness :
  validParameters CURVE_CONSTANTS /\ increasingMultiplier CURVE_CONSTANTS
  /\ 0 < BASE_PRICE CURVE_CONSTANTS
  /\ validateTrade CURVE_CONSTANTS 20 7 false (50 # 1)
     = Returned {| isValid := true; error := None |}
  /\ 0 < 4 /\ 4 <= 7
  /\ validateTrade CURVE_CONSTANTS 20 4 false (50 # 1)
     = Returned {| isValid := true; error := None |}.
Proof.
  assert (Hbase : 0 < BASE_PRICE CURVE_CONSTANTS) by (cbn; lia).
  assert (Hresult :
    validateTrade CURVE_CONSTANTS 20 7 false (50 # 1)
    = Returned {| isValid := true; error := None |})
    by (vm_compute; reflexivity).
  split; [exact CURVE_CONSTANTS_valid |].
  split; [exact CURVE_CONSTANTS_increasing |].
  split; [exact Hbase |]. split; [exact Hresult |].
  split; [lia |]. split; [lia |].
  exact (smaller_trade_than_an_accepted_one_is_accepted CURVE_CONSTANTS 20 7 4
           false (50 # 1) _ CURVE_CONSTANTS_valid CURVE_CONSTANTS_increasing
           Hbase Hresult eq_refl ltac:(lia) ltac:(lia)).
Defined.

(** X23.  For valid curve parameters, a multiplier above 1 and a positive
    base price, a larger bound on the price impact never gives a smaller
    optimal trade size, whenever [calculateOptimalTradeSize] returns for
    both bounds. *)
Theorem optimal_size_grows_with_the_bound (K : CurveConstants)
    (currentSupply : Z) (maxPriceImpact maxPriceImpact' : number)
    (isBuy : bool) (basePrice r r' : Z) :
  validParameters K -> increasingMultiplier K -> 0 < basePrice ->
  (maxPriceImpact <= maxPriceImpact')%Q ->
  calculateOptimalTradeSize K currentSupply maxPriceImpact isBuy basePrice
  = Returned r ->
  calculateOptimalTradeSize K currentSupply maxPriceImpact' isBuy basePrice
  = Returned r' ->
  r <= r'.
Proof.
  intros Hvalid Hincreasing Hbase Hmore Hr Hr'.
  destruct (optimal_size_characterised K currentSupply maxPriceImpact isBuy
              basePrice r Hr)
    as [[Hrange [[impact [Himpact Hle]] _]] | [-> _]].
  - apply (optimal_size_dominates K currentSupply maxPriceImpact' isBuy
             basePrice r r'); try assumption.
    exists impact. split; [exact Himpact |].
    exact (Qle_trans _ _ _ Hle Hmore).
  - apply (searchLoop_at_least_1 K currentSupply maxPriceImpact' isBuy
             basePrice 1 (searchBound K currentSupply isBuy) 1);
      try lia.
    exact Hr'.
Qed.

Lemma optimal_size_grows_with_the_bound_witness :
  validParameters CURVE_CONSTANTS /\ increasingMultiplier CURVE_CONSTANTS
  /\ 0 < 1000000 /\ (5 # 1 <= 50 # 1)%Q
  /\ calculateOptimalTradeSize CURVE_CONSTANTS 20 (5 # 1) false 1000000
     = Returned 1
  /\ calculateOptimalTradeSize CURVE_CONSTANTS 20 (50 # 1) false 1000000
     = Returned 7
  /\ 1 <= 7.
Proof.
  assert (Hmore : (5 # 1 <= 50 # 1)%Q) by (unfold Qle; cbn; lia).
  assert (Hr :
    calculateOptimalTradeSize CURVE_CONSTANTS 20 (5 # 1) false 1000000
    = Returned 1) by (vm_compute; reflexivity).
  assert (Hr' :
    calculateOptimalTradeSize CURVE_CONSTANTS 20 (50 # 1) false 1000000
    = Returned 7) by (vm_compute; reflexivity).
  split; [exact CURVE_CONSTANTS_valid |].
  split; [exact CURVE_CONSTANTS_increasing |].
  split; [lia |]. split; [exact Hmore |].
  split; [exact Hr |]. split; [exact Hr' |].
  exact (optimal_size_grows_with_the_bound CURVE_CONSTANTS 20 (5 # 1)
           (50 # 1) false 1000000 1 7 CURVE_CONSTANTS_valid
           CURVE_CONSTANTS_increasing ltac:(lia) Hmore Hr Hr').
Defined.

(** ** Where the constants of the source end the curve *)

(** Up to 312 units the scaled power of 1.1 is safe. *)
Lemma pow_1_1_x1000_safe (n : Z) :
  1 <= n <= 312 -> safe (pow_1_1_x1000 n).
Proof.
  intros Hn.
  assert (Hlast : pow_1_1_x1000 312 < SAFE_LIMIT)
    by (vm_compute; reflexivity).
  pose proof (powers_monotone CURVE_CONSTANTS CURVE_CONSTANTS_increasing
                n 312 ltac:(lia) ltac:(lia)) as Hmono.
  pose proof (powers_at_least_1000 CURVE_CONSTANTS CURVE_CONSTANTS_increasing
                n ltac:(lia)) as Hleast.
  cbn [PRICE_MULTIPLIER_pow_x1000 CURVE_CONSTANTS] in Hmono, Hleast.
  unfold safe. lia.
Qed.

(** X24.  With the constants of the source the curve ends long before the
    supply cap of 1_000_000: [calculatePriceAtSupply] returns a price up to
    a supply of 312 units and throws the assertion error of [new BN] from
    313 units on, and so does [validateTrade] for every trade within its
    bounds at such a supply, whatever the tolerance. *)
Theorem curve_ends_at_supply_313 (supply basePrice : Z) :
  (supply <= 312 ->
   exists p,
     calculatePriceAtSupply CURVE_CONSTANTS supply basePrice = Returned p)
  /\ (313 <= supply < SAFE_LIMIT ->
      calculatePriceAtSupply CURVE_CONSTANTS supply basePrice
      = Thrown "Assertion failed"
      /\ forall amount (isBuy : bool) maxSlippage,
           0 < amount ->
           (if isBuy then supply + amount <= MAX_SUPPLY CURVE_CONSTANTS
            else amount <= supply) ->
           validateTrade CURVE_CONSTANTS supply amount isBuy maxSlippage
           = Thrown "Assertion failed").
Proof.
  split.
  - intros Hsupply. eexists. apply price_computable.
    destruct (Z_le_gt_dec supply 0) as [Hle | Hgt]; [left; exact Hle |].
    right. split.
    + unfold safe, SAFE_LIMIT. lia.
    + apply pow_1_1_x1000_safe. lia.
  - intros Hsupply.
    assert (Hprice :
      forall base,
        calculatePriceAtSupply CURVE_CONSTANTS supply base
        = Thrown "Assertion failed").
    { intros base. apply price_unsafe_power.
      - lia.
      - unfold safe. lia.
      - apply pow_1_1_x1000_unsafe. lia. }
    split; [apply Hprice |].
    intros amount isBuy maxSlippage Hpos Hin.
    rewrite validate_in_bounds by assumption.
    apply check_price_impact_thrown.
    unfold calculatePriceImpact. rewrite Hprice. reflexivity.
Qed.

Lemma curve_ends_at_supply_313_witness :
  313 <= 313 < SAFE_LIMIT
  /\ calculatePriceAtSupply CURVE_CONSTANTS 313 1000000
     = Thrown "Assertion failed".
Proof.
  assert (Hsupply : 313 <= 313 < SAFE_LIMIT) by (unfold SAFE_LIMIT; lia).
  split; [exact Hsupply |].
  exact (proj1 (proj2 (curve_ends_at_supply_313 313 1000000) Hsupply)).
Defined.

(** X25.  With the constants of the source [calculateOptimalTradeSize]
    throws for every buy at a supply from 0 to below the cap: the first
    amount it probes leads, or the current supply already is, beyond 312
    units, where no price is returned. *)
Theorem optimal_size_of_a_buy_throws (currentSupply : Z)
    (maxPriceImpact : number) (basePrice : Z) :
  0 <= currentSupply < MAX_SUPPLY CURVE_CONSTANTS ->
  calculateOptimalTradeSize CURVE_CONSTANTS currentSupply maxPriceImpact true
    basePrice
  = Thrown "Assertion failed".
Proof.
  cbn [MAX_SUPPLY CURVE_CONSTANTS]. intros Hsupply.
  unfold calculateOptimalTradeSize. cbv zeta.
  cbn [MAX_SUPPLY CURVE_CONSTANTS].
  pose proof (midpoint_between 1 (1000000 - currentSupply) ltac:(lia)) as Hmid.
  assert (Hhalf : 500000 - currentSupply <= (1 + (1000000 - currentSupply)) ÷ 2
                  \/ 313 <= currentSupply).
  { destruct (Z_le_gt_dec 313 currentSupply) as [Hhigh | Hlow];
      [right; exact Hhigh | left].
    Z.to_euclidean_division_equations. lia. }
  apply searchLoop_first_probe_throws; [lia |].
  destruct (Z_le_gt_dec 313 currentSupply) as [Hhigh | Hlow].
  - unfold calculatePriceImpact.
    rewrite price_unsafe_power.
    + reflexivity.
    + lia.
    + unfold safe, SAFE_LIMIT. lia.
    + apply pow_1_1_x1000_unsafe. exact Hhigh.
  - destruct Hhalf as [Hhalf | Hhigh]; [| lia].
    apply impact_unsafe_power.
    + destruct (Z_le_gt_dec currentSupply 0) as [Hle | Hgt];
        [left; exact Hle | right].
      split; [unfold safe, SAFE_LIMIT; lia |].
      apply pow_1_1_x1000_safe. lia.
    + cbn [supplyAfter]. lia.
    + cbn [supplyAfter]. unfold safe, SAFE_LIMIT. lia.
    + cbn [supplyAfter]. apply pow_1_1_x1000_unsafe.
      Z.to_euclidean_division_equations. lia.
Qed.

Lemma optimal_size_of_a_buy_throws_witness :
  0 <= 100 < MAX_SUPPLY CURVE_CONSTANTS
  /\ calculateOptimalTradeSize CURVE_CONSTANTS 100 (5 # 1) true 1000000
     = Thrown "Assertion failed".
Proof.
  assert (Hsupply : 0 <= 100 < MAX_SUPPLY CURVE_CONSTANTS) by (cbn; lia).
  split; [exact Hsupply |].
  exact (optimal_size_of_a_buy_throws 100 (5 # 1) 1000000 Hsupply).
Defined.

(** * Properties of the chat room's message list *)

(** X17.  Liking a message twice restores the list: [handleLike] with the
    same id applied twice gives back the messages as they were, likes and
    flags included. *)
Theorem like_twice_restores_the_list (messageId : string)
    (prev : list ChatRoom.Message) :
  ChatRoom.handleLike messageId (ChatRoom.handleLike messageId prev) = prev.
Proof.
  unfold ChatRoom.handleLike. rewrite map_map.
  rewrite <- (map_id prev) at 2. apply map_ext.
  intros [msgId msgSender msgContent msgTime msgTips msgLikes liked tipped].
  cbn [ChatRoom.id].
  destruct (String.eqb msgId messageId) eqn:Hid; cbn [ChatRoom.id];
    rewrite Hid; [| reflexivity].
  cbn [ChatRoom.id ChatRoom.sender ChatRoom.content ChatRoom.timestamp
       ChatRoom.tips ChatRoom.likes ChatRoom.isLiked ChatRoom.isTipped].
  destruct liked; cbn [negb]; f_equal; lia.
Qed.

(** X18.  [handleLike] keeps the length and the order of the list and, in
    every message, all fields but [likes] and [isLiked].  A message with
    another id is unchanged; a message with the given id has [isLiked]
    flipped and [likes] changed by one, up when it becomes liked and down
    when it stops being liked. *)
Theorem like_changes_only_the_liked_message (messageId : string)
    (prev : list ChatRoom.Message) :
  Forall2
    (fun before after =>
       ChatRoom.id after = ChatRoom.id before
       /\ ChatRoom.sender after = ChatRoom.sender before
       /\ ChatRoom.content after = ChatRoom.content before
       /\ ChatRoom.timestamp after = ChatRoom.timestamp before
       /\ ChatRoom.tips after = ChatRoom.tips before
       /\ ChatRoom.isTipped after = ChatRoom.isTipped before
       /\ (ChatRoom.id before <> messageId -> after = before)
       /\ (ChatRoom.id before = messageId ->
           ChatRoom.isLiked after = negb (ChatRoom.isLiked before)
           /\ ChatRoom.likes after
              = ChatRoom.likes before
                + (if ChatRoom.isLiked after then 1 else -1)))
    prev (ChatRoom.handleLike messageId prev).
Proof.
  induction prev as [| msg rest IH]; [constructor |].
  cbn [ChatRoom.handleLike map]. constructor; [| exact IH].
  destruct (String.eqb_spec (ChatRoom.id msg) messageId) as [Hsame | Hother].
  - cbn [ChatRoom.id ChatRoom.sender ChatRoom.content ChatRoom.timestamp
         ChatRoom.tips ChatRoom.likes ChatRoom.isLiked ChatRoom.isTipped].
    do 6 (split; [reflexivity |]).
    split; [intros Hne; contradiction |].
    intros _. split; [reflexivity |].
    destruct (ChatRoom.isLiked msg); cbn [negb]; lia.
  - do 6 (split; [reflexivity |]).
    split; [intros _; reflexivity | intros Heq; contradiction].
Qed.

(** X19.  Likes and tips do not interfere: liking one message and tipping
    another, or the same one, give the same list in either order. *)
Theorem like_and_tip_commute (connected : bool) (likedId tippedId : string)
    (prev : list ChatRoom.Message) :
  ChatRoom.handleLike likedId (ChatRoom.handleTip connected tippedId prev)
  = ChatRoom.handleTip connected tippedId (ChatRoom.handleLike likedId prev).
Proof.
  destruct connected; [| reflexivity].
  unfold ChatRoom.handleLike, ChatRoom.handleTip. cbn [negb].
  rewrite !map_map. apply map_ext. intros msg.
  destruct (String.eqb (ChatRoom.id msg) tippedId) eqn:Htip;
    destruct (String.eqb (ChatRoom.id msg) likedId) eqn:Hlike;
    cbn [ChatRoom.id]; rewrite ?Htip, ?Hlike; reflexivity.
Qed.

(** X20.  Without a connected wallet [handleTip] leaves the list as it is;
    with one, tipping the same message twice restores the list. *)
Theorem tip_needs_a_wallet_and_twice_restores (messageId : string)
    (prev : list ChatRoom.Message) :
  ChatRoom.handleTip false messageId prev = prev
  /\ ChatRoom.handleTip true messageId
       (ChatRoom.handleTip true messageId prev)
     = prev.
Proof.
  split; [reflexivity |].
  unfold ChatRoom.handleTip. cbn [negb]. rewrite map_map.
  rewrite <- (map_id prev) at 2. apply map_ext.
  intros [msgId msgSender msgContent msgTime msgTips msgLikes liked tipped].
  cbn [ChatRoom.id].
  destruct (String.eqb msgId messageId) eqn:Hid; cbn [ChatRoom.id];
    rewrite Hid; [| reflexivity].
  cbn [ChatRoom.id ChatRoom.sender ChatRoom.content ChatRoom.timestamp
       ChatRoom.tips ChatRoom.likes ChatRoom.isLiked ChatRoom.isTipped].
  destruct tipped; cbn [negb]; f_equal; lia.
Qed.
